(** * FocusLog: the capture / classify / rollup engine

    A shallow embedding of [focuslogd/database.py], [focuslogd/summarizer.py],
    [focuslogd/daemon.py] and [focuslogd/video_generator.py], followed by
    the properties of the engine.

    Conventions of the embedding.

    - A naive [datetime] is a number of seconds ([Z]) on the local wall clock,
      counted from an instant aligned on an hour.  Every value stored in
      [captures.timestamp], [summaries.start_time] and [summaries.end_time],
      and every bound they are compared with, goes through
      [datetime.isoformat()], whose text order is the chronological order, so
      the SQL comparisons on these columns are comparisons on [Z].
    - [labels.last_used] is kept as the text SQLite stores, because two
      writers with two formats fill it ([DEFAULT CURRENT_TIMESTAMP] on
      insertion, [datetime.now().isoformat()] on update) and
      [ORDER BY last_used] compares the texts byte-wise.
    - A table is the list of its rows in rowid order; [AUTOINCREMENT] ids come
      from a per-table sequence counter.  The column [created_at] is written
      by a default and read by no branch of the engine; it is left out.
    - Clock readings, the screen grabber, the classifier, the summarizer and
      the video encoder are inputs of the functions that consult them.
    - The background threads of the daemon are modelled twice.  In
      [Daemon] each thread runs to its end at the point where it is
      started, with its own clock reading: this is the daemon when no two
      threads are under way at once.  In [Threads] the threads are
      interleaved: a generation thread is cut in two atomic steps at its
      call to the remote model, and a run is any list of such steps and of
      steps of the main loop, so that threads started from the same
      watermark can be under way together.
    - A Python [str] is the list of the bytes of its UTF-8 encoding.
    - Console output, the statistics shown at start and stop, and the text
      of the prompts sent to the remote model are left out: no branch
      depends on them. *)

From Stdlib Require Import ZArith List String Ascii Bool Lia.
From Stdlib Require Import Sorted Permutation.
Import ListNotations.
Open Scope string_scope.
Open Scope list_scope.
Open Scope Z_scope.

(** ** database.py *)

Module Database.

Definition bytes : Type := list Byte.byte.

(** Outcome of a statement that SQLite may reject. *)
Inductive sqlite_result (A : Type) : Type :=
| Done (a : A)
| IntegrityError (msg : string).
Arguments Done {A} a.
Arguments IntegrityError {A} msg.

Record label_row : Type := mk_label {
  label_id : Z;
  label_name : string;
  label_last_used : string }.

Record capture_row : Type := mk_capture {
  cap_id : Z;
  cap_timestamp : Z;
  cap_screenshot : option bytes;
  cap_description : option string;
  cap_classification_raw : option string;
  cap_classification_error : option string }.

Record summary_row : Type := mk_summary {
  sum_id : Z;
  sum_type : string;
  sum_start_time : Z;
  sum_end_time : Z;
  sum_content : string;
  sum_video_path : option string }.

(** The connection's database.  [screenshot_not_null] records the constraint
    the existing [captures] table carries on its [screenshot] column. *)
Record FocusLogDB : Type := mk_db {
  screenshot_not_null : bool;
  labels : list label_row;
  labels_seq : Z;
  captures : list capture_row;
  captures_seq : Z;
  captures_labels : list (Z * Z);
  summaries : list summary_row;
  summaries_seq : Z }.

(** [_create_tables] on a new file: [screenshot BLOB NOT NULL], no rows. *)
Definition _create_tables : FocusLogDB :=
  {| screenshot_not_null := true;
     labels := []; labels_seq := 0;
     captures := []; captures_seq := 0;
     captures_labels := [];
     summaries := []; summaries_seq := 0 |}.

Definition set_labels (db : FocusLogDB) (l : list label_row) (seq : Z) : FocusLogDB :=
  {| screenshot_not_null := screenshot_not_null db;
     labels := l; labels_seq := seq;
     captures := captures db; captures_seq := captures_seq db;
     captures_labels := captures_labels db;
     summaries := summaries db; summaries_seq := summaries_seq db |}.

Definition set_captures (db : FocusLogDB) (l : list capture_row) (seq : Z) : FocusLogDB :=
  {| screenshot_not_null := screenshot_not_null db;
     labels := labels db; labels_seq := labels_seq db;
     captures := l; captures_seq := seq;
     captures_labels := captures_labels db;
     summaries := summaries db; summaries_seq := summaries_seq db |}.

Definition set_captures_labels (db : FocusLogDB) (l : list (Z * Z)) : FocusLogDB :=
  {| screenshot_not_null := screenshot_not_null db;
     labels := labels db; labels_seq := labels_seq db;
     captures := captures db; captures_seq := captures_seq db;
     captures_labels := l;
     summaries := summaries db; summaries_seq := summaries_seq db |}.

Definition set_summaries (db : FocusLogDB) (l : list summary_row) (seq : Z) : FocusLogDB :=
  {| screenshot_not_null := screenshot_not_null db;
     labels := labels db; labels_seq := labels_seq db;
     captures := captures db; captures_seq := captures_seq db;
     captures_labels := captures_labels db;
     summaries := l; summaries_seq := seq |}.

(** [ORDER BY]: a stable insertion sort, rows with equal keys stay in rowid
    order. *)
Section OrderBy.
Context {A : Type} (leb : A -> A -> bool).

Fixpoint insert_row (x : A) (l : list A) : list A :=
  match l with
  | [] => [x]
  | y :: l' => if leb x y then x :: y :: l' else y :: insert_row x l'
  end.

Fixpoint order_by (l : list A) : list A :=
  match l with
  | [] => []
  | x :: l' => insert_row x (order_by l')
  end.

End OrderBy.

(** The two clock texts one call of [get_or_create_label] may store:
    [datetime.now().isoformat()] (local time, [T] separator) and SQLite's
    [CURRENT_TIMESTAMP] (UTC, blank separator, whole seconds). *)
Record label_clock : Type := mk_clock {
  now_isoformat : string;
  current_timestamp : string }.

(** [UPDATE labels SET last_used = ? WHERE id = ?], row by row. *)
Definition touch (id : Z) (last_used : string) (r : label_row) : label_row :=
  if label_id r =? id then mk_label (label_id r) (label_name r) last_used else r.

Definition get_or_create_label (db : FocusLogDB) (label_name_ : string)
    (clk : label_clock) : FocusLogDB * Z :=
  match find (fun r => String.eqb (label_name r) label_name_) (labels db) with
  | Some row =>
      (set_labels db
         (map (touch (label_id row) (now_isoformat clk)) (labels db))
         (labels_seq db),
       label_id row)
  | None =>
      let new_id := labels_seq db + 1 in
      (set_labels db
         (labels db ++ [mk_label new_id label_name_ (current_timestamp clk)])
         new_id,
       new_id)
  end.

(** [SELECT name FROM labels ORDER BY last_used DESC]. *)
Definition get_all_labels (db : FocusLogDB) : list string :=
  map label_name
    (order_by (fun a b => String.leb (label_last_used b) (label_last_used a))
       (labels db)).

Definition insert_or_ignore (p : Z * Z) (l : list (Z * Z)) : list (Z * Z) :=
  if existsb (fun q => (fst q =? fst p) && (snd q =? snd p)) l then l else l ++ [p].

(** The label loop of [save_capture]; [clocks i] are the clock texts at the
    [i]-th call of [get_or_create_label]. *)
Fixpoint attach_labels (db : FocusLogDB) (capture_id : Z) (names : list string)
    (clocks : nat -> label_clock) (i : nat) : FocusLogDB :=
  match names with
  | [] => db
  | n :: rest =>
      let '(db1, lid) := get_or_create_label db n (clocks i) in
      let db2 := set_captures_labels db1
                   (insert_or_ignore (capture_id, lid) (captures_labels db1)) in
      attach_labels db2 capture_id rest clocks (S i)
  end.

Definition save_capture (db : FocusLogDB) (screenshot : bytes)
    (description : option string) (labels_ : option (list string))
    (classification_raw classification_error : option string)
    (timestamp : option Z) (now : Z) (clocks : nat -> label_clock)
    : FocusLogDB * Z :=
  let timestamp := match timestamp with Some t => t | None => now end in
  let capture_id := captures_seq db + 1 in
  let db1 := set_captures db
               (captures db ++
                  [mk_capture capture_id timestamp (Some screenshot) description
                     classification_raw classification_error])
               capture_id in
  let db2 := match labels_ with
             | Some (n :: rest) => attach_labels db1 capture_id (n :: rest) clocks 0
             | _ => db1
             end in
  (db2, capture_id).

Definition save_summary (db : FocusLogDB) (summary_type : string)
    (start_time end_time : Z) (content : string) (video_path : option string)
    : FocusLogDB * Z :=
  let new_id := summaries_seq db + 1 in
  (set_summaries db
     (summaries db ++
        [mk_summary new_id summary_type start_time end_time content video_path])
     new_id,
   new_id).

(** The 5-minute window of a capture:
    [capture_time.replace(minute=(minute // 5) * 5, second=0, microsecond=0)]. *)
Definition window_start (capture_time : Z) : Z :=
  let minutes := (capture_time / 60) mod 60 in
  let window_minute := (minutes / 5) * 5 in
  (capture_time / 3600) * 3600 + window_minute * 60.

Definition in_range (start_time end_time : Z) (r : capture_row) : bool :=
  (start_time <=? cap_timestamp r) && (cap_timestamp r <? end_time).

Definition by_timestamp (a b : capture_row) : bool :=
  cap_timestamp a <=? cap_timestamp b.

(** State of the grouping loop: [current_window_start], [thumbnails],
    [to_delete]. *)
Definition scan_state : Type := (option Z * list Z * list Z)%type.

Definition scan_step (st : scan_state) (capture : capture_row) : scan_state :=
  let '(current_window_start, thumbnails, to_delete) := st in
  let ws := window_start (cap_timestamp capture) in
  match current_window_start with
  | Some w =>
      if w =? ws
      then (current_window_start, thumbnails, to_delete ++ [cap_id capture])
      else (Some ws, thumbnails ++ [cap_id capture], to_delete)
  | None => (Some ws, thumbnails ++ [cap_id capture], to_delete)
  end.

Definition scan (rows : list capture_row) : scan_state :=
  fold_left scan_step rows (None, [], []).

Definition id_in (ids : list Z) (i : Z) : bool := existsb (Z.eqb i) ids.

(** [UPDATE captures SET screenshot = NULL WHERE id IN (ids)]: rejected as a
    whole when the column is [NOT NULL] and a row matches. *)
Definition null_payload (ids : list Z) (r : capture_row) : capture_row :=
  if id_in ids (cap_id r)
  then mk_capture (cap_id r) (cap_timestamp r) None (cap_description r)
         (cap_classification_raw r) (cap_classification_error r)
  else r.

Definition update_screenshot_null (db : FocusLogDB) (ids : list Z)
    : sqlite_result FocusLogDB :=
  if screenshot_not_null db && existsb (fun r => id_in ids (cap_id r)) (captures db)
  then IntegrityError "NOT NULL constraint failed: captures.screenshot"
  else Done (set_captures db (map (null_payload ids) (captures db))
               (captures_seq db)).

Record cleanup_report : Type := mk_report {
  kept : Z;
  deleted : Z;
  thumbnails : list Z }.

(** Returns the database after the call and what the call returned or
    raised; a raised call leaves the database as it was. *)
Definition cleanup_screenshots_except_thumbnails (db : FocusLogDB)
    (start_time end_time : Z) : FocusLogDB * sqlite_result cleanup_report :=
  let rows := order_by by_timestamp (filter (in_range start_time end_time) (captures db)) in
  match rows with
  | [] => (db, Done (mk_report 0 0 []))
  | _ =>
      let '(_, thumbs, to_delete) := scan rows in
      let report := mk_report (Z.of_nat (List.length thumbs)) (Z.of_nat (List.length to_delete)) thumbs in
      match to_delete with
      | [] => (db, Done report)
      | _ =>
          match update_screenshot_null db to_delete with
          | Done db' => (db', Done report)
          | IntegrityError msg => (db, IntegrityError msg)
          end
      end
  end.

(** What [dict(row)] holds for a row of [summaries] (no [video_path]). *)
Record summary_dict : Type := mk_summary_dict {
  sd_id : Z;
  sd_summary_type : string;
  sd_start_time : Z;
  sd_end_time : Z;
  sd_content : string }.

Definition summary_dict_of (r : summary_row) : summary_dict :=
  mk_summary_dict (sum_id r) (sum_type r) (sum_start_time r) (sum_end_time r)
    (sum_content r).

Definition of_type (summary_type : string) (r : summary_row) : bool :=
  String.eqb (sum_type r) summary_type.

(** [... WHERE summary_type = ? ORDER BY end_time DESC LIMIT 1]. *)
Definition get_latest_summary (db : FocusLogDB) (summary_type : string)
    : option summary_dict :=
  match order_by (fun a b => sum_end_time b <=? sum_end_time a)
          (filter (of_type summary_type) (summaries db)) with
  | row :: _ => Some (summary_dict_of row)
  | [] => None
  end.

(** What [dict(row)] plus the [labels] key holds for a row of [captures];
    [cd_screenshot] is [None] when the key was not selected. *)
Record capture_dict : Type := mk_capture_dict {
  cd_id : Z;
  cd_timestamp : Z;
  cd_screenshot : option (option bytes);
  cd_description : option string;
  cd_classification_raw : option string;
  cd_classification_error : option string;
  cd_labels : list string }.

Definition labels_of (db : FocusLogDB) (capture_id : Z) : list string :=
  flat_map
    (fun cl => if fst cl =? capture_id
               then map label_name (filter (fun l => label_id l =? snd cl) (labels db))
               else [])
    (captures_labels db).

Definition capture_dict_of (db : FocusLogDB) (include_screenshots : bool)
    (r : capture_row) : capture_dict :=
  mk_capture_dict (cap_id r) (cap_timestamp r)
    (if include_screenshots then Some (cap_screenshot r) else None)
    (cap_description r) (cap_classification_raw r) (cap_classification_error r)
    (labels_of db (cap_id r)).

(** [... FROM captures WHERE timestamp > ? ORDER BY timestamp ASC]. *)
Definition get_captures_since (db : FocusLogDB) (since_time : Z)
    (include_screenshots : bool) : list capture_dict :=
  map (capture_dict_of db include_screenshots)
    (order_by by_timestamp
       (filter (fun r => since_time <? cap_timestamp r) (captures db))).

(** [... WHERE summary_type = ? AND start_time >= ? AND end_time <= ?
    ORDER BY start_time ASC]. *)
Definition get_summaries_in_range (db : FocusLogDB) (summary_type : string)
    (start_time end_time : Z) : list summary_dict :=
  map summary_dict_of
    (order_by (fun a b => sum_start_time a <=? sum_start_time b)
       (filter (fun r => of_type summary_type r
                         && (start_time <=? sum_start_time r)
                         && (sum_end_time r <=? end_time))
          (summaries db))).

End Database.

(** ** summarizer.py *)

Module Summarizer.
Import Database.

Definition error_marker : string := "Error generating summary:".

(** [s.startswith(p)]. *)
Definition startswith (s p : string) : bool := String.prefix p s.

(** A Python [str] is held as its UTF-8 encoding; [utf8 n] is the encoding
    of the code point [n]. *)
Definition byte (n : N) : string := String (ascii_of_N n) EmptyString.

Definition utf8 (n : N) : string :=
  (if n <? 128 then byte n
   else if n <? 2048 then byte (192 + n / 64) ++ byte (128 + n mod 64)
   else if n <? 65536 then
     byte (224 + n / 4096) ++ byte (128 + (n / 64) mod 64) ++ byte (128 + n mod 64)
   else
     byte (240 + n / 262144) ++ byte (128 + (n / 4096) mod 64)
       ++ byte (128 + (n / 64) mod 64) ++ byte (128 + n mod 64))%N%string.

(** The characters [str.strip()] removes, those [str.isspace] holds of:
    U+0009 to U+000D, U+001C to U+0020, U+0085, U+00A0, U+1680, U+2000 to
    U+200A, U+2028, U+2029, U+202F, U+205F and U+3000. *)
Definition whitespace_points : list N :=
  [9; 10; 11; 12; 13; 28; 29; 30; 31; 32; 133; 160; 5760;
   8192; 8193; 8194; 8195; 8196; 8197; 8198; 8199; 8200; 8201; 8202;
   8232; 8233; 8239; 8287; 12288]%N.

Definition whitespace : list string := map utf8 whitespace_points.

(** [w] is one white-space character. *)
Definition isspace (w : string) : bool := existsb (String.eqb w) whitespace.

(** [s] without the white-space character it begins with, if it begins
    with one; the encodings are one to three bytes long. *)
Definition drop_space (s : string) : option string :=
  match s with
  | EmptyString => None
  | String a s1 =>
      if isspace (String a EmptyString) then Some s1
      else
        match s1 with
        | EmptyString => None
        | String b s2 =>
            if isspace (String a (String b EmptyString)) then Some s2
            else
              match s2 with
              | EmptyString => None
              | String c s3 =>
                  if isspace (String a (String b (String c EmptyString)))
                  then Some s3 else None
              end
        end
  end.

Fixpoint lstrip (s : string) : string :=
  match s with
  | EmptyString => EmptyString
  | String a s1 =>
      if isspace (String a EmptyString) then lstrip s1
      else
        match s1 with
        | EmptyString => s
        | String b s2 =>
            if isspace (String a (String b EmptyString)) then lstrip s2
            else
              match s2 with
              | EmptyString => s
              | String c s3 =>
                  if isspace (String a (String b (String c EmptyString)))
                  then lstrip s3 else s
              end
        end
  end.

(** Every character of the text is white space. *)
Fixpoint all_space (s : string) : bool :=
  match s with
  | EmptyString => true
  | String a s1 =>
      if isspace (String a EmptyString) then all_space s1
      else
        match s1 with
        | EmptyString => false
        | String b s2 =>
            if isspace (String a (String b EmptyString)) then all_space s2
            else
              match s2 with
              | EmptyString => false
              | String c s3 =>
                  if isspace (String a (String b (String c EmptyString)))
                  then all_space s3 else false
              end
        end
  end.

(** The text up to its last character that is not white space. *)
Fixpoint rstrip (s : string) : string :=
  match s with
  | EmptyString => EmptyString
  | String c s' => if all_space s then EmptyString else String c (rstrip s')
  end.

(** [str.strip()]. *)
Definition strip (s : string) : string := rstrip (lstrip s).

(** The parts of the object [client.responses.create] returns that the
    generator reads.  [status = None] and [output_text = None] stand for a
    missing attribute; [output_text = Some None] for the value [None]. *)
Record content_part : Type := mk_part {
  part_type : option string;
  part_refusal : string }.

Record output_message : Type := mk_message {
  message_content : list content_part }.

Record response : Type := mk_response {
  status : option string;
  output : list output_message;
  output_text : option (option string) }.

(** The call either returns a response or raises [e]; [traceback] is the
    text of [traceback.format_exc()]. *)
Inductive api_result : Type :=
| Returned (r : response)
| Raised (e traceback : string).

Definition newline : string := String (ascii_of_nat 10) EmptyString.

(** The refusal carried by the first content part of the first message. *)
Definition refusal_of (r : response) : option string :=
  match output r with
  | first_msg :: _ =>
      match message_content first_msg with
      | first_content :: _ =>
          match part_type first_content with
          | Some t => if String.eqb t "refusal" then Some (part_refusal first_content)
                      else None
          | None => None
          end
      | [] => None
      end
  | [] => None
  end.

(** The [try] block shared, line for line, by [generate_5min_summary] and
    [generate_hourly_summary]. *)
Definition summary_of_api_result (api : api_result) : string :=
  match api with
  | Raised e traceback =>
      "Error generating summary: " ++ e ++ newline ++ traceback
  | Returned r =>
      match status r with
      | None => "Error generating summary: Invalid response object"
      | Some st =>
          if negb (String.eqb st "completed")
          then "Error generating summary: Response status " ++ st
          else
            match refusal_of r with
            | Some refusal => "Error generating summary: " ++ refusal
            | None =>
                match output_text r with
                | None => "Error generating summary: No output_text in response"
                | Some None => "Error generating summary: API returned empty content"
                | Some (Some content) =>
                    if String.eqb content ""
                    then "Error generating summary: API returned empty content"
                    else strip content
                end
            end
      end
  end.

(** The prompt built from [captures] only reaches the remote model, whose
    answer is the input [api]. *)
Definition generate_5min_summary (captures_ : list capture_dict)
    (api : api_result) : string :=
  match captures_ with
  | [] => "No activity captured in this period."
  | _ => summary_of_api_result api
  end.

Definition generate_hourly_summary (five_min_summaries : list summary_dict)
    (api : api_result) : string :=
  match five_min_summaries with
  | [] => "No activity captured in this hour."
  | _ => summary_of_api_result api
  end.

(** The response went through every check of the [try] block: the generator
    returns the model's own text. *)
Definition completed (api : api_result) : option string :=
  match api with
  | Raised _ _ => None
  | Returned r =>
      match status r, refusal_of r, output_text r with
      | Some st, None, Some (Some content) =>
          if String.eqb st "completed" && negb (String.eqb content "")
          then Some content else None
      | _, _, _ => None
      end
  end.

End Summarizer.

(** ** daemon.py *)

Module Daemon.
Import Database Summarizer.

Record FocusLogDaemon : Type := mk_daemon {
  interval : Z;
  running : bool;
  db : FocusLogDB;
  last_5min_summary : Z;
  last_hourly_summary : Z }.

Definition set_db (d : FocusLogDaemon) (db' : FocusLogDB) : FocusLogDaemon :=
  mk_daemon (interval d) (running d) db' (last_5min_summary d) (last_hourly_summary d).

Definition set_last_5min (d : FocusLogDaemon) (t : Z) : FocusLogDaemon :=
  mk_daemon (interval d) (running d) (db d) t (last_hourly_summary d).

Definition set_last_hourly (d : FocusLogDaemon) (t : Z) : FocusLogDaemon :=
  mk_daemon (interval d) (running d) (db d) (last_5min_summary d) t.

(** [__init__]: the watermarks are seeded from the latest rollups on disk;
    [now_5min] and [now_hourly] are the two readings of [datetime.now()]. *)
Definition __init__ (interval_ : Z) (db_ : FocusLogDB) (now_5min now_hourly : Z)
    : FocusLogDaemon :=
  let last_5min := get_latest_summary db_ "5min" in
  let last_hourly := get_latest_summary db_ "hourly" in
  {| interval := interval_;
     running := false;
     db := db_;
     last_5min_summary :=
       match last_5min with
       | Some s => sd_end_time s
       | None => now_5min - 5 * 60
       end;
     last_hourly_summary :=
       match last_hourly with
       | Some s => sd_end_time s
       | None => now_hourly - 3600
       end |}.

(** The dict [ScreenshotClassifier.classify] returns. *)
Record classification : Type := mk_classification {
  success : bool;
  cls_labels : list string;
  cls_description : option string;
  raw_response : option string;
  error : option string }.

Definition _classify_and_save (d : FocusLogDaemon) (screenshot_data : bytes)
    (timestamp : Z) (result : classification) (clocks : nat -> label_clock)
    : FocusLogDaemon :=
  if success result then
    match cls_description result with
    | Some description =>
        set_db d (fst (save_capture (db d) screenshot_data (Some description)
                         (Some (cls_labels result)) (raw_response result) None
                         (Some timestamp) timestamp clocks))
    | None => d  (* [len(description)] raises; the handler only prints *)
    end
  else
    set_db d (fst (save_capture (db d) screenshot_data None None None
                     (error result) (Some timestamp) timestamp clocks)).

(** What one capture cycle reads from outside. *)
Record capture_env : Type := mk_capture_env {
  ce_timestamp : Z;
  ce_capture : option bytes;
  ce_classification : classification;
  ce_clocks : nat -> label_clock }.

Definition _capture_and_classify (d : FocusLogDaemon) (env : capture_env)
    : FocusLogDaemon :=
  let timestamp := ce_timestamp env in
  match ce_capture env with
  | None =>
      set_db d (fst (save_capture (db d) [] None None None
                       (Some "Screenshot capture failed")
                       (Some timestamp) timestamp (ce_clocks env)))
  | Some screenshot_data =>
      _classify_and_save d screenshot_data timestamp (ce_classification env)
        (ce_clocks env)
  end.

Definition _generate_5min_summary (d : FocusLogDaemon) (now : Z)
    (api : api_result) : FocusLogDaemon :=
  let start_time := last_5min_summary d in
  let captures_ := get_captures_since (db d) start_time false in
  match captures_ with
  | [] => set_last_5min d now
  | _ =>
      let summary := generate_5min_summary captures_ api in
      if startswith summary "Error generating summary:" then d
      else
        let '(db', _) := save_summary (db d) "5min" start_time now summary None in
        set_last_5min (set_db d db') now
  end.

(** [capture.get('screenshot')] is truthy: present, not NULL, not empty. *)
Definition has_frame (c : capture_dict) : bool :=
  match cd_screenshot c with
  | Some (Some (_ :: _)) => true
  | _ => false
  end.

Definition _generate_hourly_summary (d : FocusLogDaemon) (now : Z)
    (api : api_result) (video_path_full : string) (video_success : bool)
    : FocusLogDaemon :=
  let start_time := last_hourly_summary d in
  let five_min_summaries := get_summaries_in_range (db d) "5min" start_time now in
  match five_min_summaries with
  | [] => set_last_hourly d now
  | _ =>
      let summary := generate_hourly_summary five_min_summaries api in
      if startswith summary "Error generating summary:" then d
      else
        let captures_ := get_captures_since (db d) start_time true in
        let screenshot_paths := filter has_frame captures_ in
        let video_path :=
          match screenshot_paths with
          | [] => None
          | _ => if video_success then Some video_path_full else None
          end in
        let '(db1, _) := save_summary (db d) "hourly" start_time now summary video_path in
        match cleanup_screenshots_except_thumbnails db1 start_time now with
        | (db2, Done _) => set_last_hourly (set_db d db2) now
        | (db2, IntegrityError _) => set_db d db2  (* the handler only prints *)
        end
  end.

(** What one round of due-checks reads from outside: the reading of the
    check, then for each thread its own reading and its collaborators. *)
Record summaries_env : Type := mk_summaries_env {
  se_now : Z;
  se_now_5min : Z;
  se_api_5min : api_result;
  se_now_hourly : Z;
  se_api_hourly : api_result;
  se_video_path_full : string;
  se_video_success : bool }.

Definition _check_and_generate_summaries (d : FocusLogDaemon)
    (env : summaries_env) : FocusLogDaemon :=
  let now := se_now env in
  let time_since_5min := now - last_5min_summary d in
  let time_since_hourly := now - last_hourly_summary d in
  let d1 := if 300 <=? time_since_5min
            then _generate_5min_summary d (se_now_5min env) (se_api_5min env)
            else d in
  if 3600 <=? time_since_hourly
  then _generate_hourly_summary d1 (se_now_hourly env) (se_api_hourly env)
         (se_video_path_full env) (se_video_success env)
  else d1.

(** The main loop.  [clock] is the reading [time.time()] would give at the
    top of the iteration, in any fixed unit. *)
Record loop_state : Type := mk_loop {
  daemon : FocusLogDaemon;
  clock : Z;
  iteration : Z;
  next_capture_time : Z }.

(** What one iteration reads from outside.  [oversleep] is how far past the
    requested delay [time.sleep] returns, [dispatch] the time from there to
    the reading that schedules the next capture, [work] the time the capture
    and the due-checks take, [stop_requested] a signal handled during the
    iteration. *)
Record tick_env : Type := mk_tick_env {
  oversleep : Z;
  dispatch : Z;
  work : Z;
  te_capture : capture_env;
  te_summaries : summaries_env;
  stop_requested : bool }.

(** [sleep_time], when the loop sleeps at all. *)
Definition sleep_time (st : loop_state) : option Z :=
  let now := clock st in
  if now <? next_capture_time st then Some (next_capture_time st - now) else None.

(** The reading of [time.time()] that schedules the next capture. *)
Definition capture_started (st : loop_state) (env : tick_env) : Z :=
  let woke :=
    match sleep_time st with
    | Some s => clock st + s + oversleep env
    | None => clock st
    end in
  woke + dispatch env.

(** One pass through the body of [while self.running].  None of the callees
    raises into the body (each thread handles its own exceptions), so the
    handler of the loop, which re-schedules with a fresh reading of the clock
    plus the interval, is not entered. *)
Definition run_iteration (st : loop_state) (env : tick_env) : loop_state :=
  let started := capture_started st env in
  let next := started + interval (daemon st) in
  let d1 := _capture_and_classify (daemon st) (te_capture env) in
  let d2 := _check_and_generate_summaries d1 (te_summaries env) in
  let d3 := if stop_requested env
            then mk_daemon (interval d2) false (db d2) (last_5min_summary d2)
                   (last_hourly_summary d2)
            else d2 in
  {| daemon := d3;
     clock := started + work env;
     iteration := iteration st + 1;
     next_capture_time := next |}.

(** [run]: the iterations made while [running] holds, on the inputs [envs]. *)
Fixpoint run_loop (st : loop_state) (envs : list tick_env) : loop_state :=
  match envs with
  | [] => st
  | env :: rest =>
      if running (daemon st) then run_loop (run_iteration st env) rest else st
  end.

Definition run (d : FocusLogDaemon) (start : Z) (envs : list tick_env) : loop_state :=
  let d := mk_daemon (interval d) true (db d) (last_5min_summary d)
             (last_hourly_summary d) in
  run_loop {| daemon := d; clock := start; iteration := 0;
              next_capture_time := start |} envs.

(** The deadlines scheduled by the successive iterations. *)
Fixpoint deadlines (st : loop_state) (envs : list tick_env) : list Z :=
  match envs with
  | [] => []
  | env :: rest =>
      let st' := run_iteration st env in
      next_capture_time st' :: deadlines st' rest
  end.

End Daemon.

(** ** daemon.py: the threads and their interleaving

    The main loop starts a thread for every classification and for every
    due generation, and goes on without waiting for it; the threads share
    the daemon object and its connection, without a lock.  A thread is run
    here in steps cut at its call of the remote model: the statements
    before the call are one step, the statements after it another.  The
    steps of the threads and of the main loop follow one another in any
    order. *)

Module Threads.
Import Database Summarizer Daemon.

(** What a call gives back: a value, or an exception that leaves it. *)
Inductive outcome (A : Type) : Type :=
| Value (a : A)
| Exception (e : string).
Arguments Value {A} a.
Arguments Exception {A} e.

(** What a 5-minute generation holds while the summarizer is asked: its
    reading of the clock, the watermark it read, the captures it fetched. *)
Record pending_5min : Type := mk_pending_5min {
  p5_now : Z;
  p5_start_time : Z;
  p5_captures : list capture_dict }.

(** [_generate_5min_summary] up to the call of the summarizer.  [None]: the
    window was empty and the thread has returned. *)
Definition _generate_5min_summary_begin (d : FocusLogDaemon) (now : Z)
    : FocusLogDaemon * option pending_5min :=
  let start_time := last_5min_summary d in
  let captures_ := get_captures_since (db d) start_time false in
  match captures_ with
  | [] => (set_last_5min d now, None)
  | _ => (d, Some (mk_pending_5min now start_time captures_))
  end.

(** [_generate_5min_summary] from the summarizer's answer on; [d] is the
    daemon as it is by then. *)
Definition _generate_5min_summary_answered (d : FocusLogDaemon)
    (p : pending_5min) (api : api_result) : FocusLogDaemon :=
  let summary := generate_5min_summary (p5_captures p) api in
  if startswith summary "Error generating summary:" then d
  else
    let '(db', _) :=
      save_summary (db d) "5min" (p5_start_time p) (p5_now p) summary None in
    set_last_5min (set_db d db') (p5_now p).

Record pending_hourly : Type := mk_pending_hourly {
  ph_now : Z;
  ph_start_time : Z;
  ph_five_min_summaries : list summary_dict }.

(** [_generate_hourly_summary] up to the call of the summarizer. *)
Definition _generate_hourly_summary_begin (d : FocusLogDaemon) (now : Z)
    : FocusLogDaemon * option pending_hourly :=
  let start_time := last_hourly_summary d in
  let five_min_summaries := get_summaries_in_range (db d) "5min" start_time now in
  match five_min_summaries with
  | [] => (set_last_hourly d now, None)
  | _ => (d, Some (mk_pending_hourly now start_time five_min_summaries))
  end.

(** What staging the frames and encoding them reads from outside: the path
    of the video, an error of [tempfile.mkdtemp], an error of
    [write_bytes], and what the call of [generate_video] gives back. *)
Record video_staging : Type := mk_video_staging {
  vs_video_path_full : string;
  vs_mkdtemp : option string;
  vs_write_bytes : option string;
  vs_generate_video : outcome bool }.

(** The video block of [_generate_hourly_summary]: the path to attach, or
    the exception that leaves the block ([finally] only removes the
    temporary directory). *)
Definition stage_video (captures_ : list capture_dict) (v : video_staging)
    : outcome (option string) :=
  match captures_ with
  | [] => Value None
  | _ =>
      match vs_mkdtemp v with
      | Some e => Exception e
      | None =>
          let screenshot_paths := filter has_frame captures_ in
          match screenshot_paths with
          | [] => Value None
          | _ =>
              match vs_write_bytes v with
              | Some e => Exception e
              | None =>
                  match vs_generate_video v with
                  | Exception e => Exception e
                  | Value success =>
                      Value (if success then Some (vs_video_path_full v) else None)
                  end
              end
          end
      end
  end.

(** [_generate_hourly_summary] from the summarizer's answer on. *)
Definition _generate_hourly_summary_answered (d : FocusLogDaemon)
    (p : pending_hourly) (api : api_result) (v : video_staging)
    : FocusLogDaemon :=
  let start_time := ph_start_time p in
  let now := ph_now p in
  let summary := generate_hourly_summary (ph_five_min_summaries p) api in
  if startswith summary "Error generating summary:" then d
  else
    let captures_ := get_captures_since (db d) start_time true in
    match stage_video captures_ v with
    | Exception _ => d  (* the outer handler only prints *)
    | Value video_path =>
        let '(db1, _) :=
          save_summary (db d) "hourly" start_time now summary video_path in
        match cleanup_screenshots_except_thumbnails db1 start_time now with
        | (db2, Done _) => set_last_hourly (set_db d db2) now
        | (db2, IntegrityError _) => set_db d db2  (* the handler only prints *)
        end
    end.

(** A thread, by what it still has to do. *)
Inductive thread : Type :=
| Classifying (screenshot_data : bytes) (timestamp : Z)
| Starting_5min
| Asking_5min (p : pending_5min)
| Starting_hourly
| Asking_hourly (p : pending_hourly)
| Finished.

(** The daemon object and the threads started so far, in the order they
    were started; a thread is named by its position. *)
Record world : Type := mk_world {
  w_daemon : FocusLogDaemon;
  w_threads : list thread }.

Fixpoint set_thread (tid : nat) (t : thread) (l : list thread) : list thread :=
  match l, tid with
  | [], _ => []
  | _ :: l', O => t :: l'
  | x :: l', S n => x :: set_thread n t l'
  end.

(** What happens next: the main loop captures, or checks what is due; a
    started generation runs up to its call of the summarizer; a remote
    call returns to the thread that made it. *)
Inductive event : Type :=
| Capture (now : Z) (grab : option bytes) (clocks : nat -> label_clock)
| Check (now : Z)
| Begin (tid : nat) (now : Z)
| Classified (tid : nat) (result : classification) (clocks : nat -> label_clock)
| Answered_5min (tid : nat) (api : api_result)
| Answered_hourly (tid : nat) (api : api_result) (v : video_staging).

Definition step (w : world) (e : event) : world :=
  let d := w_daemon w in
  let ths := w_threads w in
  match e with
  | Capture now grab clocks =>
      (* [_capture_and_classify] in the main thread *)
      match grab with
      | None =>
          mk_world
            (set_db d (fst (save_capture (db d) [] None None None
                              (Some "Screenshot capture failed")
                              (Some now) now clocks)))
            ths
      | Some screenshot_data => mk_world d (ths ++ [Classifying screenshot_data now])
      end
  | Check now =>
      (* [_check_and_generate_summaries] in the main thread *)
      let time_since_5min := now - last_5min_summary d in
      let time_since_hourly := now - last_hourly_summary d in
      let ths1 := if 300 <=? time_since_5min then ths ++ [Starting_5min] else ths in
      let ths2 := if 3600 <=? time_since_hourly then ths1 ++ [Starting_hourly]
                  else ths1 in
      mk_world d ths2
  | Begin tid now =>
      match nth_error ths tid with
      | Some Starting_5min =>
          match _generate_5min_summary_begin d now with
          | (d', Some p) => mk_world d' (set_thread tid (Asking_5min p) ths)
          | (d', None) => mk_world d' (set_thread tid Finished ths)
          end
      | Some Starting_hourly =>
          match _generate_hourly_summary_begin d now with
          | (d', Some p) => mk_world d' (set_thread tid (Asking_hourly p) ths)
          | (d', None) => mk_world d' (set_thread tid Finished ths)
          end
      | _ => w
      end
  | Classified tid result clocks =>
      match nth_error ths tid with
      | Some (Classifying screenshot_data timestamp) =>
          mk_world (_classify_and_save d screenshot_data timestamp result clocks)
            (set_thread tid Finished ths)
      | _ => w
      end
  | Answered_5min tid api =>
      match nth_error ths tid with
      | Some (Asking_5min p) =>
          mk_world (_generate_5min_summary_answered d p api)
            (set_thread tid Finished ths)
      | _ => w
      end
  | Answered_hourly tid api v =>
      match nth_error ths tid with
      | Some (Asking_hourly p) =>
          mk_world (_generate_hourly_summary_answered d p api v)
            (set_thread tid Finished ths)
      | _ => w
      end
  end.

Definition run_events (w : world) (es : list event) : world := fold_left step es w.

(** The daemon with no thread started yet. *)
Definition boot (d : FocusLogDaemon) : world := mk_world d [].

(** *** Kinds of run *)

Inductive granularity : Type := Five_min | Hourly.

Definition watermark (g : granularity) (d : FocusLogDaemon) : Z :=
  match g with
  | Five_min => last_5min_summary d
  | Hourly => last_hourly_summary d
  end.

(** The thread is a generation of granularity [g] waiting for the
    summarizer. *)
Definition asking (g : granularity) (t : thread) : bool :=
  match g, t with
  | Five_min, Asking_5min _ => true
  | Hourly, Asking_hourly _ => true
  | _, _ => false
  end.

(** The event makes a generation of granularity [g] read the watermark. *)
Definition begins (g : granularity) (w : world) (e : event) : bool :=
  match e with
  | Begin tid _ =>
      match nth_error (w_threads w) tid, g with
      | Some Starting_5min, Five_min => true
      | Some Starting_hourly, Hourly => true
      | _, _ => false
      end
  | _ => false
  end.

(** No two generations of granularity [g] are under way at once: none
    reads the watermark while another waits for the summarizer. *)
Fixpoint one_at_a_time (g : granularity) (w : world) (es : list event) : bool :=
  match es with
  | [] => true
  | e :: es' =>
      (negb (begins g w e) || negb (existsb (asking g) (w_threads w)))
      && one_at_a_time g (step w e) es'
  end.

(** The reading of the clock an event takes. *)
Definition reading (e : event) : option Z :=
  match e with
  | Capture now _ _ => Some now
  | Check now => Some now
  | Begin _ now => Some now
  | _ => None
  end.

(** The clock never reads less than it did before; [t] is its last
    reading. *)
Fixpoint clock_never_back (t : Z) (es : list event) : bool :=
  match es with
  | [] => true
  | e :: es' =>
      match reading e with
      | Some now => (t <=? now) && clock_never_back now es'
      | None => clock_never_back t es'
      end
  end.

(** The last reading of the clock after [es]. *)
Definition last_reading (t : Z) (es : list event) : Z :=
  fold_left (fun t e => match reading e with Some now => now | None => t end) es t.


End Threads.

(** ** The persisted rollups of one granularity *)

Module Rollups.
Import Database Daemon.

(** The rollup rows of one granularity, in the order they were persisted. *)
Definition rollups (summary_type : string) (db_ : FocusLogDB) : list summary_row :=
  filter (of_type summary_type) (summaries db_).

(** [a] ends no later than [b] starts. *)
Definition precedes (a b : summary_row) : Prop :=
  sum_end_time a <= sum_start_time b.


(** The 5-minute rollups do not overlap, none is empty, and none ends after
    the in-memory watermark. *)
Definition ordered_5min (d : FocusLogDaemon) : Prop :=
  Sorted precedes (rollups "5min" (db d)) /\
  Forall (fun r => sum_start_time r < sum_end_time r /\
                   sum_end_time r <= last_5min_summary d)
    (rollups "5min" (db d)).

(** The thread body of an iteration reads the clock no earlier than the
    due-check that started it. *)
Definition clock_monotone (env : tick_env) : Prop :=
  se_now (te_summaries env) <= se_now_5min (te_summaries env).

End Rollups.

(** ** Runs with one generation of a granularity at a time *)

Module Chains.
Import Database Daemon Threads Rollups.

(** The clock reading and the watermark held by a generation of
    granularity [g] that waits for the summarizer. *)
Definition pending_of (g : granularity) (t : thread) : option (Z * Z) :=
  match g, t with
  | Five_min, Asking_5min p => Some (p5_now p, p5_start_time p)
  | Hourly, Asking_hourly p => Some (ph_now p, ph_start_time p)
  | _, _ => None
  end.

(** What a run with one generation of granularity [g] at a time keeps, [t]
    being the last reading of the clock: the watermark is a past reading;
    at most one generation waits for the summarizer, and it read the
    watermark that is still in force, at a reading between the watermark
    and [t]. *)
Definition orderly (g : granularity) (t : Z) (w : world) : Prop :=
  watermark g (w_daemon w) <= t /\
  (List.length (filter (asking g) (w_threads w)) <= 1)%nat /\
  Forall (fun th => forall now start,
              pending_of g th = Some (now, start) ->
              start = watermark g (w_daemon w) /\ start <= now <= t)
    (w_threads w).




End Chains.

(** ** What thinning is measured by *)

Module Thinning.
Import Database.

Definition window_of (r : capture_row) : Z := window_start (cap_timestamp r).

(** The rows of the range [start_time, end_time) that still hold a
    payload. *)
Definition has_payload (r : capture_row) : bool :=
  match cap_screenshot r with Some _ => true | None => false end.

Definition with_payload (db_ : FocusLogDB) (start_time end_time : Z)
    : list capture_row :=
  filter has_payload (filter (in_range start_time end_time) (captures db_)).

(** The store accepts NULL payloads, its ids are unique, and every sample
    of the range still holds its payload. *)
Definition thinnable (db_ : FocusLogDB) (start_time end_time : Z) : Prop :=
  screenshot_not_null db_ = false /\
  NoDup (map cap_id (captures db_)) /\
  Forall (fun r => cap_screenshot r <> None)
    (filter (in_range start_time end_time) (captures db_)).

(** The rows of the range in the order the grouping loop reads them. *)
Definition rows_of (db_ : FocusLogDB) (start_time end_time : Z) : list capture_row :=
  order_by by_timestamp (filter (in_range start_time end_time) (captures db_)).

(** Is [w] the window the grouping loop is in? *)
Definition same_window (cur : option Z) (w : Z) : bool :=
  match cur with Some c => c =? w | None => false end.

(** The ids the grouping loop appends to [thumbnails], and to [to_delete],
    on rows read while it is in window [cur]. *)
Fixpoint firsts (cur : option Z) (rows : list capture_row) : list Z :=
  match rows with
  | [] => []
  | r :: rest =>
      if same_window cur (window_of r) then firsts cur rest
      else cap_id r :: firsts (Some (window_of r)) rest
  end.

Fixpoint others (cur : option Z) (rows : list capture_row) : list Z :=
  match rows with
  | [] => []
  | r :: rest =>
      if same_window cur (window_of r) then cap_id r :: others cur rest
      else others (Some (window_of r)) rest
  end.

(** The distinct 5-minute windows met by the rows of the range. *)
Definition windows_met (db_ : FocusLogDB) (start_time end_time : Z) : list Z :=
  nodup Z.eq_dec
    (map window_of (filter (in_range start_time end_time) (captures db_))).

End Thinning.

(** ** Timing of the main loop *)

Module Timing.
Import Daemon.

(** An iteration whose sleep returns on the deadline, whose scheduling
    reading is taken at once, and whose work fits in the interval. *)
Definition punctual (i : Z) (env : tick_env) : Prop :=
  oversleep env = 0 /\ dispatch env = 0 /\ 0 <= work env <= i.

End Timing.

(** ** Concrete stores and runs used by the examples below *)

Module Scenarios.
Import Database Summarizer Daemon.

Definition utc_clock (now_iso current : string) : nat -> label_clock :=
  fun _ => mk_clock now_iso current.

Definition quiet_clock : nat -> label_clock :=
  utc_clock "2024-01-02T03:00:00.000001" "2024-01-02 03:00:00".

Definition png : bytes := [Byte.x89; Byte.x50; Byte.x4e; Byte.x47].

(** A classified capture taken at [t], saved the way [_classify_and_save]
    saves it. *)
Definition add_capture (db : FocusLogDB) (t : Z) : FocusLogDB :=
  fst (save_capture db png (Some "editing a report") None (Some "{}") None
         (Some t) t quiet_clock).

(** Interval 15 s: the captures at t = 0, 15, ..., 285. *)
Definition twenty_captures : FocusLogDB :=
  fold_left add_capture (map (fun i => 15 * Z.of_nat i) (seq 0 20)) _create_tables.

(** The same store with one more capture, at t = 300. *)
Definition twenty_one_captures : FocusLogDB := add_capture twenty_captures 300.

(** Two captures of the same 5-minute window on a new database. *)
Definition two_in_a_window : FocusLogDB :=
  add_capture (add_capture _create_tables 0) 15.

(** The same two captures in a [captures] table whose [screenshot] column
    accepts NULL. *)
Definition two_in_a_nullable_window : FocusLogDB :=
  mk_db false [] 0 (captures two_in_a_window) 2 [] [] 0.

Definition good_answer (text : string) : api_result :=
  Returned (mk_response (Some "completed") [] (Some (Some text))).


Definition timed_out : api_result :=
  Raised "Request timed out." "Traceback (most recent call last): ...".

(** The twenty captures and the rollup of their window. *)
Definition one_rollup : FocusLogDB :=
  fst (save_summary twenty_captures "5min" 0 300 "Edited a report." None).



(** Local time is UTC.  "writing" is created at 03:00:00 and used again at
    03:01:00.25; "email" is created at 03:02:00. *)
Definition utc_calls : FocusLogDB * list Z :=
  let '(db1, id1) :=
    get_or_create_label _create_tables "writing"
      (mk_clock "2024-01-02T03:00:00.100000" "2024-01-02 03:00:00") in
  let '(db2, id2) :=
    get_or_create_label db1 "writing"
      (mk_clock "2024-01-02T03:01:00.250000" "2024-01-02 03:01:00") in
  let '(db3, id3) :=
    get_or_create_label db2 "email"
      (mk_clock "2024-01-02T03:02:00.500000" "2024-01-02 03:02:00") in
  (db3, [id1; id2; id3]).

(** Local time is five hours behind UTC.  "writing" and "email" are created
    at 03:00:00 and 03:01:00 UTC. *)
Definition behind_utc_created : FocusLogDB :=
  let '(db1, _) :=
    get_or_create_label _create_tables "writing"
      (mk_clock "2024-01-01T22:00:00.100000" "2024-01-02 03:00:00") in
  fst (get_or_create_label db1 "email"
         (mk_clock "2024-01-01T22:01:00.200000" "2024-01-02 03:01:00")).

(** ... and "writing" is used again at 03:02:00 UTC, 22:02:00 local. *)
Definition behind_utc_touched : FocusLogDB :=
  fst (get_or_create_label behind_utc_created "writing"
         (mk_clock "2024-01-01T22:02:00.300000" "2024-01-02 03:02:00")).

(** The store of [one_rollup] seen by a daemon started at t = 3600: the
    hourly watermark is seeded at 0. *)
Definition hour_one : FocusLogDaemon := __init__ 15 one_rollup 3600 3600.

Definition classified : classification :=
  mk_classification true ["writing"] (Some "editing a report") (Some "{}") None.

(** An iteration at wall-clock second [t] that works for [work_] time units:
    the sleep and the scheduling reading cost nothing, the capture is
    classified, both collaborators answer. *)
Definition tick (t work_ : Z) : tick_env :=
  mk_tick_env 0 0 work_
    (mk_capture_env t (Some png) classified quiet_clock)
    (mk_summaries_env t t (good_answer "Edited a report.")
       t (good_answer "A quiet hour.") "videos/focuslog.mp4" true)
    false.

(** The loop as [run] enters it at clock 0 with interval 15. *)
Definition loop_start : loop_state :=
  {| daemon := mk_daemon 15 true (add_capture _create_tables 15) 0 0;
     clock := 0; iteration := 0; next_capture_time := 0 |}.

End Scenarios.

(** Runs of the threads used by the examples below. *)
Module ThreadScenarios.
Import Database Summarizer Daemon Threads Scenarios.

(** A daemon whose store holds one capture, taken at t = 15, with both
    watermarks at 0. *)
Definition early_daemon : FocusLogDaemon :=
  mk_daemon 15 true (add_capture _create_tables 15) 0 0.

(** Two 5-minute generations, the second started after the first has
    finished: a capture at t = 100, the generation checked and begun at
    t = 300 and answered, a capture at t = 400, the generation checked and
    begun at t = 600 and answered. *)
Definition one_after_the_other : list event :=
  [Capture 100 (Some png) quiet_clock;
   Classified 0 classified quiet_clock;
   Check 300;
   Begin 1 300;
   Answered_5min 1 (good_answer "Edited a report.");
   Capture 400 (Some png) quiet_clock;
   Classified 2 classified quiet_clock;
   Check 600;
   Begin 3 600;
   Answered_5min 3 (good_answer "Answered mail.")].

(** Two 5-minute generations under way at once: the summarizer has not
    answered the one started at t = 300 when the tick at t = 315 finds the
    watermark where it was and starts another. *)
Definition both_under_way : list event :=
  [Check 300; Begin 0 300; Check 315; Begin 1 315].

Definition answered_in_order : list event :=
  both_under_way ++
  [Answered_5min 0 (good_answer "Edited a report.");
   Answered_5min 1 (good_answer "Edited a report.")].

Definition answered_out_of_order : list event :=
  both_under_way ++
  [Answered_5min 1 (good_answer "Edited a report.");
   Answered_5min 0 (good_answer "Edited a report.")].

(** The window of a rollup. *)
Definition window (r : summary_row) : Z * Z := (sum_start_time r, sum_end_time r).

(** A 5-minute generation begun at t = 300 on the twenty captures, from
    watermark 0, while the summarizer is asked. *)
Definition first_window : pending_5min :=
  mk_pending_5min 300 0 (get_captures_since twenty_captures 0 false).

(** An hourly generation begun at t = 3600 on the store of [hour_one]. *)
Definition first_hour : pending_hourly :=
  mk_pending_hourly 3600 0 (get_summaries_in_range one_rollup "5min" 0 3600).


(** An answer made of a blank, a NO-BREAK SPACE and a line feed. *)
Definition blank_answer : string := (" " ++ utf8 160 ++ utf8 10)%string.

End ThreadScenarios.

(** ** Keys of the store *)

Module Integrity.
Import Database.

(** [captures.id] is a key drawn from the table's sequence. *)
Definition captures_keyed (db_ : FocusLogDB) : Prop :=
  NoDup (map cap_id (captures db_)) /\
  Forall (fun r => cap_id r <= captures_seq db_) (captures db_).

(** [labels.id] is a key drawn from the table's sequence and [labels.name]
    is [UNIQUE]. *)
Definition labels_keyed (db_ : FocusLogDB) : Prop :=
  NoDup (map label_id (labels db_)) /\
  Forall (fun r => label_id r <= labels_seq db_) (labels db_) /\
  NoDup (map label_name (labels db_)).

Definition summaries_keyed (db_ : FocusLogDB) : Prop :=
  NoDup (map sum_id (summaries db_)) /\
  Forall (fun r => sum_id r <= summaries_seq db_) (summaries db_).

(** [(capture_id, label_id)] is the key of [captures_labels]; both ids were
    drawn from their sequences. *)
Definition links_keyed (db_ : FocusLogDB) : Prop :=
  NoDup (captures_labels db_) /\
  Forall (fun p => fst p <= captures_seq db_ /\ snd p <= labels_seq db_)
    (captures_labels db_).

Definition consistent (db_ : FocusLogDB) : Prop :=
  captures_keyed db_ /\ labels_keyed db_ /\ summaries_keyed db_ /\ links_keyed db_.

End Integrity.

(** ** database.py, the remaining operations *)

Module DatabaseQueries.
Import Database.

(** [UPDATE summaries SET video_path = ? WHERE id = ?], row by row. *)
Definition set_video_path (summary_id : Z) (video_path : string)
    (r : summary_row) : summary_row :=
  if sum_id r =? summary_id
  then mk_summary (sum_id r) (sum_type r) (sum_start_time r) (sum_end_time r)
         (sum_content r) (Some video_path)
  else r.

Definition update_summary_video_path (db : FocusLogDB) (summary_id : Z)
    (video_path : string) : FocusLogDB :=
  set_summaries db (map (set_video_path summary_id video_path) (summaries db))
    (summaries_seq db).

(** [get_capture]: the row with that id and its labels, or [None]. *)
Definition get_capture (db : FocusLogDB) (capture_id : Z) : option capture_dict :=
  match find (fun r => cap_id r =? capture_id) (captures db) with
  | Some row => Some (capture_dict_of db true row)
  | None => None
  end.

(** [LIMIT ?]: SQLite reads a negative limit as no limit. *)
Definition sql_limit {A : Type} (limit : Z) (l : list A) : list A :=
  if limit <? 0 then l else firstn (Z.to_nat limit) l.

Definition newest_first (a b : capture_row) : bool :=
  cap_timestamp b <=? cap_timestamp a.

(** [... FROM captures ORDER BY timestamp DESC LIMIT ?]. *)
Definition get_recent_captures (db : FocusLogDB) (limit : Z)
    (include_screenshots : bool) : list capture_dict :=
  map (capture_dict_of db include_screenshots)
    (sql_limit limit (order_by newest_first (captures db))).

(** [MIN] and [MAX] of a column: NULL on no row. *)
Definition sql_min (l : list Z) : option Z :=
  match l with
  | [] => None
  | x :: l' => Some (fold_left Z.min l' x)
  end.

Definition sql_max (l : list Z) : option Z :=
  match l with
  | [] => None
  | x :: l' => Some (fold_left Z.max l' x)
  end.

(** [LENGTH(screenshot)]: NULL on a NULL payload. *)
Definition payload_length (r : capture_row) : option Z :=
  match cap_screenshot r with
  | Some b => Some (Z.of_nat (List.length b))
  | None => None
  end.

(** [SUM]: NULL values are skipped, NULL when nothing was added. *)
Definition sql_sum (l : list (option Z)) : option Z :=
  fold_left
    (fun acc x =>
       match x with
       | Some v => match acc with Some a => Some (a + v) | None => Some v end
       | None => acc
       end)
    l None.

(** The bytes a row contributes to [SUM(LENGTH(screenshot))]. *)
Definition bytes_of (r : capture_row) : Z :=
  match payload_length r with Some n => n | None => 0 end.

(** The dict [get_statistics] returns, without [total_size_mb], a rounded
    floating-point quotient of [total_size_bytes]. *)
Record statistics : Type := mk_statistics {
  total_captures : Z;
  first_capture : option Z;
  last_capture : option Z;
  total_size_bytes : Z }.

Definition get_statistics (db : FocusLogDB) : statistics :=
  let total := Z.of_nat (List.length (captures db)) in
  let total_size :=
    match sql_sum (map payload_length (captures db)) with
    | Some s => s
    | None => 0
    end in
  {| total_captures := total;
     first_capture := sql_min (map cap_timestamp (captures db));
     last_capture := sql_max (map cap_timestamp (captures db));
     total_size_bytes := total_size |}.

(** The label with id [lid] is called [name]. *)
Definition label_named (db : FocusLogDB) (lid : Z) (name : string) : Prop :=
  exists l, In l (labels db) /\ label_id l = lid /\ label_name l = name.

(** The row [get_or_create_label] leaves for the name it was called with. *)
Definition label_after (db : FocusLogDB) (name : string) (clk : label_clock)
    : label_row :=
  match find (fun r => String.eqb (label_name r) name) (labels db) with
  | Some row => mk_label (label_id row) (label_name row) (now_isoformat clk)
  | None => mk_label (labels_seq db + 1) name (current_timestamp clk)
  end.

(** Newest use first, as [ORDER BY last_used DESC] compares the texts. *)
Definition used_no_later (a b : label_row) : Prop :=
  String.leb (label_last_used b) (label_last_used a) = true.

End DatabaseQueries.

(** ** What thinning may and may not change *)

Module Retention.
Import Database.

(** A capture row with its payload column blanked. *)
Definition without_payload (r : capture_row) : capture_row :=
  mk_capture (cap_id r) (cap_timestamp r) None (cap_description r)
    (cap_classification_raw r) (cap_classification_error r).

(** [r'] is [r] with its payload kept or dropped. *)
Definition thinned (r r' : capture_row) : Prop :=
  r' = r \/ r' = without_payload r.

End Retention.

(** ** Runs of the daemon: clocks, blank answers, growth of the store *)

Module DaemonNotions.
Import Database Summarizer Daemon Retention.

(** Both thread bodies of an iteration read the clock no earlier than the
    due-check that started them. *)
Definition threads_after_check (env : tick_env) : Prop :=
  se_now (te_summaries env) <= se_now_5min (te_summaries env) /\
  se_now (te_summaries env) <= se_now_hourly (te_summaries env).

Definition label_key (r : label_row) : Z * string := (label_id r, label_name r).

(** [db'] holds everything [db_] held: the same capture rows in the same
    order, payloads kept or blanked, followed by new ones; the same
    rollups, labels and links followed by new ones. *)
Definition grows (db_ db' : FocusLogDB) : Prop :=
  (exists old added,
      captures db' = old ++ added /\ Forall2 thinned (captures db_) old) /\
  (exists added, summaries db' = summaries db_ ++ added) /\
  (exists added, map label_key (labels db') = map label_key (labels db_) ++ added) /\
  (exists added, captures_labels db' = captures_labels db_ ++ added).

(** The path the hourly generation attaches to its rollup. *)
Definition attached_video (d : FocusLogDaemon) (video_path_full : string)
    (video_success : bool) : option string :=
  if existsb has_frame (get_captures_since (db d) (last_hourly_summary d) true)
     && video_success
  then Some video_path_full else None.

End DaemonNotions.

(** ** backfill_summaries.py *)

Module Backfill.
Import Database Summarizer DatabaseQueries.

(** [str.lower] on the ASCII letters. *)
Definition lower_char (c : ascii) : ascii :=
  let n := nat_of_ascii c in
  if (Nat.leb 65 n && Nat.leb n 90)%bool then ascii_of_nat (n + 32) else c.

Fixpoint lower (s : string) : string :=
  match s with
  | EmptyString => EmptyString
  | String c s' => String (lower_char c) (lower s')
  end.

(** The script's own fetch of a window:
    [SELECT id, timestamp, description, classification_error FROM captures
     WHERE timestamp >= ? AND timestamp < ? ORDER BY timestamp ASC],
    each row with its [labels] key.  Neither the payload nor the raw
    classification is selected. *)
Definition window_captures (db : FocusLogDB) (current_time end_time : Z)
    : list capture_dict :=
  map (fun r =>
         mk_capture_dict (cap_id r) (cap_timestamp r) None (cap_description r)
           None (cap_classification_error r) (labels_of db (cap_id r)))
    (order_by by_timestamp (filter (in_range current_time end_time) (captures db))).

(** What a run reads from outside: the answer typed at the prompt and, for
    the summarizer call of the window that starts at a given time, what the
    remote model does. *)
Record backfill_env : Type := mk_backfill_env {
  response_ : string;
  api_5min : Z -> api_result;
  api_hourly : Z -> api_result }.

(** [while current_time < last_capture] over 5-minute windows; [fuel]
    bounds the number of tests of the loop condition, [None] is a run that
    has not left the loop within it. *)
Fixpoint five_min_loop (fuel : nat) (db : FocusLogDB) (current_time last_capture : Z)
    (api : Z -> api_result) (five_min_count : Z) : option (FocusLogDB * Z) :=
  match fuel with
  | O => None
  | S fuel' =>
      if current_time <? last_capture then
        let end_time := current_time + 300 in
        let captures_ := window_captures db current_time end_time in
        match captures_ with
        | [] => five_min_loop fuel' db end_time last_capture api five_min_count
        | _ =>
            let summary := generate_5min_summary captures_ (api current_time) in
            let '(db1, _) := save_summary db "5min" current_time end_time summary None in
            five_min_loop fuel' db1 end_time last_capture api (five_min_count + 1)
        end
      else Some (db, five_min_count)
  end.

(** [while current_time < last_capture] over 1-hour windows. *)
Fixpoint hourly_loop (fuel : nat) (db : FocusLogDB) (current_time last_capture : Z)
    (api : Z -> api_result) (hourly_count : Z) : option (FocusLogDB * Z) :=
  match fuel with
  | O => None
  | S fuel' =>
      if current_time <? last_capture then
        let end_time := current_time + 3600 in
        let five_min_summaries := get_summaries_in_range db "5min" current_time end_time in
        match five_min_summaries with
        | [] => hourly_loop fuel' db end_time last_capture api hourly_count
        | _ =>
            let summary := generate_hourly_summary five_min_summaries (api current_time) in
            let '(db1, _) := save_summary db "hourly" current_time end_time summary None in
            hourly_loop fuel' db1 end_time last_capture api (hourly_count + 1)
        end
      else Some (db, hourly_count)
  end.

(** How a run ends: on an empty [captures] table, at the prompt, or after
    both loops with the two counts it prints. *)
Inductive backfill_outcome : Type :=
| NoCaptures
| Cancelled
| Complete (five_min_count hourly_count : Z).

Definition backfill_summaries (fuel : nat) (db : FocusLogDB) (env : backfill_env)
    : option (FocusLogDB * backfill_outcome) :=
  match sql_min (map cap_timestamp (captures db)),
        sql_max (map cap_timestamp (captures db)) with
  | Some first_capture, Some last_capture =>
      if negb (String.eqb (lower (response_ env)) "y") then Some (db, Cancelled)
      else
        match five_min_loop fuel db first_capture last_capture (api_5min env) 0 with
        | None => None
        | Some (db1, five_min_count) =>
            match hourly_loop fuel db1 first_capture last_capture (api_hourly env) 0 with
            | None => None
            | Some (db2, hourly_count) =>
                Some (db2, Complete five_min_count hourly_count)
            end
        end
  | _, _ => Some (db, NoCaptures)
  end.

(** The rows a run appended to [summaries]. *)
Definition appended (db db' : FocusLogDB) : list summary_row :=
  skipn (List.length (summaries db)) (summaries db').

(** Row [r] of [captures] falls in the window of the rollup [s]. *)
Definition covers (s : summary_row) (r : capture_row) : Prop :=
  sum_start_time s <= cap_timestamp r < sum_end_time s.

(** The rollup [s] lies in the range of the rollup [h]. *)
Definition within (h s : summary_row) : Prop :=
  sum_start_time h <= sum_start_time s /\ sum_end_time s <= sum_end_time h.

(** [db'] differs from [db] in the [summaries] table only. *)
Definition other_tables_kept (db db' : FocusLogDB) : Prop :=
  screenshot_not_null db' = screenshot_not_null db /\
  labels db' = labels db /\ labels_seq db' = labels_seq db /\
  captures db' = captures db /\ captures_seq db' = captures_seq db /\
  captures_labels db' = captures_labels db.

(** A 5-minute rollup as the first loop writes it: no video, a window of
    the grid anchored at [first_capture] that starts before [last_capture]
    and holds a capture, the summarizer's return value as content. *)
Definition backfilled_5min (db : FocusLogDB) (first_capture last_capture : Z)
    (api : Z -> api_result) (s : summary_row) : Prop :=
  sum_type s = "5min" /\ sum_video_path s = None /\
  (exists k, 0 <= k /\ sum_start_time s = first_capture + 300 * k) /\
  sum_start_time s < last_capture /\
  sum_end_time s = sum_start_time s + 300 /\
  sum_content s = summary_of_api_result (api (sum_start_time s)) /\
  exists r, In r (captures db) /\ covers s r.

(** An hourly rollup as the second loop writes it; [db] is the store the
    second loop starts from. *)
Definition backfilled_hourly (db : FocusLogDB) (first_capture last_capture : Z)
    (api : Z -> api_result) (h : summary_row) : Prop :=
  sum_type h = "hourly" /\ sum_video_path h = None /\
  (exists k, 0 <= k /\ sum_start_time h = first_capture + 3600 * k) /\
  sum_start_time h < last_capture /\
  sum_end_time h = sum_start_time h + 3600 /\
  sum_content h = summary_of_api_result (api (sum_start_time h)) /\
  exists s, In s (summaries db) /\ sum_type s = "5min" /\ within h s.

End Backfill.

(** Runs of the backfill script. *)
Module BackfillScenarios.
Import Database Summarizer Scenarios Backfill.

(** The prompt is answered with a capital Y and the remote model answers
    every call. *)
Definition answered : backfill_env :=
  mk_backfill_env "Y" (fun _ => good_answer "Edited a report.")
    (fun _ => good_answer "A quiet hour.").

(** The same run with every 5-minute call timing out. *)
Definition unreachable : backfill_env :=
  mk_backfill_env "y" (fun _ => timed_out) (fun _ => good_answer "A quiet hour.").

(** Captures at t = 0, 100 and 400. *)
Definition three_captures : FocusLogDB :=
  add_capture (add_capture (add_capture _create_tables 0) 100) 400.

(** The store a run leaves, [db] itself when the run has not returned. *)
Definition store_after (fuel : nat) (db : FocusLogDB) (env : backfill_env)
    : FocusLogDB :=
  match backfill_summaries fuel db env with
  | Some (db', _) => db'
  | None => db
  end.

End BackfillScenarios.

(** ** video_generator.py *)

Module Video.

(** [enumerate(l, start)]. *)
Fixpoint enumerate {A : Type} (start : Z) (l : list A) : list (Z * A) :=
  match l with
  | [] => []
  | x :: l' => (start, x) :: enumerate (start + 1) l'
  end.

(** How the [subprocess.run(..., check=True)] of ffmpeg ends. *)
Inductive ffmpeg_result : Type :=
| Exited
| CalledProcessError (stderr : string)
| OtherException (e : string).

(** What [generate_video] reads from outside: which source files exist,
    how ffmpeg ends, and whether the output file is there afterwards. *)
Record video_env : Type := mk_video_env {
  path_exists : string -> bool;
  ffmpeg : ffmpeg_result;
  output_exists : bool }.

(** What a call does: the links it creates in the temporary directory,
    [(i, src)] standing for the link [frame{i:05d}.png -> src], whether it
    runs ffmpeg, and the value it returns. *)
Record video_run : Type := mk_video_run {
  symlinks : list (Z * string);
  ffmpeg_ran : bool;
  returned : bool }.

Definition generate_video (screenshot_paths : list string) (env : video_env)
    : video_run :=
  match screenshot_paths with
  | [] => mk_video_run [] false false
  | _ =>
      let links := filter (fun l => path_exists env (snd l))
                     (enumerate 1 screenshot_paths) in
      let frame_count := Z.of_nat (List.length links) in
      if frame_count =? 0 then mk_video_run links false false
      else
        match ffmpeg env with
        | Exited => mk_video_run links true (output_exists env)
        | CalledProcessError _ => mk_video_run links true false
        | OtherException _ => mk_video_run links true false
        end
  end.

End Video.

(** * [video_generator.py], with the calls that can raise

    [generate_video] catches only what the [try] around ffmpeg raises.
    [os.makedirs], [tempfile.TemporaryDirectory], [os.symlink],
    [os.listdir] and the clean-up of the temporary directory run outside
    it, and what they raise leaves the function. *)

Module VideoGenerator.
Import Threads Video.

(** [p[:p.rfind('/') + 1]]. *)
Fixpoint has_sep (p : string) : bool :=
  match p with
  | EmptyString => false
  | String c p' => Ascii.eqb c "/" || has_sep p'
  end.

Fixpoint head_of (p : string) : string :=
  match p with
  | EmptyString => EmptyString
  | String c p' => if has_sep p then String c (head_of p') else EmptyString
  end.

(** [head == '/' * len(head)] and [head.rstrip('/')]. *)
Fixpoint all_sep (p : string) : bool :=
  match p with
  | EmptyString => true
  | String c p' => Ascii.eqb c "/" && all_sep p'
  end.

Fixpoint rstrip_sep (p : string) : string :=
  match p with
  | EmptyString => EmptyString
  | String c p' => if all_sep p then EmptyString else String c (rstrip_sep p')
  end.

(** [os.path.dirname] of [posixpath]. *)
Definition dirname (p : string) : string :=
  let head := head_of p in
  if negb (String.eqb head EmptyString) && negb (all_sep head)
  then rstrip_sep head
  else head.

(** What the operating system answers to a call of [generate_video]: on
    top of [video_env], the error, if any, raised by each call that is not
    inside the [try]. *)
Record video_os : Type := mk_video_os {
  os_files : video_env;
  os_makedirs : string -> option string;
  os_TemporaryDirectory : option string;
  os_symlink : string -> option string;
  os_listdir : option string;
  os_getsize : option string;
  os_cleanup : option string }.

(** [os.makedirs(output_dir, exist_ok=True)]: the empty path is refused
    with FileNotFoundError whatever the file system holds. *)
Definition makedirs (os : video_os) (output_dir : string) : option string :=
  if String.eqb output_dir EmptyString
  then Some "[Errno 2] No such file or directory: ''"
  else os_makedirs os output_dir.

Record video_call : Type := mk_video_call {
  vc_symlinks : list (Z * string);
  vc_ffmpeg_ran : bool;
  vc_result : outcome bool }.

(** The loop over [enumerate(screenshot_paths, 1)]: the links created, and
    the error of the first [os.symlink] that raised. *)
Fixpoint link_frames (os : video_os) (l : list (Z * string))
    : list (Z * string) * option string :=
  match l with
  | [] => ([], None)
  | (i, src_path) :: l' =>
      if path_exists (os_files os) src_path then
        match os_symlink os src_path with
        | Some e => ([], Some e)
        | None =>
            let (links, err) := link_frames os l' in
            ((i, src_path) :: links, err)
        end
      else link_frames os l'
  end.

(** Leaving the [with] block removes the temporary directory; an error of
    the removal replaces the result. *)
Definition leave (os : video_os) (r : outcome bool) : outcome bool :=
  match os_cleanup os with
  | Some e => Exception e
  | None => r
  end.

Definition generate_video (screenshot_paths : list string) (output_path : string)
    (os : video_os) : video_call :=
  match screenshot_paths with
  | [] => mk_video_call [] false (Value false)
  | _ =>
      let output_dir := dirname output_path in
      match makedirs os output_dir with
      | Some e => mk_video_call [] false (Exception e)
      | None =>
          match os_TemporaryDirectory os with
          | Some e => mk_video_call [] false (Exception e)
          | None =>
              let (links, err) :=
                link_frames os (enumerate 1 screenshot_paths) in
              match err with
              | Some e => mk_video_call links false (leave os (Exception e))
              | None =>
                  match os_listdir os with
                  | Some e => mk_video_call links false (leave os (Exception e))
                  | None =>
                      let frame_count := Z.of_nat (List.length links) in
                      if frame_count =? 0
                      then mk_video_call links false (leave os (Value false))
                      else
                        match ffmpeg (os_files os) with
                        | Exited =>
                            if output_exists (os_files os) then
                              match os_getsize os with
                              | None =>
                                  mk_video_call links true (leave os (Value true))
                              | Some _ =>
                                  mk_video_call links true (leave os (Value false))
                              end
                            else mk_video_call links true (leave os (Value false))
                        | CalledProcessError _ =>
                            mk_video_call links true (leave os (Value false))
                        | OtherException _ =>
                            mk_video_call links true (leave os (Value false))
                        end
                  end
              end
          end
      end
  end.

(** An operating system on which nothing outside the [try] raises. *)
Definition obliging (env : video_env) : video_os :=
  mk_video_os env (fun _ => None) None (fun _ => None) None None None.

(** A call on one stored frame that exists. *)
Definition one_frame : list string := ["/tmp/focuslog_video_k3/capture_00000.png"].

Definition frame_there : video_env :=
  mk_video_env (fun _ => true) Exited true.

End VideoGenerator.

(** * Properties *)

(** ** Queries: [ORDER BY] and the range filters *)

Module DatabaseFacts.
Import Database.

Section OrderByFacts.
Context {A : Type} (leb : A -> A -> bool).

Lemma insert_row_perm (x : A) (l : list A) :
  Permutation (insert_row leb x l) (x :: l).
Proof.
  induction l as [|y l IH]; cbn; [reflexivity|].
  destruct (leb x y); [reflexivity|].
  rewrite IH. apply perm_swap.
Qed.

Lemma order_by_perm (l : list A) : Permutation (order_by leb l) l.
Proof.
  induction l as [|x l IH]; cbn; [constructor|].
  rewrite insert_row_perm. now constructor.
Qed.

Lemma order_by_In (l : list A) (x : A) : In x (order_by leb l) <-> In x l.
Proof.
  split; apply Permutation_in; [|symmetry]; apply order_by_perm.
Qed.

Lemma order_by_nil (l : list A) : order_by leb l = [] -> l = [].
Proof.
  intros H. apply Permutation_nil. rewrite <- H. apply order_by_perm.
Qed.

Hypothesis leb_total : forall a b, leb a b = true \/ leb b a = true.
Hypothesis leb_trans : forall a b c, leb a b = true -> leb b c = true -> leb a c = true.

Lemma insert_row_sorted (x : A) (l : list A) :
  StronglySorted (fun a b => leb a b = true) l ->
  StronglySorted (fun a b => leb a b = true) (insert_row leb x l).
Proof.
  induction 1 as [|y l Hs IH Hall]; cbn.
  - repeat constructor.
  - destruct (leb x y) eqn:E.
    + constructor; [now constructor|].
      constructor; [exact E|].
      eapply Forall_impl; [|exact Hall]. intros z Hz. now apply leb_trans with y.
    + constructor; [exact IH|].
      eapply Permutation_Forall; [symmetry; apply insert_row_perm|].
      constructor; [|exact Hall].
      destruct (leb_total x y) as [H|H]; congruence.
Qed.

Lemma order_by_sorted (l : list A) :
  StronglySorted (fun a b => leb a b = true) (order_by leb l).
Proof.
  induction l as [|x l IH]; cbn; [constructor|].
  now apply insert_row_sorted.
Qed.

End OrderByFacts.

Lemma by_timestamp_total (a b : capture_row) :
  by_timestamp a b = true \/ by_timestamp b a = true.
Proof. unfold by_timestamp. rewrite !Z.leb_le. lia. Qed.

Lemma by_timestamp_trans (a b c : capture_row) :
  by_timestamp a b = true -> by_timestamp b c = true -> by_timestamp a c = true.
Proof. unfold by_timestamp. rewrite !Z.leb_le. lia. Qed.

(** *** What each statement leaves alone *)

Lemma get_or_create_label_frame (db : FocusLogDB) (n : string) (clk : label_clock) :
  let db' := fst (get_or_create_label db n clk) in
  captures db' = captures db /\ captures_seq db' = captures_seq db /\
  summaries db' = summaries db /\ summaries_seq db' = summaries_seq db /\
  screenshot_not_null db' = screenshot_not_null db.
Proof.
  unfold get_or_create_label.
  destruct (find _ (labels db)); cbn; repeat split; reflexivity.
Qed.

Lemma attach_labels_frame (names : list string) (clocks : nat -> label_clock) :
  forall (db : FocusLogDB) (capture_id : Z) (i : nat),
  let db' := attach_labels db capture_id names clocks i in
  captures db' = captures db /\ captures_seq db' = captures_seq db /\
  summaries db' = summaries db /\ summaries_seq db' = summaries_seq db /\
  screenshot_not_null db' = screenshot_not_null db.
Proof.
  induction names as [|n rest IH]; intros db capture_id i; cbn.
  - repeat split; reflexivity.
  - pose proof (get_or_create_label_frame db n (clocks i)) as F.
    destruct (get_or_create_label db n (clocks i)) as [db1 lid]; cbn in F.
    destruct F as (F1 & F2 & F3 & F4 & F5).
    destruct (IH (set_captures_labels db1
                    (insert_or_ignore (capture_id, lid) (captures_labels db1)))
                capture_id (S i)) as (G1 & G2 & G3 & G4 & G5).
    cbn in *. repeat split; congruence.
Qed.

Lemma save_capture_captures (db : FocusLogDB) (screenshot : bytes)
    (description : option string) (labels_ : option (list string))
    (raw err : option string) (timestamp : option Z) (now : Z)
    (clocks : nat -> label_clock) :
  let db' := fst (save_capture db screenshot description labels_ raw err
                    timestamp now clocks) in
  captures db' =
    captures db ++
      [mk_capture (captures_seq db + 1)
         (match timestamp with Some t => t | None => now end)
         (Some screenshot) description raw err] /\
  summaries db' = summaries db /\ summaries_seq db' = summaries_seq db /\
  screenshot_not_null db' = screenshot_not_null db.
Proof.
  unfold save_capture; cbv zeta.
  set (db1 := set_captures db _ _).
  destruct labels_ as [[|n rest]|]; cbn [fst];
    try (subst db1; cbn; repeat split; reflexivity).
  destruct (attach_labels_frame (n :: rest) clocks db1 (captures_seq db + 1) 0%nat)
    as (G1 & G2 & G3 & G4 & G5).
  rewrite G1, G3, G4, G5. subst db1; cbn. repeat split; reflexivity.
Qed.

Lemma update_screenshot_null_frame (db db' : FocusLogDB) (ids : list Z) :
  update_screenshot_null db ids = Done db' ->
  summaries db' = summaries db /\ summaries_seq db' = summaries_seq db /\
  screenshot_not_null db' = screenshot_not_null db.
Proof.
  unfold update_screenshot_null.
  destruct (_ && _); [discriminate|].
  intros H; injection H as <-. cbn. repeat split; reflexivity.
Qed.

Lemma cleanup_frame (db : FocusLogDB) (start_time end_time : Z) :
  let db' := fst (cleanup_screenshots_except_thumbnails db start_time end_time) in
  summaries db' = summaries db /\ summaries_seq db' = summaries_seq db /\
  screenshot_not_null db' = screenshot_not_null db.
Proof.
  unfold cleanup_screenshots_except_thumbnails; cbv zeta.
  destruct (order_by _ _) as [|r rows]; [cbn; repeat split; reflexivity|].
  destruct (scan (r :: rows)) as [[cur thumbs] to_delete].
  destruct to_delete as [|i ids]; [cbn [fst]; repeat split; reflexivity|].
  destruct (update_screenshot_null db (i :: ids)) as [db'|msg] eqn:E; cbn [fst].
  - now apply update_screenshot_null_frame with (ids := i :: ids).
  - repeat split; reflexivity.
Qed.

End DatabaseFacts.

(** ** The records a rollup window fetches *)

Module FetchFacts.
Import Database Summarizer Daemon Scenarios DatabaseFacts.

Lemma get_captures_since_perm (db : FocusLogDB) (since : Z) (inc : bool) :
  Permutation (get_captures_since db since inc)
    (map (capture_dict_of db inc)
       (filter (fun r => since <? cap_timestamp r) (captures db))).
Proof.
  unfold get_captures_since. apply Permutation_map, order_by_perm.
Qed.

Lemma get_captures_since_In (db : FocusLogDB) (since : Z) (inc : bool)
    (c : capture_dict) :
  In c (get_captures_since db since inc) <->
  exists r, In r (captures db) /\ since < cap_timestamp r /\
            c = capture_dict_of db inc r.
Proof.
  unfold get_captures_since. rewrite in_map_iff. split.
  - intros (r & <- & Hr). apply order_by_In, filter_In in Hr.
    destruct Hr as [Hin Hlt]. apply Z.ltb_lt in Hlt. now exists r.
  - intros (r & Hin & Hlt & ->). exists r. split; [reflexivity|].
    apply order_by_In, filter_In. split; [exact Hin|]. now apply Z.ltb_lt.
Qed.

(** The spec's example, interval 15 s and watermark 0: the window fetches
    the 19 captures at t = 15, ..., 285; the capture at t = 0 is left out. *)
Example spec_example_fetch :
  map cd_timestamp (get_captures_since twenty_captures 0 false) =
  [15; 30; 45; 60; 75; 90; 105; 120; 135; 150; 165; 180; 195; 210; 225; 240;
   255; 270; 285].
Proof. vm_compute. reflexivity. Qed.

(** C3, as stated, fails: with captures at t = 0, 15, ..., 285 and one at
    t = 300, the records fetched for the window that starts at watermark 0
    and is generated at now = 300 are not the records with
    0 <= timestamp < 300: the capture at t = 300 is fetched. *)
Lemma fetch_window_counterexample :
  ~ (forall t : Z,
       In t (map cd_timestamp (get_captures_since twenty_one_captures 0 false)) <->
       In t (map cap_timestamp (captures twenty_one_captures)) /\ 0 <= t < 300).
Proof.
  intros H.
  assert (E : map cd_timestamp (get_captures_since twenty_one_captures 0 false) =
              [15; 30; 45; 60; 75; 90; 105; 120; 135; 150; 165; 180; 195; 210;
               225; 240; 255; 270; 285; 300]) by (vm_compute; reflexivity).
  destruct (H 300) as [H300 _]. rewrite E in H300.
  assert (Hin : In 300 [15; 30; 45; 60; 75; 90; 105; 120; 135; 150; 165; 180;
                        195; 210; 225; 240; 255; 270; 285; 300]).
  { do 19 right. left. reflexivity. }
  apply H300 in Hin. lia.
Qed.

(** C3 (amended).  The records fetched for a rollup window are exactly the
    capture rows present at the time of the query whose timestamp is
    strictly after the watermark; the query has no upper bound.  A sample
    taken at the watermark is left out, a sample taken at [now] or later is
    fetched once it is stored. *)
Theorem get_captures_since_after_watermark :
  forall (db : FocusLogDB) (watermark : Z) (inc : bool),
    Permutation (get_captures_since db watermark inc)
      (map (capture_dict_of db inc)
         (filter (fun r => watermark <? cap_timestamp r) (captures db))) /\
    (forall c : capture_dict,
        In c (get_captures_since db watermark inc) <->
        exists r, In r (captures db) /\ watermark < cap_timestamp r /\
                  c = capture_dict_of db inc r) /\
    (forall c : capture_dict,
        In c (get_captures_since db watermark inc) -> cd_timestamp c <> watermark) /\
    (forall (now : Z) (r : capture_row),
        In r (captures db) -> watermark < now -> now <= cap_timestamp r ->
        In (capture_dict_of db inc r) (get_captures_since db watermark inc)).
Proof.
  intros db watermark inc. split; [apply get_captures_since_perm|].
  split; [intro c; apply get_captures_since_In|]. split.
  - intros c Hc. apply get_captures_since_In in Hc.
    destruct Hc as (r & _ & Hlt & ->). cbn. lia.
  - intros now r Hin Hw Hnow. apply get_captures_since_In.
    exists r. repeat split; [exact Hin | lia].
Qed.

Lemma get_captures_since_after_watermark_witness :
  In (capture_dict_of twenty_one_captures false
        (mk_capture 21 300 (Some png) (Some "editing a report") (Some "{}") None))
     (get_captures_since twenty_one_captures 0 false).
Proof.
  apply (get_captures_since_after_watermark twenty_one_captures 0 false) with (now := 300).
  - vm_compute. do 20 right. left. reflexivity.
  - lia.
  - cbn. lia.
Defined.

End FetchFacts.

(** ** Capture cycles *)

Module CaptureFacts.
Import Database Summarizer Daemon Scenarios DatabaseFacts.

Ltac saved :=
  match goal with
  | |- context [save_capture ?a ?b ?c ?e ?f ?g ?h ?i ?j] =>
      let C := fresh "C" in let R := fresh "R" in
      destruct (save_capture_captures a b c e f g h i j) as (C & R & _);
      cbv zeta in C, R;
      unfold set_db;
      cbn [db last_5min_summary last_hourly_summary interval running];
      rewrite ?C, ?R
  end.

Lemma _classify_and_save_rows (d : FocusLogDaemon) (data : bytes) (t : Z)
    (result : classification) (clocks : nat -> label_clock) :
  let d' := _classify_and_save d data t result clocks in
  exists rows,
    captures (db d') = captures (db d) ++ rows /\
    Forall (fun r => cap_screenshot r = Some data) rows /\
    summaries (db d') = summaries (db d) /\
    last_5min_summary d' = last_5min_summary d /\
    last_hourly_summary d' = last_hourly_summary d /\
    interval d' = interval d /\ running d' = running d.
Proof.
  unfold _classify_and_save.
  destruct (success result); [destruct (cls_description result) as [description|]|].
  - saved. eexists; split; [reflexivity|].
    split; [now repeat constructor|]. repeat split.
  - exists []. rewrite app_nil_r. repeat split. constructor.
  - saved. eexists; split; [reflexivity|].
    split; [now repeat constructor|]. repeat split.
Qed.

Lemma _capture_and_classify_rows (d : FocusLogDaemon) (env : capture_env) :
  let d' := _capture_and_classify d env in
  exists rows,
    captures (db d') = captures (db d) ++ rows /\
    Forall (fun r => cap_screenshot r <> None) rows /\
    summaries (db d') = summaries (db d) /\
    last_5min_summary d' = last_5min_summary d /\
    last_hourly_summary d' = last_hourly_summary d /\
    interval d' = interval d /\ running d' = running d.
Proof.
  unfold _capture_and_classify. destruct (ce_capture env) as [data|].
  - destruct (_classify_and_save_rows d data (ce_timestamp env)
                (ce_classification env) (ce_clocks env))
      as (rows & C & F & S & W).
    exists rows. split; [exact C|]. split; [|split; [exact S | exact W]].
    eapply Forall_impl; [|exact F]. intros r Hr. rewrite Hr. discriminate.
  - saved. eexists; split; [reflexivity|]. split; [|repeat split].
    repeat constructor. discriminate.
Qed.

(** C10.  A failed screen capture is stored with the empty byte string as
    payload and the error marker "Screenshot capture failed"; every row any
    capture cycle inserts, and every row [save_capture] inserts, has a
    payload that is not NULL. *)
Theorem failed_capture_stores_empty_payload :
  (forall (d : FocusLogDaemon) (t : Z) (result : classification)
          (clocks : nat -> label_clock),
      captures (db (_capture_and_classify d (mk_capture_env t None result clocks))) =
      captures (db d) ++
        [mk_capture (captures_seq (db d) + 1) t (Some []) None None
           (Some "Screenshot capture failed")]) /\
  (forall (d : FocusLogDaemon) (env : capture_env),
      exists rows,
        captures (db (_capture_and_classify d env)) = captures (db d) ++ rows /\
        Forall (fun r => cap_screenshot r <> None) rows) /\
  (forall (db_ : FocusLogDB) (screenshot : bytes) (description : option string)
          (labels_ : option (list string)) (raw err : option string)
          (timestamp : option Z) (now : Z) (clocks : nat -> label_clock),
      exists row,
        captures (fst (save_capture db_ screenshot description labels_ raw err
                         timestamp now clocks)) = captures db_ ++ [row] /\
        cap_screenshot row = Some screenshot).
Proof.
  split; [|split].
  - intros d t result clocks. unfold _capture_and_classify; cbn [ce_capture ce_timestamp ce_clocks].
    saved. reflexivity.
  - intros d env.
    destruct (_capture_and_classify_rows d env) as (rows & C & F & _).
    now exists rows.
  - intros. saved. eexists; split; [reflexivity|reflexivity].
Qed.

End CaptureFacts.

(** ** The summarizer's result and its failure marker *)

Module SummarizerFacts.
Import Database Summarizer Daemon Scenarios.

Lemma failure_paths_marked (api : api_result) :
  completed api = None ->
  startswith (summary_of_api_result api) "Error generating summary:" = true.
Proof.
  unfold completed, summary_of_api_result.
  destruct api as [r|e tb]; [|reflexivity].
  destruct (status r) as [st|]; [|reflexivity].
  destruct (String.eqb st "completed"); cbn [negb andb]; [|reflexivity].
  destruct (refusal_of r); [reflexivity|].
  destruct (output_text r) as [[content|]|]; try reflexivity.
  destruct (String.eqb content ""); cbn [negb]; [reflexivity|discriminate].
Qed.

Lemma completed_returns_text (api : api_result) (content : string) :
  completed api = Some content ->
  summary_of_api_result api = strip content.
Proof.
  unfold completed, summary_of_api_result.
  destruct api as [r|e tb]; [|discriminate].
  destruct (status r) as [st|]; [|discriminate].
  destruct (refusal_of r); [discriminate|].
  destruct (output_text r) as [[text|]|]; try discriminate.
  destruct (String.eqb st "completed"); cbn [negb andb]; [|discriminate].
  destruct (String.eqb text ""); cbn [negb]; [discriminate|].
  now intros [= ->].
Qed.


End SummarizerFacts.

(** ** Rollup generation and the watermarks *)

Module RollupFacts.
Import Database Summarizer Daemon Rollups Scenarios DatabaseFacts FetchFacts
  CaptureFacts.

(** C5.  A due window that fetches nothing persists no rollup row, leaves
    the store as it is and moves the watermark of its granularity to [now];
    the other watermark is untouched.  This holds for the 5-minute and for
    the hourly generation. *)
Theorem empty_window_advances_watermark :
  forall (d : FocusLogDaemon) (now : Z) (api : api_result)
         (video_path_full : string) (video_success : bool),
    (get_captures_since (db d) (last_5min_summary d) false = [] ->
       let d' := _generate_5min_summary d now api in
       db d' = db d /\ last_5min_summary d' = now /\
       last_hourly_summary d' = last_hourly_summary d) /\
    (get_summaries_in_range (db d) "5min" (last_hourly_summary d) now = [] ->
       let d' := _generate_hourly_summary d now api video_path_full video_success in
       db d' = db d /\ last_hourly_summary d' = now /\
       last_5min_summary d' = last_5min_summary d).
Proof.
  intros d now api vp vs. split; intros H; cbv zeta.
  - unfold _generate_5min_summary. rewrite H. cbn. repeat split.
  - unfold _generate_hourly_summary. rewrite H. cbn. repeat split.
Qed.

Lemma empty_window_advances_watermark_witness :
  (db (_generate_5min_summary (__init__ 15 twenty_captures 900 900) 900 timed_out)
     = twenty_captures /\
   last_5min_summary
     (_generate_5min_summary (__init__ 15 twenty_captures 900 900) 900 timed_out)
     = 900) /\
  (db (_generate_hourly_summary (__init__ 15 twenty_captures 900 3600) 3600
         timed_out "videos/focuslog.mp4" true)
     = twenty_captures /\
   last_hourly_summary
     (_generate_hourly_summary (__init__ 15 twenty_captures 900 3600) 3600
        timed_out "videos/focuslog.mp4" true)
     = 3600).
Proof.
  split.
  - destruct (empty_window_advances_watermark
                (__init__ 15 twenty_captures 900 900) 900 timed_out "" true)
      as [H _].
    destruct (H ltac:(vm_compute; reflexivity)) as (A & B & _).
    split; [exact A | exact B].
  - destruct (empty_window_advances_watermark
                (__init__ 15 twenty_captures 900 3600) 3600 timed_out
                "videos/focuslog.mp4" true)
      as [_ H].
    destruct (H ltac:(vm_compute; reflexivity)) as (A & B & _).
    split; [exact A | exact B].
Defined.

Lemma capture_cycles_frame (envs : list capture_env) :
  forall d : FocusLogDaemon,
    let d2 := fold_left _capture_and_classify envs d in
    (exists rows, captures (db d2) = captures (db d) ++ rows) /\
    summaries (db d2) = summaries (db d) /\
    last_5min_summary d2 = last_5min_summary d /\
    last_hourly_summary d2 = last_hourly_summary d.
Proof.
  induction envs as [|env envs IH]; intros d; cbn.
  - split; [exists []; now rewrite app_nil_r|]. repeat split.
  - destruct (_capture_and_classify_rows d env)
      as (rows & C & _ & S & W5 & Wh & _).
    destruct (IH (_capture_and_classify d env)) as ((rows' & C') & S' & W5' & Wh').
    split; [exists (rows ++ rows'); now rewrite C', C, app_assoc|].
    repeat split; congruence.
Qed.

Lemma generate_5min_persists (d : FocusLogDaemon) (now : Z) (api : api_result) :
  let fetched := get_captures_since (db d) (last_5min_summary d) false in
  fetched <> [] ->
  startswith (generate_5min_summary fetched api) "Error generating summary:" = false ->
  _generate_5min_summary d now api =
  set_last_5min
    (set_db d
       (fst (save_summary (db d) "5min" (last_5min_summary d) now
               (generate_5min_summary fetched api) None)))
    now.
Proof.
  cbv zeta. intros Hne Hok. unfold _generate_5min_summary.
  destruct (get_captures_since (db d) (last_5min_summary d) false) as [|c cs] eqn:E;
    [congruence|].
  rewrite Hok. reflexivity.
Qed.

Lemma marked_fetch_nonempty (fetched : list capture_dict) (api : api_result) :
  startswith (generate_5min_summary fetched api) "Error generating summary:" = true ->
  fetched <> [].
Proof. destruct fetched; [discriminate|discriminate]. Qed.

Lemma marked_range_nonempty (l : list summary_dict) (api : api_result) :
  startswith (generate_hourly_summary l api) "Error generating summary:" = true ->
  l <> [].
Proof. destruct l; [discriminate|discriminate]. Qed.

End RollupFacts.

(** ** Consecutive rollups of the 5-minute granularity *)

Module ChainFacts.
Import Database Summarizer Daemon Rollups Scenarios DatabaseFacts CaptureFacts.

Lemma Sorted_snoc {A : Type} (R : A -> A -> Prop) (l : list A) (y : A) :
  Sorted R l -> Forall (fun x => R x y) l -> Sorted R (l ++ [y]).
Proof.
  induction 1 as [|x l Hs IH Hhd]; intros Hall; cbn.
  - repeat constructor.
  - inversion Hall as [|? ? Hxy Hrest]; subst.
    constructor; [now apply IH|].
    destruct l as [|z l]; cbn; constructor; [exact Hxy|].
    now inversion Hhd.
Qed.

Lemma rollups_snoc (ty : string) (db_ : FocusLogDB) (r : summary_row) (seq : Z) :
  rollups ty (set_summaries db_ (summaries db_ ++ [r]) seq) =
  rollups ty db_ ++ (if of_type ty r then [r] else []).
Proof. unfold rollups; cbn. now rewrite filter_app. Qed.

(** The three ways a 5-minute generation ends: failure, empty window,
    rollup persisted. *)
Lemma generate_5min_cases (d : FocusLogDaemon) (now : Z) (api : api_result) :
  let d' := _generate_5min_summary d now api in
  d' = d \/ d' = set_last_5min d now \/
  exists content,
    d' = set_last_5min
           (set_db d (set_summaries (db d)
                        (summaries (db d) ++
                           [mk_summary (summaries_seq (db d) + 1) "5min"
                              (last_5min_summary d) now content None])
                        (summaries_seq (db d) + 1)))
           now.
Proof.
  cbv zeta. unfold _generate_5min_summary.
  destruct (get_captures_since (db d) (last_5min_summary d) false) as [|c cs];
    [right; left; reflexivity|].
  destruct (startswith _ _); [left; reflexivity|].
  right; right. eexists. reflexivity.
Qed.

Lemma generate_5min_ordered (d : FocusLogDaemon) (now : Z) (api : api_result) :
  last_5min_summary d < now -> ordered_5min d ->
  ordered_5min (_generate_5min_summary d now api).
Proof.
  intros Hlt [Hs Hall].
  destruct (generate_5min_cases d now api) as [E|[E|(content & E)]];
    cbv zeta in E; rewrite E; clear E; unfold ordered_5min.
  - now split.
  - cbn. split; [exact Hs|].
    eapply Forall_impl; [|exact Hall]. cbn. intros r [? ?]. lia.
  - cbn [db set_db set_last_5min last_5min_summary]. rewrite rollups_snoc.
    replace (of_type "5min" _) with true by reflexivity. split.
    + apply Sorted_snoc; [exact Hs|].
      eapply Forall_impl; [|exact Hall]. unfold precedes; cbn. intros r [? ?]. lia.
    + apply Forall_app. split.
      * eapply Forall_impl; [|exact Hall]. cbn. intros r [? ?]. lia.
      * repeat constructor; cbn; lia.
Qed.

Lemma generate_hourly_frame (d : FocusLogDaemon) (now : Z) (api : api_result)
    (video_path_full : string) (video_success : bool) :
  let d' := _generate_hourly_summary d now api video_path_full video_success in
  rollups "5min" (db d') = rollups "5min" (db d) /\
  last_5min_summary d' = last_5min_summary d.
Proof.
  cbv zeta. unfold _generate_hourly_summary.
  destruct (get_summaries_in_range _ _ _ _) as [|s ss]; [now split|].
  destruct (startswith _ _); [now split|].
  cbv zeta. unfold save_summary.
  match goal with
  | |- context [cleanup_screenshots_except_thumbnails ?x ?a ?b] =>
      pose proof (cleanup_frame x a b) as F;
      destruct (cleanup_screenshots_except_thumbnails x a b) as [db2 res]
  end.
  cbn [fst] in F. destruct F as (F & _).
  assert (R : rollups "5min" db2 = rollups "5min" (db d)).
  { unfold rollups at 1. rewrite F. cbn [summaries set_summaries].
    rewrite filter_app. cbn. now rewrite app_nil_r. }
  destruct res; cbn; now split.
Qed.

Lemma check_and_generate_ordered (d : FocusLogDaemon) (env : summaries_env) :
  se_now env <= se_now_5min env -> ordered_5min d ->
  ordered_5min (_check_and_generate_summaries d env).
Proof.
  intros Hmono Hord. unfold _check_and_generate_summaries. cbv zeta.
  set (d1 := if 300 <=? se_now env - last_5min_summary d then _ else d).
  assert (H1 : ordered_5min d1).
  { subst d1. destruct (300 <=? se_now env - last_5min_summary d) eqn:E;
      [|exact Hord].
    apply Z.leb_le in E. apply generate_5min_ordered; [lia|exact Hord]. }
  destruct (3600 <=? _); [|exact H1].
  destruct (generate_hourly_frame d1 (se_now_hourly env) (se_api_hourly env)
              (se_video_path_full env) (se_video_success env)) as [R W].
  unfold ordered_5min. rewrite R, W. exact H1.
Qed.

Lemma run_iteration_ordered (st : loop_state) (env : tick_env) :
  clock_monotone env -> ordered_5min (daemon st) ->
  ordered_5min (daemon (run_iteration st env)).
Proof.
  intros Hmono Hord. unfold run_iteration. cbv zeta. cbn [daemon].
  assert (H1 : ordered_5min (_capture_and_classify (daemon st) (te_capture env))).
  { destruct (_capture_and_classify_rows (daemon st) (te_capture env))
      as (rows & _ & _ & S & W & _).
    unfold ordered_5min, rollups. rewrite S, W. exact Hord. }
  pose proof (check_and_generate_ordered _ (te_summaries env) Hmono H1) as H2.
  destruct (stop_requested env); exact H2.
Qed.

Lemma run_loop_ordered (envs : list tick_env) :
  forall st : loop_state,
    Forall clock_monotone envs -> ordered_5min (daemon st) ->
    ordered_5min (daemon (run_loop st envs)).
Proof.
  induction envs as [|env envs IH]; intros st Hall Hord; cbn; [exact Hord|].
  inversion Hall; subst.
  destruct (running (daemon st)); [|exact Hord].
  apply IH; [assumption|]. now apply run_iteration_ordered.
Qed.




Lemma generate_5min_persisted (d : FocusLogDaemon) (now : Z) (api : api_result)
    (r : summary_row) :
  summaries (db (_generate_5min_summary d now api)) = summaries (db d) ++ [r] ->
  sum_start_time r = last_5min_summary d /\ sum_end_time r = now /\
  last_5min_summary (_generate_5min_summary d now api) = now.
Proof.
  assert (Hno : summaries (db d) = summaries (db d) ++ [r] -> False).
  { intros H. rewrite <- (app_nil_r (summaries (db d))) in H at 1.
    apply app_inv_head in H. discriminate. }
  destruct (generate_5min_cases d now api) as [E|[E|(content & E)]];
    cbv zeta in E; rewrite E; cbn; intros H.
  - now apply Hno in H.
  - now apply Hno in H.
  - apply app_inv_head in H. injection H as <-. cbn. repeat split.
Qed.


End ChainFacts.

(** ** The deadlines of the main loop *)

Module LoopFacts.
Import Database Summarizer Daemon Timing Scenarios DatabaseFacts CaptureFacts.

Lemma generate_5min_interval (d : FocusLogDaemon) (now : Z) (api : api_result) :
  interval (_generate_5min_summary d now api) = interval d.
Proof.
  unfold _generate_5min_summary.
  destruct (get_captures_since _ _ _); [reflexivity|].
  destruct (startswith _ _); reflexivity.
Qed.

Lemma generate_hourly_interval (d : FocusLogDaemon) (now : Z) (api : api_result)
    (video_path_full : string) (video_success : bool) :
  interval (_generate_hourly_summary d now api video_path_full video_success)
  = interval d.
Proof.
  unfold _generate_hourly_summary.
  destruct (get_summaries_in_range _ _ _ _); [reflexivity|].
  destruct (startswith _ _); [reflexivity|].
  cbv zeta. unfold save_summary.
  destruct (cleanup_screenshots_except_thumbnails _ _ _) as [db2 [r|msg]];
    reflexivity.
Qed.

Lemma run_iteration_interval (st : loop_state) (env : tick_env) :
  interval (daemon (run_iteration st env)) = interval (daemon st).
Proof.
  unfold run_iteration; cbv zeta; cbn [daemon].
  destruct (_capture_and_classify_rows (daemon st) (te_capture env))
    as (rows & _ & _ & _ & _ & _ & I & _).
  assert (H : interval (_check_and_generate_summaries
                          (_capture_and_classify (daemon st) (te_capture env))
                          (te_summaries env)) = interval (daemon st)).
  { unfold _check_and_generate_summaries; cbv zeta.
    destruct (3600 <=? _); rewrite ?generate_hourly_interval;
      destruct (300 <=? _); rewrite ?generate_5min_interval; exact I. }
  destruct (stop_requested env); cbn [interval]; exact H.
Qed.

Lemma punctual_iteration (st : loop_state) (env : tick_env) :
  punctual (interval (daemon st)) env ->
  clock st <= next_capture_time st ->
  next_capture_time (run_iteration st env)
    = next_capture_time st + interval (daemon st) /\
  clock (run_iteration st env) <= next_capture_time (run_iteration st env).
Proof.
  intros (Ho & Hd & Hw) Hle.
  unfold run_iteration, capture_started, sleep_time; cbv zeta;
    cbn [next_capture_time clock].
  destruct (clock st <? next_capture_time st) eqn:E.
  - lia.
  - apply Z.ltb_ge in E. lia.
Qed.

Lemma punctual_deadlines (envs : list tick_env) :
  forall (st : loop_state) (k : nat),
    Forall (punctual (interval (daemon st))) envs ->
    clock st <= next_capture_time st ->
    (k < List.length envs)%nat ->
    nth k (deadlines st envs) 0
    = next_capture_time st + (Z.of_nat k + 1) * interval (daemon st).
Proof.
  induction envs as [|env envs IH]; intros st k Hall Hle Hk; cbn in Hk; [lia|].
  inversion Hall as [|? ? Hp Hrest]; subst.
  destruct (punctual_iteration st env Hp Hle) as [Hn Hc].
  cbn [deadlines]. cbv zeta. destruct k as [|k]; cbn [nth].
  - rewrite Hn. lia.
  - rewrite IH; rewrite ?run_iteration_interval; [rewrite Hn; lia | exact Hrest | exact Hc | lia].
Qed.

(** C1, as stated, fails: with interval 15, an iteration that starts on
    time at 0 and works until 20 schedules the deadline 15; the next
    iteration starts at once, at 20, and schedules 35, not 15 + 15. *)
Lemma overrun_shifts_deadline_counterexample :
  deadlines loop_start [tick 0 20; tick 20 1] = [15; 35] /\
  sleep_time (run_iteration loop_start (tick 0 20)) = None /\
  35 <> 15 + interval (daemon loop_start).
Proof.
  split; [vm_compute; reflexivity|]. split; [vm_compute; reflexivity|].
  cbn. lia.
Qed.

(** C1 (amended).  Each iteration schedules the next deadline as the
    reading of the clock taken when its capture starts, after any sleep and
    before any processing, plus the interval; the deadline does not depend
    on how long that iteration's own processing takes.  The loop sleeps only
    the time remaining to the deadline, and an iteration that finds the
    deadline already passed starts at once, without sleep.  While every
    sleep returns on its deadline and every iteration's work fits in the
    interval, the deadlines are [first + k * interval]. *)
Theorem deadline_is_capture_start_plus_interval :
  (forall (st : loop_state) (env : tick_env),
      next_capture_time (run_iteration st env)
      = capture_started st env + interval (daemon st)) /\
  (forall (st : loop_state) (env env' : tick_env),
      oversleep env = oversleep env' -> dispatch env = dispatch env' ->
      next_capture_time (run_iteration st env)
      = next_capture_time (run_iteration st env')) /\
  (forall st : loop_state,
      (next_capture_time st <= clock st -> sleep_time st = None) /\
      (clock st < next_capture_time st ->
       sleep_time st = Some (next_capture_time st - clock st))) /\
  (forall (st : loop_state) (envs : list tick_env) (k : nat),
      Forall (punctual (interval (daemon st))) envs ->
      clock st <= next_capture_time st ->
      (k < List.length envs)%nat ->
      nth k (deadlines st envs) 0
      = next_capture_time st + (Z.of_nat k + 1) * interval (daemon st)).
Proof.
  split; [reflexivity|]. split; [|split].
  - intros st env env' Ho Hd.
    unfold run_iteration, capture_started; cbv zeta; cbn [next_capture_time].
    now rewrite Ho, Hd.
  - intros st. unfold sleep_time; cbv zeta. split; intros H.
    + apply Z.ltb_ge in H. now rewrite H.
    + apply Z.ltb_lt in H. now rewrite H.
  - intros st envs k. apply punctual_deadlines.
Qed.

Lemma deadline_is_capture_start_plus_interval_witness :
  next_capture_time (run_iteration loop_start (tick 0 20))
    = next_capture_time (run_iteration loop_start (tick 0 3)) /\
  sleep_time (run_iteration loop_start (tick 0 20)) = None /\
  sleep_time (run_iteration loop_start (tick 0 3)) = Some 12 /\
  nth 2 (deadlines loop_start [tick 0 3; tick 15 15; tick 30 1]) 0 = 0 + (2 + 1) * 15.
Proof.
  destruct deadline_is_capture_start_plus_interval as (_ & B & C & D).
  split; [apply B; reflexivity|].
  split; [apply (C (run_iteration loop_start (tick 0 20))); vm_compute; discriminate|].
  split; [apply (C (run_iteration loop_start (tick 0 3))); vm_compute; reflexivity|].
  apply (D loop_start [tick 0 3; tick 15 15; tick 30 1] 2%nat).
  - repeat constructor; cbn; lia.
  - cbn. lia.
  - cbn. lia.
Defined.

End LoopFacts.

(** ** Thinning of the stored screenshots *)

Module ThinningFacts.
Import Database Summarizer Daemon Thinning Scenarios DatabaseFacts.

(** The window computed field by field is the timestamp rounded down to a
    multiple of 300 seconds. *)
Lemma window_start_floor (t : Z) : window_start t = t / 300 * 300.
Proof.
  unfold window_start; cbv zeta.
  replace (t / 3600) with (t / 60 / 60) by (rewrite Z.div_div; [reflexivity|lia|lia]).
  replace (t / 300) with (t / 60 / 5) by (rewrite Z.div_div; [reflexivity|lia|lia]).
  set (q := t / 60).
  pose proof (Z.div_mod q 60 ltac:(lia)) as E.
  pose proof (Z.mod_pos_bound q 60 ltac:(lia)) as B.
  set (h := q / 60) in *. set (m := q mod 60) in *.
  replace (q / 5) with (12 * h + m / 5).
  - lia.
  - rewrite E. replace (60 * h + m) with (h * 12 * 5 + m) by lia.
    rewrite Z.div_add_l by lia. lia.
Qed.

Lemma window_start_mono (a b : Z) : a <= b -> window_start a <= window_start b.
Proof.
  intros H. rewrite !window_start_floor.
  apply Z.mul_le_mono_nonneg_r; [lia|]. apply Z.div_le_mono; lia.
Qed.

(** When the grouping loop marks nothing for deletion, the rows it was
    given, in timestamp order, lie in pairwise different windows. *)
Lemma scan_nothing_to_delete (rows : list capture_row) :
  forall (cur : option Z) (th del : list Z),
    StronglySorted (fun a b => by_timestamp a b = true) rows ->
    (forall w r, cur = Some w -> In r rows -> w <= window_of r) ->
    snd (fold_left scan_step rows (cur, th, del)) = [] ->
    del = [] /\ NoDup (map window_of rows) /\
    (forall w, cur = Some w -> ~ In w (map window_of rows)).
Proof.
  induction rows as [|r rest IH]; intros cur th del Hs Hlow Hnil.
  - cbn in *. repeat split; [exact Hnil | constructor | intros ? ? []].
  - inversion Hs as [|? ? Hs' Hall]; subst.
    assert (Hrest : forall r', In r' rest -> window_of r <= window_of r').
    { intros r' Hin. rewrite Forall_forall in Hall. specialize (Hall r' Hin).
      unfold by_timestamp in Hall. apply Z.leb_le in Hall.
      now apply window_start_mono. }
    cbn [fold_left] in Hnil. unfold scan_step at 2 in Hnil.
    fold (window_of r) in Hnil.
    assert (Hnew : forall th',
               snd (fold_left scan_step rest (Some (window_of r), th', del)) = [] ->
               (forall w, cur = Some w -> w <> window_of r) ->
               del = [] /\ NoDup (map window_of (r :: rest)) /\
               (forall w, cur = Some w -> ~ In w (map window_of (r :: rest)))).
    { intros th' Hnil' Hneq.
      destruct (IH (Some (window_of r)) th' del Hs') as (D & N & F);
        [intros w r' [= <-] Hin; now apply Hrest | exact Hnil' |].
      split; [exact D|]. split.
      - cbn. constructor; [now apply F | exact N].
      - intros w Hw [Heq|Hin].
        + now apply (Hneq w Hw).
        + apply in_map_iff in Hin. destruct Hin as (r' & E & Hin).
          pose proof (Hlow w r Hw (or_introl eq_refl)).
          pose proof (Hrest r' Hin). pose proof (Hneq w Hw). lia. }
    destruct cur as [w|].
    + destruct (w =? window_of r) eqn:E.
      * destruct (IH (Some w) th (del ++ [cap_id r]) Hs') as (D & _);
          [intros w' r' [= <-] Hin; apply Z.eqb_eq in E; rewrite E; now apply Hrest
          | exact Hnil |].
        destruct del; discriminate.
      * apply Z.eqb_neq in E. apply (Hnew _ Hnil). now intros w' [= <-].
    + apply (Hnew _ Hnil). discriminate.
Qed.

(** Every id the loop marks for deletion is the id of a row it was given. *)
Lemma scan_to_delete_ids (rows : list capture_row) :
  forall (cur : option Z) (th del : list Z) (i : Z),
    In i (snd (fold_left scan_step rows (cur, th, del))) ->
    In i del \/ exists r, In r rows /\ cap_id r = i.
Proof.
  induction rows as [|r rest IH]; intros cur th del i Hin; [now left|].
  cbn [fold_left] in Hin. unfold scan_step at 2 in Hin.
  assert (Hcase : forall st', In i (snd (fold_left scan_step rest st')) ->
                    (st' = (cur, th, del ++ [cap_id r]) \/
                     exists c t, st' = (c, t, del)) ->
                    In i del \/ exists r', In r' (r :: rest) /\ cap_id r' = i).
  { intros [[c t] dl] Hi Hst. apply IH in Hi.
    destruct Hi as [Hi|(r' & Hr' & E)]; [|right; exists r'; split; [now right|exact E]].
    destruct Hst as [[= -> -> ->]|(c' & t' & [= -> -> ->])]; [|now left].
    apply in_app_or in Hi. destruct Hi as [Hi|[<-|[]]]; [now left|].
    right. exists r. split; [now left|reflexivity]. }
  destruct cur as [w|]; [destruct (w =? _)|]; apply (Hcase _ Hin);
    [now left | right; eauto | right; eauto].
Qed.

(** C9.  On a store whose [captures] table carries the constraint declared
    by [_create_tables], a cleaned range in which two samples fall in the
    same 5-minute window makes the [UPDATE ... SET screenshot = NULL]
    violate [NOT NULL]: the call raises and no payload is changed. *)
Theorem cleanup_raises_on_not_null_column :
  forall (db_ : FocusLogDB) (start_time end_time : Z)
         (before between after : list capture_row) (a b : capture_row),
    screenshot_not_null db_ = screenshot_not_null _create_tables ->
    captures db_ = before ++ a :: between ++ b :: after ->
    in_range start_time end_time a = true ->
    in_range start_time end_time b = true ->
    window_start (cap_timestamp a) = window_start (cap_timestamp b) ->
    cleanup_screenshots_except_thumbnails db_ start_time end_time =
    (db_, IntegrityError "NOT NULL constraint failed: captures.screenshot").
Proof.
  intros db_ s e before between after a b Hnn Hcaps Ha Hb Hw.
  unfold cleanup_screenshots_except_thumbnails; cbv zeta.
  set (rows := order_by by_timestamp (filter (in_range s e) (captures db_))).
  assert (Hperm : Permutation rows (filter (in_range s e) (captures db_)))
    by apply order_by_perm.
  assert (Hsorted : StronglySorted (fun x y => by_timestamp x y = true) rows)
    by (apply order_by_sorted; [apply by_timestamp_total | apply by_timestamp_trans]).
  assert (Hdup : ~ NoDup (map window_of rows)).
  { intros N.
    apply (Permutation_NoDup (Permutation_map window_of Hperm)) in N.
    rewrite Hcaps in N. rewrite filter_app in N; cbn [filter] in N.
    rewrite Ha in N. rewrite filter_app in N; cbn [filter] in N.
    rewrite Hb in N. rewrite map_app in N; cbn [map] in N.
    apply NoDup_remove_2 in N. apply N.
    apply in_or_app; right. rewrite map_app. apply in_or_app; right.
    left. unfold window_of. now rewrite Hw. }
  destruct rows as [|r rows'] eqn:Erows.
  { exfalso. apply Hdup. constructor. }
  rewrite <- Erows in *. clear Erows r rows'.
  destruct (scan rows) as [[cur th] del] eqn:Escan.
  assert (Hdel : del <> []).
  { intros ->. apply Hdup.
    destruct (scan_nothing_to_delete rows None [] [] Hsorted) as (_ & N & _);
      [discriminate | unfold scan in Escan; now rewrite Escan | exact N]. }
  assert (Hhit : existsb (fun r => id_in del (cap_id r)) (captures db_) = true).
  { destruct del as [|i ids]; [congruence|].
    destruct (scan_to_delete_ids rows None [] [] i) as [[]|(r & Hr & E)].
    { unfold scan in Escan. rewrite Escan. now left. }
    apply existsb_exists. exists r. split.
    - apply (Permutation_in _ Hperm) in Hr. now apply filter_In in Hr.
    - unfold id_in. apply existsb_exists. exists i. split; [now left|].
      rewrite E. apply Z.eqb_refl. }
  destruct rows as [|r rows']; [exfalso; apply Hdup; constructor|].
  destruct del as [|i ids]; [congruence|].
  unfold update_screenshot_null. rewrite Hnn, Hhit. reflexivity.
Qed.

Lemma cleanup_raises_on_not_null_column_witness :
  cleanup_screenshots_except_thumbnails two_in_a_window 0 3600 =
  (two_in_a_window, IntegrityError "NOT NULL constraint failed: captures.screenshot").
Proof.
  apply (cleanup_raises_on_not_null_column two_in_a_window 0 3600 [] []  []
           (mk_capture 1 0 (Some png) (Some "editing a report") (Some "{}") None)
           (mk_capture 2 15 (Some png) (Some "editing a report") (Some "{}") None));
    reflexivity.
Defined.

(** C6 fails on the code: on a database created by [_create_tables], two
    captures at t = 0 and t = 15 lie in one 5-minute window of the range
    [0, 3600); thinning raises instead of keeping one payload per window,
    and both payloads are still there. *)
Theorem thinning_rejected_on_new_database :
  cleanup_screenshots_except_thumbnails two_in_a_window 0 3600 =
    (two_in_a_window,
     IntegrityError "NOT NULL constraint failed: captures.screenshot") /\
  List.length (windows_met two_in_a_window 0 3600) = 1%nat /\
  List.length
    (with_payload (fst (cleanup_screenshots_except_thumbnails two_in_a_window 0 3600))
       0 3600) = 2%nat.
Proof. repeat split; vm_compute; reflexivity. Qed.

(** What follows in the hourly generation: the rollup is persisted before
    the thinning raises, the watermark stays, and the next due-check
    persists a second hourly rollup from the same start. *)
Example hourly_rollup_repeats :
  last_hourly_summary
    (_generate_hourly_summary hour_one 3600 (good_answer "A quiet hour.")
       "videos/focuslog.mp4" true) = 0 /\
  map (fun r => (sum_start_time r, sum_end_time r))
    (Rollups.rollups "hourly"
       (db (_generate_hourly_summary
              (_generate_hourly_summary hour_one 3600 (good_answer "A quiet hour.")
                 "videos/focuslog.mp4" true)
              3615 (good_answer "A quiet hour.") "videos/focuslog.mp4" true)))
  = [(0, 3600); (0, 3615)].
Proof. split; vm_compute; reflexivity. Qed.

End ThinningFacts.

(** ** Labels *)

Module LabelFacts.
Import Database Scenarios.

Lemma find_map_same {A : Type} (p : A -> bool) (f : A -> A) (l : list A) :
  (forall x, p (f x) = p x) -> find p (map f l) = option_map f (find p l).
Proof.
  intros H. induction l as [|x l IH]; cbn; [reflexivity|].
  rewrite H. destruct (p x); [reflexivity|exact IH].
Qed.

Lemma find_snoc_none {A : Type} (p : A -> bool) (l : list A) (x : A) :
  find p l = None -> p x = true -> find p (l ++ [x]) = Some x.
Proof.
  induction l as [|y l IH]; cbn; intros Hn Hx; [now rewrite Hx|].
  destruct (p y); [discriminate|now apply IH].
Qed.

Lemma touch_name (id : Z) (text : string) (r : label_row) :
  label_name (touch id text r) = label_name r.
Proof. unfold touch. now destruct (label_id r =? id). Qed.

Lemma touch_id (id : Z) (text : string) (r : label_row) :
  label_id (touch id text r) = label_id r.
Proof. unfold touch. now destruct (label_id r =? id). Qed.

Lemma get_or_create_label_found (db_ : FocusLogDB) (name : string)
    (clk : label_clock) (row : label_row) :
  find (fun r => String.eqb (label_name r) name) (labels db_) = Some row ->
  get_or_create_label db_ name clk =
  (set_labels db_ (map (touch (label_id row) (now_isoformat clk)) (labels db_))
     (labels_seq db_),
   label_id row).
Proof. intros E. unfold get_or_create_label. now rewrite E. Qed.

Lemma get_or_create_label_new (db_ : FocusLogDB) (name : string)
    (clk : label_clock) :
  find (fun r => String.eqb (label_name r) name) (labels db_) = None ->
  get_or_create_label db_ name clk =
  (set_labels db_
     (labels db_ ++ [mk_label (labels_seq db_ + 1) name (current_timestamp clk)])
     (labels_seq db_ + 1),
   labels_seq db_ + 1).
Proof. intros E. unfold get_or_create_label. now rewrite E. Qed.

(** Two calls with one name return one id, and the second call adds no
    row: the names and the ids in the table are the same after it. *)
Lemma get_or_create_label_same_id (db_ : FocusLogDB) (name : string)
    (clk1 clk2 : label_clock) :
  let first := get_or_create_label db_ name clk1 in
  let second := get_or_create_label (fst first) name clk2 in
  snd second = snd first /\
  map label_name (labels (fst second)) = map label_name (labels (fst first)) /\
  map label_id (labels (fst second)) = map label_id (labels (fst first)).
Proof.
  cbv zeta.
  destruct (find (fun r => String.eqb (label_name r) name) (labels db_))
    as [row|] eqn:E.
  - rewrite (get_or_create_label_found _ _ clk1 _ E). cbn [fst snd].
    rewrite (get_or_create_label_found _ _ clk2
               (touch (label_id row) (now_isoformat clk1) row)).
    + cbn [fst snd labels set_labels]. rewrite touch_id.
      split; [reflexivity|]. rewrite !map_map.
      split; apply map_ext; intros x; now rewrite ?touch_name, ?touch_id.
    + cbn [labels set_labels].
      rewrite find_map_same by (intros x; now rewrite touch_name).
      now rewrite E.
  - rewrite (get_or_create_label_new _ _ clk1 E). cbn [fst snd].
    rewrite (get_or_create_label_found _ _ clk2
               (mk_label (labels_seq db_ + 1) name (current_timestamp clk1))).
    + cbn [fst snd labels set_labels label_id].
      split; [reflexivity|]. rewrite !map_map.
      split; apply map_ext; intros x; now rewrite ?touch_name, ?touch_id.
    + cbn [labels set_labels].
      apply find_snoc_none; [exact E|]. cbn. apply String.eqb_refl.
Qed.

(** C7 fails on the code.  The ids behave as stated: the two calls for
    "writing" return the id 1 and leave one row.  The recency order does
    not: a label just created carries SQLite's [CURRENT_TIMESTAMP] text, a
    label used again carries [isoformat()] text, and the byte-wise order of
    the two texts is not the order of the calls.  With local time equal to
    UTC, "email", used last, is listed last; with local time behind UTC,
    using "writing" again leaves it second. *)
Theorem recency_order_mixes_clock_texts :
  snd utc_calls = [1; 1; 2] /\
  map label_name (labels (fst utc_calls)) = ["writing"; "email"] /\
  get_all_labels (fst utc_calls) = ["writing"; "email"] /\
  get_all_labels behind_utc_created = ["email"; "writing"] /\
  get_all_labels behind_utc_touched = ["email"; "writing"].
Proof. repeat split; vm_compute; reflexivity. Qed.

End LabelFacts.

(** ** Thinning on a store that accepts NULL payloads *)

Module NullableFacts.
Import Database Thinning Scenarios DatabaseFacts ThinningFacts.

Lemma scan_step_eq (cur : option Z) (th del : list Z) (r : capture_row) :
  scan_step (cur, th, del) r =
  if same_window cur (window_of r) then (cur, th, del ++ [cap_id r])
  else (Some (window_of r), th ++ [cap_id r], del).
Proof.
  unfold scan_step, same_window, window_of.
  destruct cur as [w|]; [destruct (w =? _)|]; reflexivity.
Qed.

Lemma scan_fold (rows : list capture_row) :
  forall (cur : option Z) (th del : list Z),
    snd (fst (fold_left scan_step rows (cur, th, del))) = th ++ firsts cur rows /\
    snd (fold_left scan_step rows (cur, th, del)) = del ++ others cur rows.
Proof.
  induction rows as [|r rest IH]; intros cur th del; cbn [fold_left firsts others].
  - cbn. now rewrite !app_nil_r.
  - rewrite scan_step_eq. destruct (same_window cur (window_of r)).
    + destruct (IH cur th (del ++ [cap_id r])) as [A B].
      rewrite A, B, <- app_assoc. now split.
    + destruct (IH (Some (window_of r)) (th ++ [cap_id r]) del) as [A B].
      rewrite A, B, <- app_assoc. now split.
Qed.

Lemma id_in_true (ids : list Z) (i : Z) : id_in ids i = true <-> In i ids.
Proof.
  unfold id_in. rewrite existsb_exists. split.
  - intros (x & Hx & E). apply Z.eqb_eq in E. now subst.
  - intros H. exists i. split; [exact H|apply Z.eqb_refl].
Qed.

Lemma others_ids (rows : list capture_row) :
  forall (cur : option Z) (i : Z),
    In i (others cur rows) -> In i (map cap_id rows).
Proof.
  induction rows as [|r rest IH]; intros cur i; cbn; [tauto|].
  destruct (same_window cur (window_of r)).
  - intros [H|H]; [now left|right; eauto].
  - intros H. right. eauto.
Qed.

(** With unique ids, the rows whose id is not marked for deletion are as
    many as the thumbnails. *)
Lemma firsts_kept (rows : list capture_row) :
  forall cur : option Z,
    NoDup (map cap_id rows) ->
    List.length (filter (fun r => negb (id_in (others cur rows) (cap_id r))) rows)
    = List.length (firsts cur rows).
Proof.
  induction rows as [|r rest IH]; intros cur Hnd; [reflexivity|].
  cbn [map] in Hnd. inversion Hnd as [|? ? Hnotin Hnd']; subst.
  cbn [firsts others]. destruct (same_window cur (window_of r)).
  - cbn [filter]. replace (id_in _ (cap_id r)) with true
      by (symmetry; apply id_in_true; now left).
    cbn [negb]. rewrite <- (IH cur Hnd'). f_equal.
    apply filter_ext_in. intros x Hx. f_equal.
    unfold id_in. cbn [existsb].
    destruct (cap_id x =? cap_id r) eqn:E; [|reflexivity].
    apply Z.eqb_eq in E. exfalso. apply Hnotin. rewrite <- E. now apply in_map.
  - cbn [filter]. destruct (id_in _ (cap_id r)) eqn:E.
    + apply id_in_true, others_ids in E. contradiction.
    + cbn [negb List.length]. now rewrite (IH _ Hnd').
Qed.

(** In timestamp order, the thumbnails are as many as the distinct
    windows, one less if the loop is already in a window still to come. *)
Lemma firsts_count (rows : list capture_row) :
  forall cur : option Z,
    StronglySorted (fun a b => by_timestamp a b = true) rows ->
    (forall w r, cur = Some w -> In r rows -> w <= window_of r) ->
    (List.length (firsts cur rows) +
     match cur with
     | Some w => if in_dec Z.eq_dec w (map window_of rows) then 1 else 0
     | None => 0
     end)%nat
    = List.length (nodup Z.eq_dec (map window_of rows)).
Proof.
  induction rows as [|r rest IH]; intros cur Hs Hlow.
  - cbn. now destruct cur.
  - inversion Hs as [|? ? Hs' Hall]; subst.
    assert (Hrest : forall w r', Some (window_of r) = Some w -> In r' rest ->
                      w <= window_of r').
    { intros w r' [= <-] Hin. rewrite Forall_forall in Hall.
      specialize (Hall r' Hin). unfold by_timestamp in Hall.
      apply Z.leb_le in Hall. now apply window_start_mono. }
    cbn [firsts]. rewrite map_cons. cbn [nodup].
    destruct (same_window cur (window_of r)) eqn:E.
    + destruct cur as [w|]; [|discriminate]. cbn in E. apply Z.eqb_eq in E. subst w.
      specialize (IH (Some (window_of r)) Hs' Hrest). cbn beta iota in IH.
      destruct (in_dec Z.eq_dec (window_of r) (window_of r :: map window_of rest))
        as [_|N]; [|exfalso; apply N; now left].
      revert IH.
      repeat match goal with
             | |- context [in_dec ?a ?b ?c] => destruct (in_dec a b c)
             end; cbn [List.length]; try lia; contradiction.
    + specialize (IH (Some (window_of r)) Hs' Hrest). cbn beta iota in IH.
      assert (Hzero : (match cur with
                       | Some w => if in_dec Z.eq_dec w (window_of r :: map window_of rest)
                                   then 1 else 0
                       | None => 0
                       end = 0)%nat).
      { destruct cur as [w|]; [|reflexivity]. cbn in E. apply Z.eqb_neq in E.
        destruct (in_dec Z.eq_dec w (window_of r :: map window_of rest))
          as [[H|H]|_]; [congruence| |reflexivity].
        apply in_map_iff in H. destruct H as (r' & Hw & Hin).
        pose proof (Hlow w r eq_refl (or_introl eq_refl)).
        pose proof (Hrest _ r' eq_refl Hin). lia. }
      rewrite Hzero. revert IH.
      repeat match goal with
             | |- context [in_dec ?a ?b ?c] => destruct (in_dec a b c)
             end; cbn [List.length]; try lia; contradiction.
Qed.

Lemma nodup_length_perm (l l' : list Z) :
  Permutation l l' ->
  List.length (nodup Z.eq_dec l) = List.length (nodup Z.eq_dec l').
Proof.
  intros P. apply Permutation_length, NoDup_Permutation; try apply NoDup_nodup.
  intros x. rewrite !nodup_In. split; apply Permutation_in; [|symmetry]; exact P.
Qed.

Lemma filter_perm {A : Type} (f : A -> bool) (l l' : list A) :
  Permutation l l' -> Permutation (filter f l) (filter f l').
Proof.
  induction 1 as [|x l l' _ IH|x y l|l l' l'' _ IH1 _ IH2]; cbn.
  - constructor.
  - destruct (f x); [now constructor|exact IH].
  - destruct (f x), (f y); try reflexivity. apply perm_swap.
  - now transitivity (filter f l').
Qed.

Lemma NoDup_map_filter {A B : Type} (g : A -> B) (f : A -> bool) (l : list A) :
  NoDup (map g l) -> NoDup (map g (filter f l)).
Proof.
  induction l as [|x l IH]; cbn; intros H; [constructor|].
  inversion H as [|? ? Hnotin H']; subst.
  destruct (f x); cbn; [|now apply IH].
  constructor; [|now apply IH].
  intros Hin. apply Hnotin. apply in_map_iff in Hin.
  destruct Hin as (y & E & Hy). apply filter_In in Hy. rewrite <- E.
  now apply in_map.
Qed.

Lemma null_payload_nil (l : list capture_row) : map (null_payload []) l = l.
Proof. induction l as [|r l IH]; cbn; [reflexivity|now rewrite IH]. Qed.

Lemma null_payload_twice (ids : list Z) (r : capture_row) :
  null_payload ids (null_payload ids r) = null_payload ids r.
Proof.
  unfold null_payload. destruct (id_in ids (cap_id r)) eqn:E; cbn; now rewrite E.
Qed.

Lemma null_payload_keeps (ids : list Z) (r : capture_row) :
  cap_id (null_payload ids r) = cap_id r /\
  cap_timestamp (null_payload ids r) = cap_timestamp r.
Proof. unfold null_payload. now destruct (id_in ids (cap_id r)). Qed.

Lemma insert_row_map {A : Type} (leb : A -> A -> bool) (g : A -> A) (x : A)
    (l : list A) :
  (forall a b, leb (g a) (g b) = leb a b) ->
  insert_row leb (g x) (map g l) = map g (insert_row leb x l).
Proof.
  intros H. induction l as [|y l IH]; cbn; [reflexivity|].
  rewrite H. destruct (leb x y); cbn; [reflexivity|now rewrite IH].
Qed.

Lemma order_by_map {A : Type} (leb : A -> A -> bool) (g : A -> A) (l : list A) :
  (forall a b, leb (g a) (g b) = leb a b) ->
  order_by leb (map g l) = map g (order_by leb l).
Proof.
  intros H. induction l as [|x l IH]; cbn; [reflexivity|].
  now rewrite IH, insert_row_map.
Qed.

Lemma rows_of_nulled (db_ : FocusLogDB) (s e : Z) (ids : list Z) (seq : Z) :
  rows_of (set_captures db_ (map (null_payload ids) (captures db_)) seq) s e
  = map (null_payload ids) (rows_of db_ s e).
Proof.
  unfold rows_of; cbn [captures set_captures].
  rewrite filter_map_swap, order_by_map.
  - f_equal. f_equal. apply filter_ext. intros r. unfold in_range.
    now destruct (null_payload_keeps ids r) as [_ ->].
  - intros a b. unfold by_timestamp.
    destruct (null_payload_keeps ids a) as [_ ->].
    now destruct (null_payload_keeps ids b) as [_ ->].
Qed.

Lemma others_nulled (ids : list Z) (rows : list capture_row) :
  forall cur : option Z,
    others cur (map (null_payload ids) rows) = others cur rows.
Proof.
  induction rows as [|r rest IH]; intros cur; cbn [map others]; [reflexivity|].
  unfold window_of at 1 2. destruct (null_payload_keeps ids r) as [-> ->].
  fold (window_of r). destruct (same_window cur (window_of r)); now rewrite IH.
Qed.

(** What the call leaves behind when the column accepts NULL. *)
Lemma cleanup_nullable (db_ : FocusLogDB) (s e : Z) :
  screenshot_not_null db_ = false ->
  fst (cleanup_screenshots_except_thumbnails db_ s e) =
  set_captures db_
    (map (null_payload (others None (rows_of db_ s e))) (captures db_))
    (captures_seq db_).
Proof.
  intros Hnn. unfold cleanup_screenshots_except_thumbnails; cbv zeta.
  fold (rows_of db_ s e).
  assert (Hid : db_ = set_captures db_ (map (null_payload []) (captures db_))
                        (captures_seq db_))
    by (rewrite null_payload_nil; now destruct db_).
  destruct (rows_of db_ s e) as [|r rows'] eqn:E; [exact Hid|].
  rewrite <- E.
  destruct (scan_fold (rows_of db_ s e) None [] []) as [_ D].
  fold (scan (rows_of db_ s e)) in D. cbn [app] in D.
  destruct (scan (rows_of db_ s e)) as [[cur th] del]. cbn [snd] in D. subst del.
  destruct (others None (rows_of db_ s e)) as [|i ids]; [exact Hid|].
  unfold update_screenshot_null. rewrite Hnn. reflexivity.
Qed.

(** On a store that accepts NULL payloads, thinning a range whose samples
    all hold a payload leaves as many payloads in the range as the range
    meets 5-minute windows, and thinning the range again changes nothing. *)
Lemma thinning_on_nullable_column (db_ : FocusLogDB) (s e : Z) :
  thinnable db_ s e ->
  let db' := fst (cleanup_screenshots_except_thumbnails db_ s e) in
  List.length (with_payload db' s e) = List.length (windows_met db_ s e) /\
  fst (cleanup_screenshots_except_thumbnails db' s e) = db'.
Proof.
  intros (Hnn & Hids & Hpay). cbv zeta. rewrite (cleanup_nullable _ _ _ Hnn).
  set (del := others None (rows_of db_ s e)).
  assert (Hperm : Permutation (rows_of db_ s e) (filter (in_range s e) (captures db_)))
    by apply order_by_perm.
  split.
  - unfold with_payload, windows_met; cbn [captures set_captures].
    rewrite filter_map_swap.
    rewrite (filter_ext (fun a => in_range s e (null_payload del a)) (in_range s e))
      by (intros r; unfold in_range;
          now destruct (null_payload_keeps del r) as [_ ->]).
    rewrite filter_map_swap, length_map.
    rewrite (filter_ext_in _ (fun r => negb (id_in del (cap_id r)))).
    + rewrite <- (Permutation_length (filter_perm _ _ _ Hperm)).
      subst del. rewrite firsts_kept.
      * rewrite <- (nodup_length_perm _ _ (Permutation_map window_of Hperm)).
        rewrite <- (firsts_count (rows_of db_ s e) None); [lia| |discriminate].
        apply order_by_sorted; [apply by_timestamp_total | apply by_timestamp_trans].
      * apply (Permutation_NoDup (Permutation_map cap_id (Permutation_sym Hperm))).
        now apply NoDup_map_filter.
    + intros r Hr. rewrite Forall_forall in Hpay. specialize (Hpay r Hr).
      unfold null_payload, has_payload.
      destruct (id_in del (cap_id r)); cbn; [reflexivity|].
      now destruct (cap_screenshot r).
  - rewrite cleanup_nullable by exact Hnn.
    rewrite rows_of_nulled, others_nulled. fold del.
    unfold set_captures.
    cbn [screenshot_not_null labels labels_seq captures captures_seq
         captures_labels summaries summaries_seq].
    rewrite map_map. f_equal.
    apply map_ext. intros r. apply null_payload_twice.
Qed.

Example thinning_on_nullable_example :
  thinnable two_in_a_nullable_window 0 3600 /\
  map cap_id
    (with_payload
       (fst (cleanup_screenshots_except_thumbnails two_in_a_nullable_window 0 3600))
       0 3600) = [1].
Proof.
  split; [|vm_compute; reflexivity].
  split; [reflexivity|]. split.
  - vm_compute. repeat constructor; cbn; intuition discriminate.
  - vm_compute. repeat constructor; discriminate.
Qed.

End NullableFacts.

(** ** The keys of the store are kept *)

Module IntegrityFacts.
Import Database Summarizer Daemon Integrity Scenarios DatabaseFacts LabelFacts.

Lemma NoDup_snoc {A : Type} (l : list A) (x : A) :
  NoDup l -> ~ In x l -> NoDup (l ++ [x]).
Proof.
  intros Hl Hx. apply NoDup_app; [exact Hl | repeat constructor; intros [] |].
  intros a Ha [<-|[]]. contradiction.
Qed.

Lemma touched_ids (id : Z) (text : string) (l : list label_row) :
  map label_id (map (touch id text) l) = map label_id l.
Proof. rewrite map_map. apply map_ext. intros r. apply touch_id. Qed.

Lemma touched_names (id : Z) (text : string) (l : list label_row) :
  map label_name (map (touch id text) l) = map label_name l.
Proof. rewrite map_map. apply map_ext. intros r. apply touch_name. Qed.

Lemma fresh_key_absent {A : Type} (key : A -> Z) (l : list A) (seq : Z) :
  Forall (fun r => key r <= seq) l -> ~ In (seq + 1) (map key l).
Proof.
  intros H Hin. apply in_map_iff in Hin. destruct Hin as (r & E & Hr).
  rewrite Forall_forall in H. specialize (H r Hr). lia.
Qed.

Lemma bound_grows {A : Type} (key : A -> Z) (l : list A) (seq seq' : Z) :
  seq <= seq' -> Forall (fun r => key r <= seq) l -> Forall (fun r => key r <= seq') l.
Proof. intros Hle. apply Forall_impl. intros r. lia. Qed.

(** What [get_or_create_label] does to the keys: the label table stays
    keyed, the sequence does not go back, the id returned is in range. *)
Lemma get_or_create_label_keyed (db_ : FocusLogDB) (name : string)
    (clk : label_clock) :
  labels_keyed db_ ->
  let db' := fst (get_or_create_label db_ name clk) in
  labels_keyed db' /\ labels_seq db_ <= labels_seq db' /\
  snd (get_or_create_label db_ name clk) <= labels_seq db' /\
  captures_labels db' = captures_labels db_.
Proof.
  intros (Hid & Hb & Hn). cbv zeta.
  destruct (find (fun r => String.eqb (label_name r) name) (labels db_))
    as [row|] eqn:E.
  - rewrite (get_or_create_label_found _ _ clk _ E). cbn [fst snd].
    unfold labels_keyed; cbn [labels labels_seq captures_labels set_labels].
    rewrite touched_ids, touched_names.
    apply find_some in E. destruct E as [Hin _].
    repeat split; try assumption; try lia.
    + apply Forall_forall. intros r Hr. apply in_map_iff in Hr.
      destruct Hr as (r' & <- & Hr'). rewrite touch_id.
      rewrite Forall_forall in Hb. now apply Hb.
    + rewrite Forall_forall in Hb. now apply Hb.
  - rewrite (get_or_create_label_new _ _ clk E). cbn [fst snd].
    unfold labels_keyed; cbn [labels labels_seq captures_labels set_labels].
    rewrite !map_app; cbn [map label_id label_name].
    repeat split; try lia.
    + apply NoDup_snoc; [exact Hid|]. now apply fresh_key_absent.
    + apply Forall_app. split; [|repeat constructor; cbn; lia].
      apply bound_grows with (seq := labels_seq db_); [lia|exact Hb].
    + apply NoDup_snoc; [exact Hn|]. intros Hin. apply in_map_iff in Hin.
      destruct Hin as (r & Er & Hr).
      pose proof (find_none _ _ E r Hr) as F. cbn in F.
      rewrite Er, String.eqb_refl in F. discriminate.
Qed.

Lemma get_or_create_label_consistent (db_ : FocusLogDB) (name : string)
    (clk : label_clock) :
  consistent db_ -> consistent (fst (get_or_create_label db_ name clk)).
Proof.
  intros (Hc & Hl & Hs & Hk & Hkb).
  destruct (get_or_create_label_keyed db_ name clk Hl) as (Hl' & Hseq & _ & Hlinks).
  destruct (get_or_create_label_frame db_ name clk) as (F1 & F2 & F3 & F4 & _).
  cbv zeta in *. unfold consistent.
  split; [unfold captures_keyed; rewrite F1, F2; exact Hc|].
  split; [exact Hl'|].
  split; [unfold summaries_keyed; rewrite F3, F4; exact Hs|].
  unfold links_keyed. rewrite Hlinks, F2. split; [exact Hk|].
  eapply Forall_impl; [|exact Hkb]. cbn. intros p [? ?]. split; lia.
Qed.

Lemma insert_or_ignore_NoDup (p : Z * Z) (l : list (Z * Z)) :
  NoDup l -> NoDup (insert_or_ignore p l).
Proof.
  intros H. unfold insert_or_ignore.
  destruct (existsb _ l) eqn:E; [exact H|].
  apply NoDup_snoc; [exact H|]. intros Hin.
  assert (existsb (fun q => (fst q =? fst p) && (snd q =? snd p)) l = true).
  { apply existsb_exists. exists p. split; [exact Hin|]. now rewrite !Z.eqb_refl. }
  congruence.
Qed.

Lemma insert_or_ignore_In (p q : Z * Z) (l : list (Z * Z)) :
  In q (insert_or_ignore p l) <-> In q l \/ q = p.
Proof.
  unfold insert_or_ignore. destruct (existsb _ l) eqn:E.
  - split; [now left|]. intros [H| ->]; [exact H|].
    apply existsb_exists in E. destruct E as ([a b] & Hin & Hab).
    apply andb_prop in Hab. destruct Hab as [Ha Hb].
    apply Z.eqb_eq in Ha, Hb. cbn in Ha, Hb. destruct p as [c e]; cbn in *.
    now subst.
  - rewrite in_app_iff. cbn. intuition.
Qed.

Lemma attach_labels_consistent (names : list string) (clocks : nat -> label_clock) :
  forall (db_ : FocusLogDB) (capture_id : Z) (i : nat),
    capture_id <= captures_seq db_ -> consistent db_ ->
    consistent (attach_labels db_ capture_id names clocks i).
Proof.
  induction names as [|n rest IH]; intros db_ cid i Hcid Hc; cbn [attach_labels];
    [exact Hc|].
  pose proof (get_or_create_label_consistent db_ n (clocks i) Hc) as Hc1.
  destruct Hc as (_ & Hl & _).
  pose proof (get_or_create_label_keyed db_ n (clocks i) Hl) as (_ & _ & Hlid & _).
  pose proof (get_or_create_label_frame db_ n (clocks i)) as (_ & Fseq & _).
  destruct (get_or_create_label db_ n (clocks i)) as [db1 lid].
  cbn [fst snd] in *. apply IH; [cbn; lia|].
  destruct Hc1 as (C & L & S & K & Kb).
  unfold consistent, captures_keyed, labels_keyed, summaries_keyed, links_keyed.
  cbn [captures captures_seq labels labels_seq summaries summaries_seq
       captures_labels set_captures_labels].
  repeat split; try apply C; try apply L; try apply S.
  - now apply insert_or_ignore_NoDup.
  - apply Forall_forall. intros q Hq. apply insert_or_ignore_In in Hq.
    destruct Hq as [Hq| ->]; [rewrite Forall_forall in Kb; now apply Kb|].
    cbn. lia.
Qed.

Lemma save_capture_consistent (db_ : FocusLogDB) (screenshot : bytes)
    (description : option string) (labels_ : option (list string))
    (raw err : option string) (timestamp : option Z) (now : Z)
    (clocks : nat -> label_clock) :
  consistent db_ ->
  consistent (fst (save_capture db_ screenshot description labels_ raw err
                     timestamp now clocks)).
Proof.
  intros ([Cn Cb] & L & S & K & Kb). unfold save_capture; cbv zeta.
  set (db1 := set_captures db_ _ _).
  assert (H1 : consistent db1).
  { subst db1. unfold consistent, captures_keyed, labels_keyed, summaries_keyed,
      links_keyed.
    cbn [captures captures_seq labels labels_seq summaries summaries_seq
         captures_labels set_captures].
    rewrite map_app; cbn [map cap_id].
    repeat split; try apply L; try apply S; try exact K.
    - apply NoDup_snoc; [exact Cn|]. now apply fresh_key_absent.
    - apply Forall_app. split; [|repeat constructor; cbn; lia].
      apply bound_grows with (seq := captures_seq db_); [lia|exact Cb].
    - eapply Forall_impl; [|exact Kb]. cbn. intros p [? ?]. split; lia. }
  destruct labels_ as [[|n rest]|]; cbn [fst]; try exact H1.
  apply attach_labels_consistent; [subst db1; cbn; lia|exact H1].
Qed.

Lemma save_summary_consistent (db_ : FocusLogDB) (ty : string) (s e : Z)
    (content : string) (video_path : option string) :
  consistent db_ -> consistent (fst (save_summary db_ ty s e content video_path)).
Proof.
  intros (C & L & [Sn Sb] & K). unfold save_summary; cbn [fst].
  unfold consistent, captures_keyed, labels_keyed, summaries_keyed, links_keyed.
  cbn [captures captures_seq labels labels_seq summaries summaries_seq
       captures_labels set_summaries].
  rewrite map_app; cbn [map sum_id].
  repeat split; try apply C; try apply L; try apply K.
  - apply NoDup_snoc; [exact Sn|]. now apply fresh_key_absent.
  - apply Forall_app. split; [|repeat constructor; cbn; lia].
    apply bound_grows with (seq := summaries_seq db_); [lia|exact Sb].
Qed.

Lemma nulled_ids (ids : list Z) (l : list capture_row) :
  map cap_id (map (null_payload ids) l) = map cap_id l.
Proof.
  rewrite map_map. apply map_ext. intros r. unfold null_payload.
  now destruct (id_in ids (cap_id r)).
Qed.

Lemma cleanup_consistent (db_ : FocusLogDB) (s e : Z) :
  consistent db_ ->
  consistent (fst (cleanup_screenshots_except_thumbnails db_ s e)).
Proof.
  intros Hc. unfold cleanup_screenshots_except_thumbnails; cbv zeta.
  destruct (order_by _ _) as [|r rows]; [exact Hc|].
  destruct (scan (r :: rows)) as [[cur th] del].
  destruct del as [|i ids]; [exact Hc|].
  unfold update_screenshot_null.
  destruct (_ && _); cbn [fst]; [exact Hc|].
  destruct Hc as ([Cn Cb] & L & S & K).
  unfold consistent, captures_keyed, labels_keyed, summaries_keyed, links_keyed.
  cbn [captures captures_seq labels labels_seq summaries summaries_seq
       captures_labels set_captures].
  rewrite nulled_ids.
  repeat split; try apply L; try apply S; try apply K; try exact Cn.
  apply Forall_forall. intros x Hx. apply in_map_iff in Hx.
  destruct Hx as (r' & <- & Hr'). rewrite Forall_forall in Cb.
  specialize (Cb r' Hr'). unfold null_payload.
  now destruct (id_in (i :: ids) (cap_id r')).
Qed.

Lemma capture_and_classify_consistent (d : FocusLogDaemon) (env : capture_env) :
  consistent (db d) -> consistent (db (_capture_and_classify d env)).
Proof.
  intros Hc. unfold _capture_and_classify, _classify_and_save.
  destruct (ce_capture env) as [data|];
    [destruct (success (ce_classification env));
     [destruct (cls_description (ce_classification env))|]|];
    cbn [db set_db]; try exact Hc; now apply save_capture_consistent.
Qed.

Lemma generate_5min_consistent (d : FocusLogDaemon) (now : Z) (api : api_result) :
  consistent (db d) -> consistent (db (_generate_5min_summary d now api)).
Proof.
  intros Hc. unfold _generate_5min_summary; cbv zeta.
  destruct (get_captures_since _ _ _); [exact Hc|].
  destruct (startswith _ _); [exact Hc|].
  match goal with
  | |- context [save_summary ?a ?b ?c ?e ?f ?g] =>
      pose proof (save_summary_consistent a b c e f g Hc) as H;
      destruct (save_summary a b c e f g) as [db' sid]
  end.
  exact H.
Qed.

Lemma generate_hourly_consistent (d : FocusLogDaemon) (now : Z) (api : api_result)
    (video_path_full : string) (video_success : bool) :
  consistent (db d) ->
  consistent (db (_generate_hourly_summary d now api video_path_full video_success)).
Proof.
  intros Hc. unfold _generate_hourly_summary; cbv zeta.
  destruct (get_summaries_in_range _ _ _ _); [exact Hc|].
  destruct (startswith _ _); [exact Hc|].
  match goal with
  | |- context [save_summary ?a ?b ?c ?e ?f ?g] =>
      pose proof (save_summary_consistent a b c e f g Hc) as H;
      destruct (save_summary a b c e f g) as [db1 sid]
  end.
  cbn [fst] in H.
  pose proof (cleanup_consistent db1 (last_hourly_summary d) now H) as H2.
  destruct (cleanup_screenshots_except_thumbnails db1 (last_hourly_summary d) now)
    as [db2 [rep|msg]]; exact H2.
Qed.

Lemma run_iteration_consistent (st : loop_state) (env : tick_env) :
  consistent (db (daemon st)) -> consistent (db (daemon (run_iteration st env))).
Proof.
  intros Hc. unfold run_iteration; cbv zeta; cbn [daemon].
  pose proof (capture_and_classify_consistent _ (te_capture env) Hc) as H1.
  assert (H2 : consistent
                 (db (_check_and_generate_summaries
                        (_capture_and_classify (daemon st) (te_capture env))
                        (te_summaries env)))).
  { unfold _check_and_generate_summaries; cbv zeta.
    destruct (3600 <=? _); [apply generate_hourly_consistent|];
      destruct (300 <=? _); try apply generate_5min_consistent; exact H1. }
  destruct (stop_requested env); exact H2.
Qed.

Lemma new_store_consistent : consistent _create_tables.
Proof.
  unfold consistent, captures_keyed, labels_keyed, summaries_keyed, links_keyed.
  cbn. repeat split; constructor.
Qed.

Lemma add_capture_consistent (db_ : FocusLogDB) (t : Z) :
  consistent db_ -> consistent (add_capture db_ t).
Proof. apply save_capture_consistent. Qed.

Lemma twenty_captures_consistent : consistent twenty_captures.
Proof.
  unfold twenty_captures. generalize (map (fun i => 15 * Z.of_nat i) (seq 0 20)).
  intros l. generalize new_store_consistent. generalize _create_tables.
  induction l as [|t l IH]; intros d Hd; cbn [fold_left]; [exact Hd|].
  apply IH. now apply add_capture_consistent.
Qed.

Lemma run_loop_consistent (envs : list tick_env) :
  forall st : loop_state,
    consistent (db (daemon st)) -> consistent (db (daemon (run_loop st envs))).
Proof.
  induction envs as [|env envs IH]; intros st Hc; cbn [run_loop]; [exact Hc|].
  destruct (running (daemon st)); [|exact Hc].
  apply IH. now apply run_iteration_consistent.
Qed.

(** X1.  The keys of the store are kept by everything the daemon does: a
    new database is keyed, and after any run of the loop from a keyed store
    the capture, label and rollup ids are still unique and below their
    sequence counters, no label name occurs twice, and no capture is linked
    twice to one label. *)
Theorem store_stays_consistent :
  consistent _create_tables /\
  forall (st : loop_state) (envs : list tick_env),
    consistent (db (daemon st)) ->
    consistent (db (daemon (run_loop st envs))).
Proof.
  split; [exact new_store_consistent|].
  intros st envs. apply run_loop_consistent.
Qed.

Lemma store_stays_consistent_witness :
  consistent (db (daemon (run_loop loop_start [tick 300 1; tick 315 1]))).
Proof.
  destruct store_stays_consistent as [H0 H]. apply H.
  unfold loop_start; cbn [daemon db].
  apply add_capture_consistent. exact H0.
Defined.

End IntegrityFacts.

(** ** Labels: listing and lookup *)

Module LabelLookupFacts.
Import Database Integrity DatabaseQueries Scenarios DatabaseFacts LabelFacts
  IntegrityFacts.

Lemma string_leb_trans (s1 s2 s3 : string) :
  String.leb s1 s2 = true -> String.leb s2 s3 = true -> String.leb s1 s3 = true.
Proof.
  unfold String.leb. revert s2 s3.
  induction s1 as [|c1 s1 IH]; intros [|c2 s2] [|c3 s3]; cbn;
    try congruence.
  unfold Ascii.compare.
  destruct (N.compare_spec (N_of_ascii c1) (N_of_ascii c2)) as [E12|L12|G12];
    destruct (N.compare_spec (N_of_ascii c2) (N_of_ascii c3)) as [E23|L23|G23];
    destruct (N.compare_spec (N_of_ascii c1) (N_of_ascii c3)) as [E13|L13|G13];
    try congruence; try lia; try (intros; reflexivity).
  apply IH.
Qed.

Lemma NoDup_map_inj_in {A B : Type} (f : A -> B) (l : list A) (x y : A) :
  NoDup (map f l) -> In x l -> In y l -> f x = f y -> x = y.
Proof.
  induction l as [|a l IH]; cbn; [tauto|].
  intros H Hx Hy E. inversion H as [|? ? Hnotin H']; subst.
  destruct Hx as [->|Hx], Hy as [->|Hy]; try reflexivity.
  - exfalso. apply Hnotin. rewrite E. now apply in_map.
  - exfalso. apply Hnotin. rewrite <- E. now apply in_map.
  - now apply IH.
Qed.

(** X2.  [get_all_labels] lists every label name once per row, in the
    order of the stored [last_used] texts, greatest first; on a keyed store
    no name is listed twice. *)
Theorem get_all_labels_lists_every_label :
  forall db_ : FocusLogDB,
    (exists rows,
        get_all_labels db_ = map label_name rows /\
        Permutation rows (labels db_) /\
        StronglySorted used_no_later rows) /\
    (forall name, In name (get_all_labels db_) <->
                  exists l, In l (labels db_) /\ label_name l = name) /\
    (labels_keyed db_ -> NoDup (get_all_labels db_)).
Proof.
  intros db_. unfold get_all_labels.
  set (leb := fun a b : label_row =>
                String.leb (label_last_used b) (label_last_used a)).
  assert (P : Permutation (order_by leb (labels db_)) (labels db_))
    by apply order_by_perm.
  split; [|split].
  - exists (order_by leb (labels db_)). split; [reflexivity|]. split; [exact P|].
    apply (order_by_sorted leb); subst leb; cbn; intros.
    + apply String.leb_total.
    + eapply string_leb_trans; eassumption.
  - intros name. rewrite in_map_iff. split.
    + intros (l & E & Hl). exists l. split; [|exact E].
      now apply (Permutation_in _ P).
    + intros (l & Hl & E). exists l. split; [exact E|].
      now apply (Permutation_in _ (Permutation_sym P)).
  - intros (_ & _ & Hn).
    apply (Permutation_NoDup (Permutation_map label_name (Permutation_sym P))).
    exact Hn.
Qed.

Lemma get_all_labels_lists_every_label_witness :
  NoDup (get_all_labels (fst utc_calls)).
Proof.
  destruct (get_all_labels_lists_every_label (fst utc_calls)) as (_ & _ & H).
  apply H. vm_compute.
  repeat split; repeat constructor; cbn; intuition (try discriminate; try lia).
Defined.

Lemma get_or_create_label_rows (db_ : FocusLogDB) (name : string)
    (clk : label_clock) :
  labels_keyed db_ ->
  let db' := fst (get_or_create_label db_ name clk) in
  In (label_after db_ name clk) (labels db') /\
  label_id (label_after db_ name clk) = snd (get_or_create_label db_ name clk) /\
  label_name (label_after db_ name clk) = name /\
  (forall r, In r (labels db_) -> label_name r <> name -> In r (labels db')) /\
  (forall r, In r (labels db') -> In r (labels db_) \/ r = label_after db_ name clk).
Proof.
  intros (Hid & Hb & Hn). cbv zeta. unfold label_after.
  destruct (find (fun r => String.eqb (label_name r) name) (labels db_))
    as [row|] eqn:E.
  - rewrite (get_or_create_label_found _ _ clk _ E). cbn [fst snd labels set_labels].
    apply find_some in E. destruct E as [Hrow Hname].
    cbn in Hname. apply String.eqb_eq in Hname.
    assert (Ht : touch (label_id row) (now_isoformat clk) row
                 = mk_label (label_id row) (label_name row) (now_isoformat clk))
      by (unfold touch; now rewrite Z.eqb_refl).
    split; [rewrite <- Ht; now apply in_map|].
    split; [reflexivity|]. split; [exact Hname|]. split.
    + intros r Hr Hneq.
      replace r with (touch (label_id row) (now_isoformat clk) r);
        [now apply in_map|].
      unfold touch. destruct (label_id r =? label_id row) eqn:Eid; [|reflexivity].
      apply Z.eqb_eq in Eid.
      pose proof (NoDup_map_inj_in label_id _ r row Hid Hr Hrow Eid). congruence.
    + intros r Hr. apply in_map_iff in Hr. destruct Hr as (r0 & <- & Hr0).
      unfold touch at 1. destruct (label_id r0 =? label_id row) eqn:Eid;
        [|now left].
      apply Z.eqb_eq in Eid.
      pose proof (NoDup_map_inj_in label_id _ r0 row Hid Hr0 Hrow Eid). subst r0.
      now right.
  - rewrite (get_or_create_label_new _ _ clk E). cbn [fst snd labels set_labels].
    split; [apply in_or_app; right; now left|].
    split; [reflexivity|]. split; [reflexivity|]. split.
    + intros r Hr _. apply in_or_app. now left.
    + intros r Hr. apply in_app_or in Hr. destruct Hr as [Hr|[<-|[]]]; auto.
Qed.

(** X3.  On a keyed label table [get_or_create_label] leaves a row for the
    name, carrying the id it returns; every label with another name is left
    as it was, and no other row appears.  The name is then listed by
    [get_all_labels], and the table has grown by one row exactly when the
    name was not there. *)
Theorem get_or_create_label_lookup :
  forall (db_ : FocusLogDB) (name : string) (clk : label_clock),
    labels_keyed db_ ->
    let db' := fst (get_or_create_label db_ name clk) in
    let id := snd (get_or_create_label db_ name clk) in
    label_named db' id name /\
    In name (get_all_labels db') /\
    (forall r, In r (labels db_) -> label_name r <> name -> In r (labels db')) /\
    (forall r, In r (labels db') -> label_name r <> name -> In r (labels db_)) /\
    List.length (labels db') =
      (if existsb (String.eqb name) (map label_name (labels db_))
       then List.length (labels db_) else S (List.length (labels db_))).
Proof.
  intros db_ name clk Hk. cbv zeta.
  destruct (get_or_create_label_rows db_ name clk Hk) as (Hin & Hid & Hname & Hkeep & Honly).
  cbv zeta in *. split; [|split; [|split; [|split]]].
  - exists (label_after db_ name clk). now repeat split.
  - unfold get_all_labels. apply in_map_iff.
    exists (label_after db_ name clk). split; [exact Hname|].
    apply order_by_In. exact Hin.
  - exact Hkeep.
  - intros r Hr Hneq. destruct (Honly r Hr) as [H| ->]; [exact H|congruence].
  - destruct (find (fun r => String.eqb (label_name r) name) (labels db_))
      as [row|] eqn:E.
    + rewrite (get_or_create_label_found _ _ clk _ E). cbn [fst labels set_labels].
      rewrite length_map.
      apply find_some in E. destruct E as [Hrow Hn]. cbn in Hn.
      apply String.eqb_eq in Hn.
      replace (existsb _ _) with true; [reflexivity|].
      symmetry. apply existsb_exists. exists (label_name row).
      split; [now apply in_map|]. rewrite Hn. apply String.eqb_refl.
    + rewrite (get_or_create_label_new _ _ clk E). cbn [fst labels set_labels].
      rewrite length_app; cbn [List.length].
      replace (existsb _ _) with false; [lia|].
      symmetry. apply not_true_is_false. intros Hex.
      apply existsb_exists in Hex. destruct Hex as (m & Hm & Em).
      apply String.eqb_eq in Em. subst m. apply in_map_iff in Hm.
      destruct Hm as (r & Er & Hr).
      pose proof (find_none _ _ E r Hr) as F. cbn in F.
      rewrite Er, String.eqb_refl in F. discriminate.
Qed.

Lemma get_or_create_label_lookup_witness :
  label_named (fst (get_or_create_label (fst utc_calls) "reading"
                      (mk_clock "2024-01-02T03:05:00.000001" "2024-01-02 03:05:00")))
    3 "reading" /\
  In "reading"
    (get_all_labels
       (fst (get_or_create_label (fst utc_calls) "reading"
               (mk_clock "2024-01-02T03:05:00.000001" "2024-01-02 03:05:00")))).
Proof.
  assert (K : labels_keyed (fst utc_calls)).
  { vm_compute.
    repeat split; repeat constructor; cbn; intuition (try discriminate; try lia). }
  destruct (get_or_create_label_lookup (fst utc_calls) "reading"
              (mk_clock "2024-01-02T03:05:00.000001" "2024-01-02 03:05:00") K)
    as (A & B & _).
  split; [exact A | exact B].
Defined.

End LabelLookupFacts.

(** ** Captures: what was saved is what is read *)

Module CaptureLookupFacts.
Import Database Integrity DatabaseQueries Scenarios DatabaseFacts LabelFacts
  IntegrityFacts LabelLookupFacts.

Lemma labels_of_In (db_ : FocusLogDB) (cid : Z) (m : string) :
  In m (labels_of db_ cid) <->
  exists lid, In (cid, lid) (captures_labels db_) /\ label_named db_ lid m.
Proof.
  unfold labels_of, label_named. rewrite in_flat_map. split.
  - intros ([c lid] & Hin & Hm). cbn [fst snd] in Hm.
    destruct (c =? cid) eqn:E; [|destruct Hm]. apply Z.eqb_eq in E. subst c.
    apply in_map_iff in Hm. destruct Hm as (l & En & Hl).
    apply filter_In in Hl. destruct Hl as [Hl Eid]. apply Z.eqb_eq in Eid.
    exists lid. split; [exact Hin|]. now exists l.
  - intros (lid & Hin & l & Hl & Eid & En). exists (cid, lid).
    split; [exact Hin|]. cbn [fst snd]. rewrite Z.eqb_refl.
    apply in_map_iff. exists l. split; [exact En|].
    apply filter_In. split; [exact Hl|]. now apply Z.eqb_eq.
Qed.

Lemma flat_map_ext_in {A B : Type} (f g : A -> list B) (l : list A) :
  (forall a, In a l -> f a = g a) -> flat_map f l = flat_map g l.
Proof.
  induction l as [|a l IH]; intros H; cbn; [reflexivity|].
  rewrite (H a (or_introl eq_refl)), IH; [reflexivity|].
  intros b Hb. apply H. now right.
Qed.

Lemma filter_touched (x id : Z) (text : string) (l : list label_row) :
  map label_name (filter (fun r => label_id r =? x) (map (touch id text) l))
  = map label_name (filter (fun r => label_id r =? x) l).
Proof.
  induction l as [|r l IH]; cbn [map filter]; [reflexivity|].
  rewrite touch_id. destruct (label_id r =? x); cbn [map];
    now rewrite ?touch_name, IH.
Qed.

(** One label more in the table does not change what the links already
    there resolve to. *)
Lemma labels_of_after_label (db_ : FocusLogDB) (name : string)
    (clk : label_clock) (cid : Z) :
  labels_keyed db_ -> links_keyed db_ ->
  labels_of (fst (get_or_create_label db_ name clk)) cid = labels_of db_ cid.
Proof.
  intros (_ & Hb & _) (_ & Kb). unfold labels_of.
  destruct (find (fun r => String.eqb (label_name r) name) (labels db_))
    as [row|] eqn:E.
  - rewrite (get_or_create_label_found _ _ clk _ E).
    cbn [fst labels captures_labels set_labels].
    apply flat_map_ext. intros cl. destruct (fst cl =? cid); [|reflexivity].
    apply filter_touched.
  - rewrite (get_or_create_label_new _ _ clk E).
    cbn [fst labels captures_labels set_labels].
    apply flat_map_ext_in. intros cl Hcl. destruct (fst cl =? cid); [|reflexivity].
    rewrite filter_app; cbn [filter label_id].
    rewrite Forall_forall in Kb. destruct (Kb cl Hcl) as [_ Hle].
    destruct (labels_seq db_ + 1 =? snd cl) eqn:Eq;
      [apply Z.eqb_eq in Eq; lia|]. now rewrite app_nil_r.
Qed.

Lemma label_named_after (db_ : FocusLogDB) (name : string) (clk : label_clock)
    (lid : Z) (m : string) :
  label_named (fst (get_or_create_label db_ name clk)) lid m <->
  label_named db_ lid m \/
  (lid = snd (get_or_create_label db_ name clk) /\ m = name).
Proof.
  unfold label_named.
  destruct (find (fun r => String.eqb (label_name r) name) (labels db_))
    as [row|] eqn:E.
  - rewrite (get_or_create_label_found _ _ clk _ E).
    cbn [fst snd labels set_labels].
    apply find_some in E. destruct E as [Hrow Hn]. cbn in Hn.
    apply String.eqb_eq in Hn. split.
    + intros (l & Hl & Eid & En). apply in_map_iff in Hl.
      destruct Hl as (l0 & <- & Hl0). rewrite touch_id in Eid.
      rewrite touch_name in En. left. now exists l0.
    + intros [(l & Hl & Eid & En)|[-> ->]].
      * exists (touch (label_id row) (now_isoformat clk) l).
        rewrite touch_id, touch_name. split; [now apply in_map|now split].
      * exists (touch (label_id row) (now_isoformat clk) row).
        rewrite touch_id, touch_name. split; [now apply in_map|now split].
  - rewrite (get_or_create_label_new _ _ clk E).
    cbn [fst snd labels set_labels]. split.
    + intros (l & Hl & Eid & En). apply in_app_or in Hl.
      destruct Hl as [Hl|[<-|[]]]; [left; now exists l|].
      right. cbn in *. now split.
    + intros [(l & Hl & Eid & En)|[-> ->]].
      * exists l. split; [apply in_or_app; now left|now split].
      * eexists. split; [apply in_or_app; right; now left|]. now split.
Qed.

Lemma label_named_unique (db_ : FocusLogDB) (lid : Z) (m m' : string) :
  labels_keyed db_ -> label_named db_ lid m -> label_named db_ lid m' -> m = m'.
Proof.
  intros (Hid & _) (l & Hl & Eid & En) (l' & Hl' & Eid' & En').
  assert (l = l') by (apply (NoDup_map_inj_in label_id _ l l' Hid Hl Hl'); congruence).
  congruence.
Qed.

(** The label loop links the capture to the names it is given, to nothing
    else, and leaves the labels of every other capture as they were. *)
Lemma attach_labels_links (names : list string) (clocks : nat -> label_clock) :
  forall (db_ : FocusLogDB) (cid : Z) (i : nat),
    cid <= captures_seq db_ -> consistent db_ ->
    let db' := attach_labels db_ cid names clocks i in
    (forall m, In m (labels_of db' cid) <-> In m (labels_of db_ cid) \/ In m names) /\
    (forall cid', cid' <> cid -> labels_of db' cid' = labels_of db_ cid').
Proof.
  induction names as [|n rest IH]; intros db_ cid i Hcid Hc; cbn [attach_labels].
  - split; [intros m; cbn; tauto|reflexivity].
  - pose proof Hc as (_ & Hl & _ & Hk).
    pose proof (get_or_create_label_consistent db_ n (clocks i) Hc) as Hc1.
    pose proof (get_or_create_label_keyed db_ n (clocks i) Hl) as (Hl1 & _ & Hlid & Hlinks).
    pose proof (get_or_create_label_frame db_ n (clocks i)) as (_ & Fseq & _).
    pose proof (labels_of_after_label db_ n (clocks i)) as Hsame.
    pose proof (label_named_after db_ n (clocks i)) as Hnamed.
    pose proof (get_or_create_label_lookup db_ n (clocks i) Hl) as (Hself & _).
    destruct (get_or_create_label db_ n (clocks i)) as [db1 lid].
    cbn [fst snd] in *.
    set (db2 := set_captures_labels db1
                  (insert_or_ignore (cid, lid) (captures_labels db1))).
    assert (Hc2 : consistent db2).
    { destruct Hc1 as (C & L & S & K & Kb).
      unfold consistent, captures_keyed, labels_keyed, summaries_keyed,
        links_keyed. subst db2.
      cbn [captures captures_seq labels labels_seq summaries summaries_seq
           captures_labels set_captures_labels].
      repeat split; try apply C; try apply L; try apply S.
      - now apply insert_or_ignore_NoDup.
      - apply Forall_forall. intros q Hq. apply insert_or_ignore_In in Hq.
        destruct Hq as [Hq| ->]; [rewrite Forall_forall in Kb; now apply Kb|].
        cbn. lia. }
    destruct (IH db2 cid (S i)) as [IHa IHb]; [subst db2; cbn; lia|exact Hc2|].
    assert (Hstep : forall m, In m (labels_of db2 cid) <->
                              In m (labels_of db_ cid) \/ m = n).
    { intros m. rewrite !labels_of_In. subst db2.
      cbn [captures_labels set_captures_labels]. rewrite Hlinks. split.
      - intros (lid' & Hin & Hnm). apply insert_or_ignore_In in Hin.
        change (label_named db1 lid' m) in Hnm.
        destruct (proj1 (Hnamed lid' m) Hnm) as [Hold|[-> ->]]; [|now right].
        destruct Hin as [Hin|[= ->]]; [left; now exists lid'|].
        right. apply (label_named_unique db1 lid); assumption.
      - intros [(lid' & Hin & Hnm)| ->].
        + exists lid'. split; [apply insert_or_ignore_In; now left|].
          change (label_named db1 lid' m). apply Hnamed. now left.
        + exists lid. split; [apply insert_or_ignore_In; now right|].
          exact Hself. }
    split.
    + intros m. rewrite IHa, Hstep. cbn [In]. intuition.
    + intros cid' Hneq. rewrite (IHb cid' Hneq). rewrite <- (Hsame cid' Hl Hk).
      unfold labels_of. subst db2.
      cbn [labels captures_labels set_captures_labels].
      unfold insert_or_ignore. destruct (existsb _ _); [reflexivity|].
      rewrite flat_map_app. cbn [flat_map fst].
      destruct (cid =? cid') eqn:E; [apply Z.eqb_eq in E; congruence|].
      now rewrite !app_nil_r.
Qed.

Lemma find_snoc_found {A : Type} (p : A -> bool) (l : list A) (x y : A) :
  find p l = Some y -> find p (l ++ [x]) = Some y.
Proof.
  induction l as [|a l IH]; cbn; [discriminate|].
  destruct (p a); [trivial|exact IH].
Qed.

Lemma links_of_fresh_capture (db_ : FocusLogDB) :
  links_keyed db_ -> labels_of db_ (captures_seq db_ + 1) = [].
Proof.
  intros (_ & Kb). unfold labels_of.
  induction (captures_labels db_) as [|cl l IH]; [reflexivity|].
  inversion Kb as [|? ? [Hle _] Kb']; subst. cbn [flat_map].
  destruct (fst cl =? captures_seq db_ + 1) eqn:E;
    [apply Z.eqb_eq in E; lia|]. now apply IH.
Qed.

(** X4.  On a keyed store, the capture [save_capture] has just inserted is
    read back by [get_capture] under the id returned: same timestamp,
    payload, description, raw answer and error, and as labels exactly the
    names it was given.  What [get_capture] returns for every capture
    saved before is unchanged, and an id never handed out reads as
    [None]. *)
Theorem save_capture_then_get_capture :
  forall (db_ : FocusLogDB) (screenshot : bytes) (description : option string)
         (labels_ : option (list string)) (raw err : option string)
         (timestamp : option Z) (now : Z) (clocks : nat -> label_clock),
    consistent db_ ->
    let db' := fst (save_capture db_ screenshot description labels_ raw err
                      timestamp now clocks) in
    let id := snd (save_capture db_ screenshot description labels_ raw err
                     timestamp now clocks) in
    (exists c,
        get_capture db' id = Some c /\
        cd_id c = id /\
        cd_timestamp c = match timestamp with Some t => t | None => now end /\
        cd_screenshot c = Some (Some screenshot) /\
        cd_description c = description /\
        cd_classification_raw c = raw /\
        cd_classification_error c = err /\
        forall m, In m (cd_labels c) <->
                  In m (match labels_ with Some l => l | None => [] end)) /\
    (forall id0 c0, get_capture db_ id0 = Some c0 -> get_capture db' id0 = Some c0) /\
    (forall id1, id < id1 -> get_capture db' id1 = None).
Proof.
  intros db_ screenshot description labels_ raw err timestamp now clocks Hc.
  cbv zeta.
  pose proof Hc as ([Cn Cb] & Hl & _ & Hk).
  destruct (save_capture_captures db_ screenshot description labels_ raw err
              timestamp now clocks) as (Hcaps & _).
  cbv zeta in Hcaps.
  set (row := mk_capture (captures_seq db_ + 1)
                (match timestamp with Some t => t | None => now end)
                (Some screenshot) description raw err) in *.
  assert (Hid : snd (save_capture db_ screenshot description labels_ raw err
                       timestamp now clocks) = captures_seq db_ + 1) by reflexivity.
  rewrite Hid.
  assert (Hnone : forall id1, captures_seq db_ < id1 ->
                    find (fun r => cap_id r =? id1) (captures db_) = None).
  { intros id1 Hlt. destruct (find _ (captures db_)) as [r|] eqn:F; [|reflexivity].
    apply find_some in F. destruct F as [Hr E]. apply Z.eqb_eq in E.
    rewrite Forall_forall in Cb. specialize (Cb r Hr). lia. }
  assert (Hlabels :
            (forall m, In m (labels_of
                               (fst (save_capture db_ screenshot description labels_
                                       raw err timestamp now clocks))
                               (captures_seq db_ + 1)) <->
                       In m (match labels_ with Some l => l | None => [] end)) /\
            (forall cid', cid' <> captures_seq db_ + 1 ->
                          labels_of
                            (fst (save_capture db_ screenshot description labels_
                                    raw err timestamp now clocks)) cid'
                          = labels_of db_ cid')).
  { unfold save_capture; cbv zeta. set (db1 := set_captures db_ _ _).
    assert (H1 : consistent db1).
    { pose proof (save_capture_consistent db_ screenshot description None raw err
                    timestamp now clocks Hc) as H. exact H. }
    assert (E1 : forall c, labels_of db1 c = labels_of db_ c) by reflexivity.
    pose proof (links_of_fresh_capture db_ Hk) as Hfresh.
    destruct labels_ as [[|n rest]|]; cbn [fst].
    - split; [intros m; rewrite E1, Hfresh; tauto|intros; apply E1].
    - destruct (attach_labels_links (n :: rest) clocks db1 (captures_seq db_ + 1) 0%nat)
        as [A B]; [subst db1; cbn; lia|exact H1|].
      cbv zeta in A, B. split.
      + intros m. rewrite A, E1, Hfresh. cbn [In]. tauto.
      + intros cid' Hneq. now rewrite (B cid' Hneq).
    - split; [intros m; rewrite E1, Hfresh; tauto|intros; apply E1]. }
  destruct Hlabels as [Hmine Hothers].
  split; [|split].
  - exists (capture_dict_of
              (fst (save_capture db_ screenshot description labels_ raw err
                      timestamp now clocks)) true row).
    split.
    + unfold get_capture. rewrite Hcaps.
      rewrite (find_snoc_none _ _ row (Hnone (captures_seq db_ + 1) ltac:(lia)));
        [reflexivity|cbn; apply Z.eqb_refl].
    + cbn. repeat split; try reflexivity; apply Hmine.
  - intros id0 c0. unfold get_capture. rewrite Hcaps.
    destruct (find (fun r => cap_id r =? id0) (captures db_)) as [r|] eqn:F;
      [|discriminate].
    rewrite (find_snoc_found _ _ row r F). intros [= <-]. f_equal.
    unfold capture_dict_of. f_equal. apply Hothers.
    apply find_some in F. destruct F as [Hr E]. apply Z.eqb_eq in E.
    rewrite Forall_forall in Cb. specialize (Cb r Hr). lia.
  - intros id1 Hlt. unfold get_capture. rewrite Hcaps.
    destruct (find _ (captures db_ ++ [row])) as [r|] eqn:F; [|reflexivity].
    apply find_some in F. destruct F as [Hr E]. apply Z.eqb_eq in E.
    apply in_app_or in Hr. destruct Hr as [Hr|[<-|[]]].
    + rewrite Forall_forall in Cb. specialize (Cb r Hr). lia.
    + cbn in E. lia.
Qed.

Lemma save_capture_then_get_capture_witness :
  exists c,
    get_capture (fst (save_capture twenty_captures png (Some "reading mail")
                        (Some ["mail"; "reading"; "mail"]) (Some "{}") None
                        (Some 300) 300 quiet_clock)) 21 = Some c /\
    cd_description c = Some "reading mail" /\
    forall m, In m (cd_labels c) <-> In m ["mail"; "reading"; "mail"].
Proof.
  destruct (save_capture_then_get_capture twenty_captures png (Some "reading mail")
              (Some ["mail"; "reading"; "mail"]) (Some "{}") None (Some 300) 300
              quiet_clock twenty_captures_consistent) as ((c & G & _ & _ & _ & D & _ & _ & L) & _).
  exists c. split; [exact G|]. split; [exact D | exact L].
Defined.

End CaptureLookupFacts.

(** ** Range queries and their order *)

Module QueryFacts.
Import Database Summarizer Daemon Rollups Integrity DatabaseQueries Scenarios
  DatabaseFacts.

Lemma StronglySorted_map {A B : Type} (f : A -> B) (R : B -> B -> Prop)
    (l : list A) :
  StronglySorted (fun a b => R (f a) (f b)) l -> StronglySorted R (map f l).
Proof.
  induction 1 as [|x l Hs IH Hall]; cbn; constructor; [exact IH|].
  apply Forall_map. exact Hall.
Qed.

Lemma StronglySorted_weaken {A : Type} (R R' : A -> A -> Prop) (l : list A) :
  (forall a b, R a b -> R' a b) -> StronglySorted R l -> StronglySorted R' l.
Proof.
  intros H. induction 1 as [|x l Hs IH Hall]; constructor; [exact IH|].
  eapply Forall_impl; [|exact Hall]. intros b. apply H.
Qed.

Lemma StronglySorted_app_order {A : Type} (R : A -> A -> Prop) (l1 l2 : list A) :
  StronglySorted R (l1 ++ l2) ->
  StronglySorted R l1 /\ forall a b, In a l1 -> In b l2 -> R a b.
Proof.
  induction l1 as [|x l1 IH]; cbn; intros H.
  - split; [constructor|intros ? ? []].
  - inversion H as [|? ? Hs Hall]; subst. destruct (IH Hs) as [S1 O1].
    rewrite Forall_app in Hall. destruct Hall as [A1 A2].
    split; [now constructor|].
    intros a b [<-|Ha] Hb; [|now apply O1].
    rewrite Forall_forall in A2. now apply A2.
Qed.

(** X5.  [get_captures_since] returns its rows oldest first, and returns
    the payload only when asked to: without [include_screenshots] no dict
    carries the [screenshot] key, with it every dict carries the stored
    payload, NULL included. *)
Theorem get_captures_since_order_and_payload :
  forall (db_ : FocusLogDB) (since : Z) (inc : bool),
    StronglySorted (fun a b => cd_timestamp a <= cd_timestamp b)
      (get_captures_since db_ since inc) /\
    List.length (get_captures_since db_ since inc)
      = List.length (filter (fun r => since <? cap_timestamp r) (captures db_)) /\
    (forall c, In c (get_captures_since db_ since inc) ->
       if inc
       then exists r, In r (captures db_) /\ cap_id r = cd_id c /\
                      cd_screenshot c = Some (cap_screenshot r)
       else cd_screenshot c = None).
Proof.
  intros db_ since inc. unfold get_captures_since. split; [|split].
  - apply StronglySorted_map. cbn [cd_timestamp capture_dict_of].
    eapply StronglySorted_weaken;
      [|apply (order_by_sorted by_timestamp);
        [apply by_timestamp_total | apply by_timestamp_trans]].
    intros a b H. unfold by_timestamp in H. now apply Z.leb_le.
  - rewrite length_map. apply Permutation_length, order_by_perm.
  - intros c Hc. apply in_map_iff in Hc. destruct Hc as (r & <- & Hr).
    apply order_by_In, filter_In in Hr. destruct Hr as [Hr _].
    destruct inc; cbn; [|reflexivity]. exists r. now repeat split.
Qed.

Lemma get_captures_since_order_and_payload_witness :
  cd_screenshot
    (capture_dict_of twenty_captures false
       (mk_capture 20 285 (Some png) (Some "editing a report") (Some "{}") None))
  = None.
Proof.
  apply (proj2 (proj2 (get_captures_since_order_and_payload twenty_captures 270 false))).
  vm_compute. now left.
Defined.

Lemma get_summaries_in_range_In (db_ : FocusLogDB) (ty : string) (s e : Z)
    (d : summary_dict) :
  In d (get_summaries_in_range db_ ty s e) <->
  exists r, In r (summaries db_) /\ d = summary_dict_of r /\
            sum_type r = ty /\ s <= sum_start_time r /\ sum_end_time r <= e.
Proof.
  unfold get_summaries_in_range. rewrite in_map_iff. split.
  - intros (r & <- & Hr). apply order_by_In, filter_In in Hr.
    destruct Hr as [Hr Hf]. apply andb_prop in Hf. destruct Hf as [Hf He].
    apply andb_prop in Hf. destruct Hf as [Ht Hs].
    unfold of_type in Ht. apply String.eqb_eq in Ht.
    apply Z.leb_le in Hs, He. exists r. now repeat split.
  - intros (r & Hr & -> & Ht & Hs & He). exists r. split; [reflexivity|].
    apply order_by_In, filter_In. split; [exact Hr|].
    unfold of_type. rewrite Ht, String.eqb_refl.
    apply Z.leb_le in Hs, He. now rewrite Hs, He.
Qed.

(** X6.  [get_summaries_in_range] returns exactly the rollups of the type
    that lie wholly inside the range, bounds included at both ends, ordered
    by start time; a rollup that begins before the range or ends after it
    is left out even when it overlaps the range. *)
Theorem get_summaries_in_range_contained :
  forall (db_ : FocusLogDB) (ty : string) (s e : Z),
    (forall d, In d (get_summaries_in_range db_ ty s e) <->
               exists r, In r (summaries db_) /\ d = summary_dict_of r /\
                         sum_type r = ty /\
                         s <= sum_start_time r /\ sum_end_time r <= e) /\
    StronglySorted (fun a b => sd_start_time a <= sd_start_time b)
      (get_summaries_in_range db_ ty s e) /\
    (forall d, In d (get_summaries_in_range db_ ty s e) ->
               sd_summary_type d = ty /\ s <= sd_start_time d /\ sd_end_time d <= e).
Proof.
  intros db_ ty s e. split; [intro d; apply get_summaries_in_range_In|]. split.
  - unfold get_summaries_in_range. apply StronglySorted_map.
    cbn [sd_start_time summary_dict_of].
    eapply StronglySorted_weaken;
      [|apply (order_by_sorted (fun a b => sum_start_time a <=? sum_start_time b))].
    + intros a b H. now apply Z.leb_le.
    + intros a b. rewrite !Z.leb_le. lia.
    + intros a b c. rewrite !Z.leb_le. lia.
  - intros d Hd. apply get_summaries_in_range_In in Hd.
    destruct Hd as (r & _ & -> & Ht & Hs & He). cbn. now repeat split.
Qed.

Lemma get_summaries_in_range_contained_witness :
  sd_summary_type (summary_dict_of (mk_summary 1 "5min" 0 300 "Edited a report." None))
    = "5min" /\
  0 <= sd_start_time (summary_dict_of (mk_summary 1 "5min" 0 300 "Edited a report." None)) /\
  sd_end_time (summary_dict_of (mk_summary 1 "5min" 0 300 "Edited a report." None))
    <= 3600.
Proof.
  apply (proj2 (proj2 (get_summaries_in_range_contained one_rollup "5min" 0 3600))).
  vm_compute. now left.
Defined.

Lemma latest_is_head (l : list summary_row) :
  match order_by (fun a b => sum_end_time b <=? sum_end_time a) l with
  | [] => l = []
  | row :: _ => In row l /\ forall r, In r l -> sum_end_time r <= sum_end_time row
  end.
Proof.
  set (leb := fun a b : summary_row => sum_end_time b <=? sum_end_time a).
  assert (Hs : StronglySorted (fun a b => leb a b = true) (order_by leb l)).
  { apply order_by_sorted; subst leb; cbn; intros.
    - rewrite !Z.leb_le. lia.
    - rewrite Z.leb_le in *. lia. }
  destruct (order_by leb l) as [|row rest] eqn:E.
  - now apply order_by_nil in E.
  - split; [apply (order_by_In leb); rewrite E; now left|].
    intros r Hr. apply (order_by_In leb) in Hr. rewrite E in Hr.
    destruct Hr as [->|Hr]; [lia|].
    inversion Hs as [|? ? _ Hall]; subst. rewrite Forall_forall in Hall.
    specialize (Hall r Hr). subst leb. cbn in Hall. now apply Z.leb_le.
Qed.

(** X7.  [get_latest_summary] answers [None] exactly when no rollup of the
    type is stored; otherwise it answers a stored rollup of the type whose
    end time no other rollup of the type exceeds.  A rollup saved with an
    end time after all of them is the one returned next. *)
Theorem get_latest_summary_is_latest :
  forall (db_ : FocusLogDB) (ty : string),
    (get_latest_summary db_ ty = None <-> rollups ty db_ = []) /\
    (forall s, get_latest_summary db_ ty = Some s ->
       (exists r, In r (summaries db_) /\ sum_type r = ty /\ s = summary_dict_of r) /\
       (forall r, In r (summaries db_) -> sum_type r = ty ->
                  sum_end_time r <= sd_end_time s)) /\
    (forall (start_time end_time : Z) (content : string) (video_path : option string),
       (forall r, In r (summaries db_) -> sum_type r = ty ->
                  sum_end_time r < end_time) ->
       get_latest_summary
         (fst (save_summary db_ ty start_time end_time content video_path)) ty
       = Some (mk_summary_dict (snd (save_summary db_ ty start_time end_time content
                                       video_path))
                 ty start_time end_time content)).
Proof.
  intros db_ ty.
  assert (Hty : forall r, In r (rollups ty db_) <-> In r (summaries db_) /\ sum_type r = ty).
  { intros r. unfold rollups. rewrite filter_In. unfold of_type.
    now rewrite String.eqb_eq. }
  split; [|split].
  - unfold get_latest_summary. fold (rollups ty db_).
    pose proof (latest_is_head (rollups ty db_)) as H.
    destruct (order_by _ (rollups ty db_)) as [|row rest].
    + now split.
    + split; [discriminate|]. intros E. destruct H as [Hin _].
      rewrite E in Hin. destruct Hin.
  - intros s. unfold get_latest_summary. fold (rollups ty db_).
    pose proof (latest_is_head (rollups ty db_)) as H.
    destruct (order_by _ (rollups ty db_)) as [|row rest]; [discriminate|].
    intros [= <-]. destruct H as [Hin Hmax]. apply Hty in Hin. split.
    + exists row. now repeat split.
    + intros r Hr Ht. cbn. apply Hmax. now apply Hty.
  - intros st en content vp Hlt.
    unfold get_latest_summary, save_summary. cbn [fst snd summaries set_summaries].
    rewrite filter_app. cbn [filter]. unfold of_type at 2; cbn [sum_type].
    rewrite String.eqb_refl. fold (rollups ty db_).
    set (new := mk_summary (summaries_seq db_ + 1) ty st en content vp).
    pose proof (latest_is_head (rollups ty db_ ++ [new])) as H.
    destruct (order_by _ (rollups ty db_ ++ [new])) as [|row rest].
    + destruct (rollups ty db_); discriminate.
    + destruct H as [Hin Hmax]. apply in_app_or in Hin.
      destruct Hin as [Hin|[<-|[]]]; [|reflexivity].
      apply Hty in Hin. destruct Hin as [Hin Ht].
      specialize (Hlt row Hin Ht).
      specialize (Hmax new ltac:(apply in_or_app; right; now left)).
      cbn in Hmax. lia.
Qed.

Lemma get_latest_summary_is_latest_witness :
  get_latest_summary
    (fst (save_summary one_rollup "5min" 300 600 "Answered mail." None)) "5min"
  = Some (mk_summary_dict 2 "5min" 300 600 "Answered mail.").
Proof.
  destruct (get_latest_summary_is_latest one_rollup "5min") as (_ & _ & H).
  apply (H 300 600 "Answered mail." None).
  intros r Hr Ht. vm_compute in Hr. destruct Hr as [<-|[]]. cbn. lia.
Defined.

Lemma newest_first_sorted (l : list capture_row) :
  StronglySorted (fun a b => cap_timestamp b <= cap_timestamp a)
    (order_by newest_first l).
Proof.
  eapply StronglySorted_weaken;
    [|apply (order_by_sorted newest_first)]; unfold newest_first.
  - intros a b H. now apply Z.leb_le.
  - intros a b. rewrite !Z.leb_le. lia.
  - intros a b c. rewrite !Z.leb_le. lia.
Qed.

(** X8.  [get_recent_captures] splits the stored captures in two: the ones
    it shows, newest first, and the ones it leaves out, none of which is
    newer than one it shows.  It shows [limit] rows, or all of them when
    fewer are stored or when [limit] is negative. *)
Theorem get_recent_captures_newest :
  forall (db_ : FocusLogDB) (limit : Z) (inc : bool),
    exists shown hidden,
      get_recent_captures db_ limit inc = map (capture_dict_of db_ inc) shown /\
      Permutation (shown ++ hidden) (captures db_) /\
      StronglySorted (fun a b => cap_timestamp b <= cap_timestamp a) shown /\
      (forall a b, In a shown -> In b hidden -> cap_timestamp b <= cap_timestamp a) /\
      List.length shown =
        (if limit <? 0 then List.length (captures db_)
         else Nat.min (Z.to_nat limit) (List.length (captures db_))).
Proof.
  intros db_ limit inc. unfold get_recent_captures, sql_limit.
  set (sorted := order_by newest_first (captures db_)).
  assert (P : Permutation sorted (captures db_)) by apply order_by_perm.
  assert (S : StronglySorted (fun a b => cap_timestamp b <= cap_timestamp a) sorted)
    by apply newest_first_sorted.
  destruct (limit <? 0).
  - exists sorted, []. rewrite app_nil_r.
    repeat split; try assumption; [intros ? ? ? []|].
    now apply Permutation_length.
  - exists (firstn (Z.to_nat limit) sorted), (skipn (Z.to_nat limit) sorted).
    rewrite firstn_skipn. rewrite <- (firstn_skipn (Z.to_nat limit) sorted) in S.
    destruct (StronglySorted_app_order _ _ _ S) as [S1 O1].
    repeat split; try assumption.
    rewrite length_firstn. now rewrite (Permutation_length P).
Qed.

Lemma get_recent_captures_newest_witness :
  exists shown hidden,
    get_recent_captures two_in_a_window 1 false
      = map (capture_dict_of two_in_a_window false) shown /\
    Permutation (shown ++ hidden) (captures two_in_a_window) /\
    StronglySorted (fun a b => cap_timestamp b <= cap_timestamp a) shown /\
    (forall a b, In a shown -> In b hidden -> cap_timestamp b <= cap_timestamp a) /\
    List.length shown = 1%nat.
Proof.
  exact (get_recent_captures_newest two_in_a_window 1 false).
Defined.

End QueryFacts.

(** ** Thinning: outcome, accounting and frame *)

Module CleanupFacts.
Import Database Thinning Integrity Retention DatabaseQueries Scenarios
  DatabaseFacts ThinningFacts NullableFacts.

Lemma firsts_others_length (rows : list capture_row) :
  forall cur : option Z,
    (List.length (firsts cur rows) + List.length (others cur rows))%nat
    = List.length rows.
Proof.
  induction rows as [|r rest IH]; intros cur; cbn [firsts others]; [reflexivity|].
  destruct (same_window cur (window_of r)); cbn [List.length].
  - rewrite <- (IH cur). lia.
  - rewrite <- (IH (Some (window_of r))). lia.
Qed.

Lemma firsts_ids (rows : list capture_row) :
  forall (cur : option Z) (i : Z),
    In i (firsts cur rows) -> In i (map cap_id rows).
Proof.
  induction rows as [|r rest IH]; intros cur i; cbn; [tauto|].
  destruct (same_window cur (window_of r)).
  - intros H. right. eauto.
  - intros [H|H]; [now left|right; eauto].
Qed.

Lemma firsts_others_disjoint (rows : list capture_row) :
  forall (cur : option Z) (i : Z),
    NoDup (map cap_id rows) -> In i (firsts cur rows) -> In i (others cur rows) ->
    False.
Proof.
  induction rows as [|r rest IH]; intros cur i Hnd; cbn [firsts others]; [tauto|].
  cbn [map] in Hnd. inversion Hnd as [|? ? Hnotin Hnd']; subst.
  destruct (same_window cur (window_of r)).
  - intros Hf [<-|Ho]; [apply Hnotin; eapply firsts_ids; eassumption|].
    now apply (IH cur i).
  - intros [<-|Hf] Ho; [apply Hnotin; eapply others_ids; eassumption|].
    now apply (IH (Some (window_of r)) i).
Qed.

Lemma others_nil_of_NoDup (rows : list capture_row) :
  forall cur : option Z,
    NoDup (map window_of rows) ->
    (forall w, cur = Some w -> ~ In w (map window_of rows)) ->
    others cur rows = [].
Proof.
  induction rows as [|r rest IH]; intros cur Hnd Hcur; cbn [others]; [reflexivity|].
  cbn [map] in Hnd. inversion Hnd as [|? ? Hnotin Hnd']; subst.
  destruct (same_window cur (window_of r)) eqn:E.
  - destruct cur as [w|]; [|discriminate]. cbn in E. apply Z.eqb_eq in E.
    exfalso. apply (Hcur w eq_refl). left. now symmetry.
  - apply IH; [exact Hnd'|]. now intros w [= <-].
Qed.

Lemma rows_of_sorted (db_ : FocusLogDB) (s e : Z) :
  StronglySorted (fun a b => by_timestamp a b = true) (rows_of db_ s e).
Proof.
  apply order_by_sorted; [apply by_timestamp_total | apply by_timestamp_trans].
Qed.

Lemma rows_of_perm (db_ : FocusLogDB) (s e : Z) :
  Permutation (rows_of db_ s e) (filter (in_range s e) (captures db_)).
Proof. apply order_by_perm. Qed.

(** The three outcomes of the call, read on the lists [firsts] and
    [others] of the rows of the range. *)
Lemma cleanup_outcome (db_ : FocusLogDB) (s e : Z) :
  let rows := rows_of db_ s e in
  let th := firsts None rows in
  let del := others None rows in
  let report := mk_report (Z.of_nat (List.length th)) (Z.of_nat (List.length del)) th in
  cleanup_screenshots_except_thumbnails db_ s e =
  match del with
  | [] => (db_, Done report)
  | _ =>
      if screenshot_not_null db_
      then (db_, IntegrityError "NOT NULL constraint failed: captures.screenshot")
      else (set_captures db_ (map (null_payload del) (captures db_))
              (captures_seq db_), Done report)
  end.
Proof.
  cbv zeta. unfold cleanup_screenshots_except_thumbnails; cbv zeta.
  fold (rows_of db_ s e).
  destruct (rows_of db_ s e) as [|r rows'] eqn:E; [reflexivity|].
  rewrite <- E.
  destruct (scan_fold (rows_of db_ s e) None [] []) as [T D].
  fold (scan (rows_of db_ s e)) in T, D. cbn [app] in T, D.
  destruct (scan (rows_of db_ s e)) as [[cur th] del]. cbn [fst snd] in T, D.
  subst th del.
  destruct (others None (rows_of db_ s e)) as [|i ids] eqn:Eo; [reflexivity|].
  unfold update_screenshot_null.
  assert (Hhit : existsb (fun r0 => id_in (i :: ids) (cap_id r0)) (captures db_) = true).
  { assert (Hi : In i (map cap_id (rows_of db_ s e)))
      by (apply (others_ids _ None); rewrite Eo; now left).
    apply in_map_iff in Hi. destruct Hi as (r0 & E0 & Hr0).
    apply existsb_exists. exists r0. split.
    - apply (Permutation_in _ (rows_of_perm db_ s e)) in Hr0.
      now apply filter_In in Hr0.
    - apply id_in_true. rewrite E0. now left. }
  rewrite Hhit, andb_true_r. now destruct (screenshot_not_null db_).
Qed.

(** X9.  When thinning returns, its report adds up: [kept] and [deleted]
    together count the samples of the range, [kept] counts the ids listed
    as thumbnails, and [kept] is the number of 5-minute windows the range
    meets. *)
Theorem cleanup_report_adds_up :
  forall (db_ : FocusLogDB) (s e : Z) (report : cleanup_report),
    snd (cleanup_screenshots_except_thumbnails db_ s e) = Done report ->
    kept report + deleted report
      = Z.of_nat (List.length (filter (in_range s e) (captures db_))) /\
    kept report = Z.of_nat (List.length (thumbnails report)) /\
    kept report = Z.of_nat (List.length (windows_met db_ s e)).
Proof.
  intros db_ s e report. rewrite cleanup_outcome; cbv zeta.
  assert (Hrep :
            Done (mk_report
                    (Z.of_nat (List.length (firsts None (rows_of db_ s e))))
                    (Z.of_nat (List.length (others None (rows_of db_ s e))))
                    (firsts None (rows_of db_ s e))) = Done report ->
            kept report + deleted report
              = Z.of_nat (List.length (filter (in_range s e) (captures db_))) /\
            kept report = Z.of_nat (List.length (thumbnails report)) /\
            kept report = Z.of_nat (List.length (windows_met db_ s e))).
  { intros [= <-]. cbn [kept deleted thumbnails].
    pose proof (firsts_others_length (rows_of db_ s e) None) as L.
    pose proof (Permutation_length (rows_of_perm db_ s e)) as P.
    pose proof (firsts_count (rows_of db_ s e) None (rows_of_sorted db_ s e)
                  ltac:(discriminate)) as C.
    cbn beta iota in C. unfold windows_met.
    rewrite <- (nodup_length_perm _ _
                  (Permutation_map window_of (rows_of_perm db_ s e))).
    repeat split; lia. }
  destruct (others None (rows_of db_ s e)); [exact Hrep|].
  destruct (screenshot_not_null db_); [discriminate|exact Hrep].
Qed.

Lemma cleanup_report_adds_up_witness :
  kept (mk_report 1 1 [1]) + deleted (mk_report 1 1 [1])
    = Z.of_nat (List.length (filter (in_range 0 3600)
                               (captures two_in_a_nullable_window))) /\
  kept (mk_report 1 1 [1]) = Z.of_nat (List.length (thumbnails (mk_report 1 1 [1]))) /\
  kept (mk_report 1 1 [1])
    = Z.of_nat (List.length (windows_met two_in_a_nullable_window 0 3600)).
Proof.
  apply (cleanup_report_adds_up two_in_a_nullable_window 0 3600).
  vm_compute. reflexivity.
Defined.

Lemma others_nil_iff (db_ : FocusLogDB) (s e : Z) :
  others None (rows_of db_ s e) = [] <->
  NoDup (map window_of (filter (in_range s e) (captures db_))).
Proof.
  pose proof (rows_of_perm db_ s e) as P. split.
  - intros Ho.
    destruct (scan_nothing_to_delete (rows_of db_ s e) None [] []
                (rows_of_sorted db_ s e)) as (_ & N & _); [discriminate| |].
    + destruct (scan_fold (rows_of db_ s e) None [] []) as [_ D].
      now rewrite D, Ho.
    + exact (Permutation_NoDup (Permutation_map window_of P) N).
  - intros N. apply others_nil_of_NoDup; [|discriminate].
    exact (Permutation_NoDup (Permutation_map window_of (Permutation_sym P)) N).
Qed.

(** X10.  Thinning raises exactly when the payload column is [NOT NULL]
    and two samples of the range share a 5-minute window, and then it
    changes nothing.  When every sample of the range is alone in its window
    no [UPDATE] is issued: the call returns with nothing deleted and leaves
    the store as it is, whatever the constraint. *)
Theorem cleanup_raises_exactly_on_shared_window :
  forall (db_ : FocusLogDB) (s e : Z),
    ((exists msg, snd (cleanup_screenshots_except_thumbnails db_ s e)
                  = IntegrityError msg) <->
     screenshot_not_null db_ = true /\
     ~ NoDup (map window_of (filter (in_range s e) (captures db_)))) /\
    ((exists msg, snd (cleanup_screenshots_except_thumbnails db_ s e)
                  = IntegrityError msg) ->
     fst (cleanup_screenshots_except_thumbnails db_ s e) = db_) /\
    (NoDup (map window_of (filter (in_range s e) (captures db_))) ->
     exists ids,
       cleanup_screenshots_except_thumbnails db_ s e =
       (db_, Done (mk_report
                     (Z.of_nat (List.length (filter (in_range s e) (captures db_))))
                     0 ids))).
Proof.
  intros db_ s e. rewrite cleanup_outcome; cbv zeta.
  pose proof (rows_of_perm db_ s e) as P.
  pose proof (others_nil_iff db_ s e) as Hnil.
  split; [|split].
  - destruct (others None (rows_of db_ s e)) as [|i ids] eqn:Eo.
    + split; [intros [msg H]; discriminate|].
      intros [_ N]. exfalso. apply N. now apply Hnil.
    + destruct (screenshot_not_null db_).
      * split; [|intros _; eexists; reflexivity].
        intros _. split; [reflexivity|]. intros N. apply Hnil in N. discriminate.
      * split; [intros [msg H]; discriminate|intros [H _]; discriminate].
  - destruct (others None (rows_of db_ s e)); [reflexivity|].
    destruct (screenshot_not_null db_); [reflexivity|intros [msg H]; discriminate].
  - intros N. apply Hnil in N. rewrite N. eexists. do 3 f_equal.
    pose proof (firsts_others_length (rows_of db_ s e) None) as L.
    rewrite N in L. cbn in L. rewrite <- (Permutation_length P). lia.
Qed.

Lemma cleanup_raises_exactly_on_shared_window_witness :
  (exists ids,
      cleanup_screenshots_except_thumbnails twenty_captures 0 15
      = (twenty_captures,
         Done (mk_report
                 (Z.of_nat (List.length (filter (in_range 0 15)
                                           (captures twenty_captures))))
                 0 ids))) /\
  fst (cleanup_screenshots_except_thumbnails two_in_a_window 0 3600)
    = two_in_a_window.
Proof.
  destruct (cleanup_raises_exactly_on_shared_window twenty_captures 0 15)
    as (_ & _ & H).
  destruct (cleanup_raises_exactly_on_shared_window two_in_a_window 0 3600)
    as (_ & G & _).
  split.
  - apply H. vm_compute. repeat constructor. intros [].
  - apply G. eexists. vm_compute. reflexivity.
Defined.

Lemma nulled_thinned (ids : list Z) (r : capture_row) :
  thinned r (null_payload ids r).
Proof.
  unfold thinned, null_payload, without_payload.
  destruct (id_in ids (cap_id r)); [now right|now left].
Qed.

Lemma Forall2_map_r {A B : Type} (R : A -> B -> Prop) (f : A -> B) (l : list A) :
  (forall a, R a (f a)) -> Forall2 R l (map f l).
Proof. intros H. induction l; cbn; constructor; auto. Qed.

Lemma cleanup_thins (db_ : FocusLogDB) (s e : Z) :
  Forall2 thinned (captures db_)
    (captures (fst (cleanup_screenshots_except_thumbnails db_ s e))).
Proof.
  rewrite cleanup_outcome; cbv zeta.
  assert (Hsame : Forall2 thinned (captures db_) (captures db_)).
  { rewrite <- (map_id (captures db_)) at 2.
    apply Forall2_map_r. intros a. now left. }
  destruct (others None (rows_of db_ s e)); [exact Hsame|].
  destruct (screenshot_not_null db_); [exact Hsame|].
  cbn [fst captures set_captures]. apply Forall2_map_r. intros a.
  apply nulled_thinned.
Qed.

(** X11.  Thinning touches nothing but payloads: labels, links and rollups
    are as before, and the capture rows are the same rows in the same
    order, each with its payload either kept or blanked, never replaced.
    With unique ids, every sample outside the range, and every sample
    reported as a thumbnail, is left exactly as it was. *)
Theorem cleanup_only_blanks_payloads :
  forall (db_ : FocusLogDB) (s e : Z),
    let db' := fst (cleanup_screenshots_except_thumbnails db_ s e) in
    labels db' = labels db_ /\
    captures_labels db' = captures_labels db_ /\
    summaries db' = summaries db_ /\
    Forall2 thinned (captures db_) (captures db') /\
    (captures_keyed db_ ->
     forall r, In r (captures db_) -> in_range s e r = false ->
               In r (captures db')) /\
    (captures_keyed db_ ->
     forall report r,
       snd (cleanup_screenshots_except_thumbnails db_ s e) = Done report ->
       In r (captures db_) -> In (cap_id r) (thumbnails report) ->
       In r (captures db')).
Proof.
  intros db_ s e. rewrite cleanup_outcome; cbv zeta.
  assert (Hsame : Forall2 thinned (captures db_) (captures db_)).
  { rewrite <- (map_id (captures db_)) at 2.
    apply Forall2_map_r. intros a. now left. }
  assert (Hids : captures_keyed db_ -> NoDup (map cap_id (rows_of db_ s e))).
  { intros [Hn _].
    apply (Permutation_NoDup
             (Permutation_map cap_id (Permutation_sym (rows_of_perm db_ s e)))).
    now apply NoDup_map_filter. }
  assert (Hkeep : forall r, ~ In (cap_id r) (others None (rows_of db_ s e)) ->
                    null_payload (others None (rows_of db_ s e)) r = r).
  { intros r Hr. unfold null_payload.
    destruct (id_in _ (cap_id r)) eqn:E; [|reflexivity].
    apply id_in_true in E. contradiction. }
  assert (Hout : captures_keyed db_ -> forall r, In r (captures db_) ->
                   in_range s e r = false ->
                   ~ In (cap_id r) (others None (rows_of db_ s e))).
  { intros [Hn _] r Hr Hrange Hin. apply others_ids, in_map_iff in Hin.
    destruct Hin as (r' & E & Hr').
    apply (Permutation_in _ (rows_of_perm db_ s e)), filter_In in Hr'.
    destruct Hr' as [Hr' Hin'].
    assert (r' = r) by (apply (LabelLookupFacts.NoDup_map_inj_in cap_id _ r' r Hn); assumption).
    congruence. }
  destruct (others None (rows_of db_ s e)) as [|i ids] eqn:Eo; cbn [fst snd].
  - repeat split; try assumption; now intros.
  - destruct (screenshot_not_null db_); cbn [fst snd].
    + repeat split; try assumption; try now intros.
    + cbn [labels captures captures_labels summaries set_captures].
      repeat split.
      * apply Forall2_map_r. intros a. apply nulled_thinned.
      * intros K r Hr Hrange. rewrite <- (Hkeep r (Hout K r Hr Hrange)).
        now apply in_map.
      * intros K report r [= <-] Hr Hth. cbn [thumbnails] in Hth.
        rewrite <- (Hkeep r); [now apply in_map|].
        intros Ho. rewrite <- Eo in Ho.
        exact (firsts_others_disjoint _ None _ (Hids K) Hth Ho).
Qed.

Lemma cleanup_only_blanks_payloads_witness :
  In (mk_capture 1 0 (Some png) (Some "editing a report") (Some "{}") None)
     (captures (fst (cleanup_screenshots_except_thumbnails
                       two_in_a_nullable_window 0 3600))) /\
  In (mk_capture 2 15 (Some png) (Some "editing a report") (Some "{}") None)
     (captures (fst (cleanup_screenshots_except_thumbnails
                       two_in_a_nullable_window 0 10))).
Proof.
  assert (K : captures_keyed two_in_a_nullable_window).
  { split; vm_compute; repeat constructor; cbn; intuition (try discriminate; try lia). }
  destruct (cleanup_only_blanks_payloads two_in_a_nullable_window 0 3600)
    as (_ & _ & _ & _ & _ & T).
  destruct (cleanup_only_blanks_payloads two_in_a_nullable_window 0 10)
    as (_ & _ & _ & _ & O & _).
  split.
  - apply (T K (mk_report 1 1 [1])); [vm_compute; reflexivity| |now left].
    vm_compute. now left.
  - apply (O K); [vm_compute; right; now left|reflexivity].
Defined.

End CleanupFacts.

(** ** Statistics and the video path of a rollup *)

Module StatisticsFacts.
Import Database Rollups Integrity Retention DatabaseQueries Scenarios
  DatabaseFacts NullableFacts CleanupFacts.

Lemma fold_min_spec (l : list Z) :
  forall x : Z,
    fold_left Z.min l x <= x /\
    Forall (fun y => fold_left Z.min l x <= y) l /\
    In (fold_left Z.min l x) (x :: l).
Proof.
  induction l as [|y l IH]; intros x; cbn [fold_left].
  - repeat split; [lia|constructor|now left].
  - destruct (IH (Z.min x y)) as (A & B & C). repeat split; [lia| |].
    + constructor; [lia|exact B].
    + destruct C as [C|C]; [|right; now right].
      rewrite <- C. destruct (Z.min_spec x y) as [[_ ->]|[_ ->]];
        [now left|right; now left].
Qed.

Lemma fold_max_spec (l : list Z) :
  forall x : Z,
    x <= fold_left Z.max l x /\
    Forall (fun y => y <= fold_left Z.max l x) l /\
    In (fold_left Z.max l x) (x :: l).
Proof.
  induction l as [|y l IH]; intros x; cbn [fold_left].
  - repeat split; [lia|constructor|now left].
  - destruct (IH (Z.max x y)) as (A & B & C). repeat split; [lia| |].
    + constructor; [lia|exact B].
    + destruct C as [C|C]; [|right; now right].
      rewrite <- C. destruct (Z.max_spec x y) as [[_ ->]|[_ ->]];
        [right; now left|now left].
Qed.

Lemma sql_sum_total (l : list (option Z)) :
  forall acc : option Z,
    match fold_left
            (fun acc x =>
               match x with
               | Some v => match acc with Some a => Some (a + v) | None => Some v end
               | None => acc
               end) l acc
    with Some s => s | None => 0 end
    = match acc with Some a => a | None => 0 end
      + fold_right Z.add 0 (map (fun x => match x with Some v => v | None => 0 end) l).
Proof.
  induction l as [|x l IH]; intros acc; cbn [fold_left map fold_right]; [lia|].
  rewrite IH. destruct x as [v|], acc as [a|]; lia.
Qed.

Lemma total_size_sum (db_ : FocusLogDB) :
  total_size_bytes (get_statistics db_)
  = fold_right Z.add 0 (map bytes_of (captures db_)).
Proof.
  unfold get_statistics, sql_sum; cbn [total_size_bytes].
  rewrite sql_sum_total, map_map. reflexivity.
Qed.

Lemma bytes_sum_app (l l' : list capture_row) :
  fold_right Z.add 0 (map bytes_of (l ++ l'))
  = fold_right Z.add 0 (map bytes_of l) + fold_right Z.add 0 (map bytes_of l').
Proof. induction l as [|r l IH]; cbn; [reflexivity|]. rewrite IH. lia. Qed.

Lemma bytes_of_nonneg (r : capture_row) : 0 <= bytes_of r.
Proof. unfold bytes_of, payload_length. destruct (cap_screenshot r); lia. Qed.

Lemma bytes_sum_nonneg (l : list capture_row) :
  0 <= fold_right Z.add 0 (map bytes_of l).
Proof.
  induction l as [|r l IH]; cbn [map fold_right]; [lia|].
  pose proof (bytes_of_nonneg r). lia.
Qed.

Lemma thinned_bytes (l l' : list capture_row) :
  Forall2 thinned l l' ->
  fold_right Z.add 0 (map bytes_of l') <= fold_right Z.add 0 (map bytes_of l).
Proof.
  induction 1 as [|r r' l l' Hr _ IH]; cbn; [lia|].
  pose proof (bytes_of_nonneg r).
  destruct Hr as [->| ->]; [lia|]. cbn. lia.
Qed.

(** X12.  [get_statistics] follows the store.  On an empty table it
    answers zero captures, zero bytes and no dates; otherwise the first and
    last dates are timestamps of stored captures and bracket every
    timestamp.  The byte total counts a NULL payload as nothing; saving a
    capture adds one capture and the length of its payload, and thinning
    keeps the capture count and never raises the byte total. *)
Theorem statistics_follow_the_store :
  forall db_ : FocusLogDB,
    (captures db_ = [] -> get_statistics db_ = mk_statistics 0 None None 0) /\
    (forall r, In r (captures db_) ->
       exists f l,
         first_capture (get_statistics db_) = Some f /\
         last_capture (get_statistics db_) = Some l /\
         In f (map cap_timestamp (captures db_)) /\
         In l (map cap_timestamp (captures db_)) /\
         f <= cap_timestamp r <= l) /\
    (forall screenshot description labels_ raw err timestamp now clocks,
       let db' := fst (save_capture db_ screenshot description labels_ raw err
                         timestamp now clocks) in
       total_captures (get_statistics db') = total_captures (get_statistics db_) + 1 /\
       total_size_bytes (get_statistics db')
       = total_size_bytes (get_statistics db_) + Z.of_nat (List.length screenshot)) /\
    (forall s e,
       let db' := fst (cleanup_screenshots_except_thumbnails db_ s e) in
       total_captures (get_statistics db') = total_captures (get_statistics db_) /\
       0 <= total_size_bytes (get_statistics db')
         <= total_size_bytes (get_statistics db_)).
Proof.
  intros db_. split; [|split; [|split]].
  - intros E. unfold get_statistics, sql_sum. now rewrite E.
  - intros r Hr. unfold get_statistics; cbn [first_capture last_capture].
    apply (in_map cap_timestamp) in Hr.
    destruct (map cap_timestamp (captures db_)) as [|x l]; [destruct Hr|].
    cbn [sql_min sql_max].
    destruct (fold_min_spec l x) as (A1 & B1 & C1).
    destruct (fold_max_spec l x) as (A2 & B2 & C2).
    exists (fold_left Z.min l x), (fold_left Z.max l x).
    repeat split; try assumption.
    + destruct Hr as [<-|Hr]; [lia|]. rewrite Forall_forall in B1. now apply B1.
    + destruct Hr as [<-|Hr]; [lia|]. rewrite Forall_forall in B2. now apply B2.
  - intros screenshot description labels_ raw err timestamp now clocks. cbv zeta.
    destruct (save_capture_captures db_ screenshot description labels_ raw err
                timestamp now clocks) as (C & _).
    cbv zeta in C. rewrite !total_size_sum. unfold get_statistics at 1 2.
    cbn [total_captures]. rewrite C, length_app, bytes_sum_app. cbn. split; lia.
  - intros s e. cbv zeta. pose proof (cleanup_thins db_ s e) as T.
    rewrite !total_size_sum. unfold get_statistics at 1 2. cbn [total_captures].
    rewrite <- (Forall2_length T). split; [reflexivity|].
    split; [apply bytes_sum_nonneg|now apply thinned_bytes].
Qed.

Lemma statistics_follow_the_store_witness :
  get_statistics _create_tables = mk_statistics 0 None None 0 /\
  exists f l,
    first_capture (get_statistics twenty_captures) = Some f /\
    last_capture (get_statistics twenty_captures) = Some l /\
    f <= 150 <= l.
Proof.
  split.
  - apply (statistics_follow_the_store _create_tables). reflexivity.
  - destruct (statistics_follow_the_store twenty_captures) as (_ & H & _).
    destruct (H (mk_capture 11 150 (Some png) (Some "editing a report") (Some "{}") None))
      as (f & l & F & L & _ & _ & B).
    + vm_compute. do 10 right. now left.
    + exists f, l. now repeat split.
Defined.

Lemma video_path_keeps_dict (i : Z) (p : string) (r : summary_row) :
  summary_dict_of (set_video_path i p r) = summary_dict_of r /\
  of_type (sum_type r) (set_video_path i p r) = true /\
  sum_type (set_video_path i p r) = sum_type r /\
  sum_id (set_video_path i p r) = sum_id r.
Proof.
  unfold set_video_path, of_type. destruct (sum_id r =? i); cbn;
    rewrite String.eqb_refl; now repeat split.
Qed.

(** X13.  [update_summary_video_path] rewrites the video path of the rollup
    with the given id and nothing else: every other rollup is as before,
    captures and labels are untouched, the store is unchanged when no
    rollup has that id, and [get_latest_summary] and
    [get_summaries_in_range], which do not select the path, answer as
    before. *)
Theorem update_summary_video_path_only_sets_path :
  forall (db_ : FocusLogDB) (summary_id : Z) (video_path : string),
    let db' := update_summary_video_path db_ summary_id video_path in
    (forall r, In r (summaries db_) -> sum_id r = summary_id ->
       In (mk_summary summary_id (sum_type r) (sum_start_time r) (sum_end_time r)
             (sum_content r) (Some video_path)) (summaries db')) /\
    (forall r, In r (summaries db_) -> sum_id r <> summary_id ->
       In r (summaries db')) /\
    (~ In summary_id (map sum_id (summaries db_)) -> db' = db_) /\
    captures db' = captures db_ /\ labels db' = labels db_ /\
    (forall ty, get_latest_summary db' ty = get_latest_summary db_ ty) /\
    (forall ty s e, get_summaries_in_range db' ty s e
                    = get_summaries_in_range db_ ty s e).
Proof.
  intros db_ i p. cbv zeta. unfold update_summary_video_path.
  assert (Hf : forall (f : summary_row -> bool),
             (forall r, f (set_video_path i p r) = f r) ->
             filter f (map (set_video_path i p) (summaries db_))
             = map (set_video_path i p) (filter f (summaries db_))).
  { intros f H. rewrite filter_map_swap. f_equal. now apply filter_ext. }
  assert (Hty : forall ty r, of_type ty (set_video_path i p r) = of_type ty r).
  { intros ty r. unfold of_type.
    now destruct (video_path_keeps_dict i p r) as (_ & _ & -> & _). }
  assert (Hkeys : forall r, sum_start_time (set_video_path i p r) = sum_start_time r /\
                            sum_end_time (set_video_path i p r) = sum_end_time r).
  { intros r. unfold set_video_path. now destruct (sum_id r =? i). }
  assert (Hdict : forall l, map summary_dict_of (map (set_video_path i p) l)
                            = map summary_dict_of l).
  { intros l. rewrite map_map. apply map_ext. intros r.
    now destruct (video_path_keeps_dict i p r) as (-> & _). }
  repeat split.
  - intros r Hr E. cbn [summaries set_summaries].
    replace (mk_summary i _ _ _ _ _) with (set_video_path i p r);
      [now apply in_map|].
    unfold set_video_path. rewrite E, Z.eqb_refl. reflexivity.
  - intros r Hr E. cbn [summaries set_summaries].
    replace r with (set_video_path i p r) at 1; [now apply in_map|].
    unfold set_video_path. apply Z.eqb_neq in E. now rewrite E.
  - intros Hno. replace (map (set_video_path i p) (summaries db_)) with (summaries db_);
      [now destruct db_|].
    rewrite <- (map_id (summaries db_)) at 1. apply map_ext_in.
    intros r Hr. unfold set_video_path.
    destruct (sum_id r =? i) eqn:E; [|reflexivity].
    apply Z.eqb_eq in E. exfalso. apply Hno. rewrite <- E. now apply in_map.
  - intros ty. unfold get_latest_summary. cbn [summaries set_summaries].
    rewrite Hf by apply Hty.
    rewrite order_by_map
      by (intros a b; destruct (Hkeys a) as [_ ->]; now destruct (Hkeys b) as [_ ->]).
    destruct (order_by _ (filter (of_type ty) (summaries db_))) as [|row rest];
      [reflexivity|]. cbn [map].
    now destruct (video_path_keeps_dict i p row) as (-> & _).
  - intros ty s e. unfold get_summaries_in_range. cbn [summaries set_summaries].
    rewrite Hf.
    + rewrite order_by_map
        by (intros a b; destruct (Hkeys a) as [-> _]; now destruct (Hkeys b) as [-> _]).
      apply Hdict.
    + intros r. rewrite Hty. destruct (Hkeys r) as [-> ->]. reflexivity.
Qed.

Lemma update_summary_video_path_only_sets_path_witness :
  In (mk_summary 1 "5min" 0 300 "Edited a report." (Some "videos/a.mp4"))
     (summaries (update_summary_video_path one_rollup 1 "videos/a.mp4")) /\
  update_summary_video_path one_rollup 7 "videos/a.mp4" = one_rollup.
Proof.
  destruct (update_summary_video_path_only_sets_path one_rollup 1 "videos/a.mp4")
    as (A & _).
  destruct (update_summary_video_path_only_sets_path one_rollup 7 "videos/a.mp4")
    as (_ & _ & B & _).
  split.
  - apply (A (mk_summary 1 "5min" 0 300 "Edited a report." None));
      [vm_compute; now left|reflexivity].
  - apply B. vm_compute. intros [H|[]]. discriminate.
Defined.

End StatisticsFacts.

(** ** Runs of the daemon *)

Module RunFacts.
Import Database Summarizer Daemon Rollups Thinning Integrity Retention
  DatabaseQueries DaemonNotions Scenarios DatabaseFacts FetchFacts CaptureFacts
  RollupFacts ChainFacts LoopFacts ThinningFacts NullableFacts QueryFacts
  CleanupFacts.

(** *** Watermarks *)

Lemma generate_5min_watermarks (d : FocusLogDaemon) (now : Z) (api : api_result) :
  let d' := _generate_5min_summary d now api in
  (last_5min_summary d' = last_5min_summary d \/ last_5min_summary d' = now) /\
  last_hourly_summary d' = last_hourly_summary d /\
  running d' = running d.
Proof.
  destruct (generate_5min_cases d now api) as [E|[E|(content & E)]];
    cbv zeta in *; rewrite E; cbn; auto.
Qed.

Lemma generate_hourly_watermarks (d : FocusLogDaemon) (now : Z) (api : api_result)
    (video_path_full : string) (video_success : bool) :
  let d' := _generate_hourly_summary d now api video_path_full video_success in
  (last_hourly_summary d' = last_hourly_summary d \/ last_hourly_summary d' = now) /\
  last_5min_summary d' = last_5min_summary d /\
  running d' = running d.
Proof.
  cbv zeta. unfold _generate_hourly_summary.
  destruct (get_summaries_in_range _ _ _ _); [cbn; auto|].
  destruct (startswith _ _); [auto|].
  cbv zeta. unfold save_summary.
  destruct (cleanup_screenshots_except_thumbnails _ _ _) as [db2 [r|msg]];
    cbn; auto.
Qed.

Lemma check_and_generate_watermarks (d : FocusLogDaemon) (env : summaries_env) :
  se_now env <= se_now_5min env -> se_now env <= se_now_hourly env ->
  let d' := _check_and_generate_summaries d env in
  last_5min_summary d <= last_5min_summary d' /\
  last_hourly_summary d <= last_hourly_summary d' /\
  running d' = running d.
Proof.
  intros H5 Hh. cbv zeta. unfold _check_and_generate_summaries; cbv zeta.
  set (d1 := if 300 <=? se_now env - last_5min_summary d then _ else d).
  assert (H1 : last_5min_summary d <= last_5min_summary d1 /\
               last_hourly_summary d1 = last_hourly_summary d /\
               running d1 = running d).
  { subst d1. destruct (300 <=? se_now env - last_5min_summary d) eqn:E5;
      [|repeat split; lia].
    apply Z.leb_le in E5.
    destruct (generate_5min_watermarks d (se_now_5min env) (se_api_5min env))
      as ([A|A] & B & C); cbv zeta in *; repeat split; try assumption; lia. }
  destruct H1 as (A1 & B1 & C1).
  destruct (3600 <=? se_now env - last_hourly_summary d) eqn:Eh;
    [|repeat split; try assumption; lia].
  apply Z.leb_le in Eh.
  destruct (generate_hourly_watermarks d1 (se_now_hourly env) (se_api_hourly env)
              (se_video_path_full env) (se_video_success env))
    as ([A|A] & B & C); cbv zeta in *; repeat split; try congruence; lia.
Qed.

Lemma run_iteration_watermarks (st : loop_state) (env : tick_env) :
  threads_after_check env ->
  last_5min_summary (daemon st) <= last_5min_summary (daemon (run_iteration st env)) /\
  last_hourly_summary (daemon st)
    <= last_hourly_summary (daemon (run_iteration st env)).
Proof.
  intros [H5 Hh]. unfold run_iteration; cbv zeta; cbn [daemon].
  destruct (_capture_and_classify_rows (daemon st) (te_capture env))
    as (rows & _ & _ & _ & W5 & Wh & _).
  destruct (check_and_generate_watermarks
              (_capture_and_classify (daemon st) (te_capture env))
              (te_summaries env) H5 Hh) as (A & B & _).
  cbv zeta in *. destruct (stop_requested env); cbn; lia.
Qed.

Lemma run_loop_watermarks (envs : list tick_env) :
  forall st : loop_state,
    Forall threads_after_check envs ->
    last_5min_summary (daemon st) <= last_5min_summary (daemon (run_loop st envs)) /\
    last_hourly_summary (daemon st)
      <= last_hourly_summary (daemon (run_loop st envs)).
Proof.
  induction envs as [|env envs IH]; intros st Hall; cbn [run_loop]; [lia|].
  inversion Hall as [|? ? He Hrest]; subst.
  destruct (running (daemon st)); [|lia].
  destruct (run_iteration_watermarks st env He).
  destruct (IH (run_iteration st env) Hrest). lia.
Qed.

(** *** Nothing stored is removed *)

Lemma thinned_all_refl (l : list capture_row) : Forall2 thinned l l.
Proof. induction l; constructor; [now left|assumption]. Qed.

Lemma thinned_trans (a b c : capture_row) : thinned a b -> thinned b c -> thinned a c.
Proof.
  unfold thinned. intros [->| ->] [->| ->]; auto.
Qed.

Lemma thinned_all_trans (l1 l2 l3 : list capture_row) :
  Forall2 thinned l1 l2 -> Forall2 thinned l2 l3 -> Forall2 thinned l1 l3.
Proof.
  intros H. revert l3. induction H as [|a b l1 l2 Hab _ IH]; intros l3 H3;
    inversion H3; subst; constructor; [eapply thinned_trans; eassumption|auto].
Qed.

Lemma grows_refl (db_ : FocusLogDB) : grows db_ db_.
Proof.
  unfold grows. repeat split.
  - exists (captures db_), []. rewrite app_nil_r. split; [reflexivity|].
    apply thinned_all_refl.
  - exists []. now rewrite app_nil_r.
  - exists []. now rewrite app_nil_r.
  - exists []. now rewrite app_nil_r.
Qed.

Lemma grows_trans (a b c : FocusLogDB) : grows a b -> grows b c -> grows a c.
Proof.
  intros ((o1 & a1 & C1 & T1) & (s1 & S1) & (k1 & K1) & (l1 & L1))
         ((o2 & a2 & C2 & T2) & (s2 & S2) & (k2 & K2) & (l2 & L2)).
  unfold grows. repeat split.
  - rewrite C1 in T2. apply Forall2_app_inv_l in T2.
    destruct T2 as (o & a' & To & _ & ->).
    exists o, (a' ++ a2). rewrite C2, app_assoc. split; [reflexivity|].
    eapply thinned_all_trans; eassumption.
  - exists (s1 ++ s2). now rewrite S2, S1, app_assoc.
  - exists (k1 ++ k2). now rewrite K2, K1, app_assoc.
  - exists (l1 ++ l2). now rewrite L2, L1, app_assoc.
Qed.

Lemma touched_keys (id : Z) (text : string) (l : list label_row) :
  map label_key (map (touch id text) l) = map label_key l.
Proof.
  rewrite map_map. apply map_ext. intros r. unfold label_key.
  now rewrite LabelFacts.touch_id, LabelFacts.touch_name.
Qed.

Lemma get_or_create_label_grows (db_ : FocusLogDB) (name : string)
    (clk : label_clock) :
  grows db_ (fst (get_or_create_label db_ name clk)).
Proof.
  destruct (find (fun r => String.eqb (label_name r) name) (labels db_))
    as [row|] eqn:E.
  - rewrite (LabelFacts.get_or_create_label_found _ _ clk _ E). cbn [fst].
    destruct (grows_refl db_) as (C & S & _ & L).
    unfold grows; cbn [captures summaries labels captures_labels set_labels].
    repeat split; try assumption. exists []. now rewrite touched_keys, app_nil_r.
  - rewrite (LabelFacts.get_or_create_label_new _ _ clk E). cbn [fst].
    destruct (grows_refl db_) as (C & S & _ & L).
    unfold grows; cbn [captures summaries labels captures_labels set_labels].
    repeat split; try assumption. eexists. now rewrite map_app.
Qed.

Lemma attach_labels_grows (names : list string) (clocks : nat -> label_clock) :
  forall (db_ : FocusLogDB) (cid : Z) (i : nat),
    grows db_ (attach_labels db_ cid names clocks i).
Proof.
  induction names as [|n rest IH]; intros db_ cid i; cbn [attach_labels];
    [apply grows_refl|].
  pose proof (get_or_create_label_grows db_ n (clocks i)) as G.
  destruct (get_or_create_label db_ n (clocks i)) as [db1 lid]. cbn [fst] in G.
  eapply grows_trans; [exact G|]. eapply grows_trans; [|apply IH].
  destruct (grows_refl db1) as (C & S & K & _).
  unfold grows; cbn [captures summaries labels captures_labels set_captures_labels].
  repeat split; try assumption.
  unfold insert_or_ignore. destruct (existsb _ _);
    [exists []; now rewrite app_nil_r|now eexists].
Qed.

Lemma save_capture_grows (db_ : FocusLogDB) (screenshot : bytes)
    (description : option string) (labels_ : option (list string))
    (raw err : option string) (timestamp : option Z) (now : Z)
    (clocks : nat -> label_clock) :
  grows db_ (fst (save_capture db_ screenshot description labels_ raw err
                    timestamp now clocks)).
Proof.
  unfold save_capture; cbv zeta. set (db1 := set_captures db_ _ _).
  assert (G1 : grows db_ db1).
  { destruct (grows_refl db_) as (_ & S & K & L). subst db1.
    unfold grows; cbn [captures summaries labels captures_labels set_captures].
    repeat split; try assumption.
    eexists _, _. split; [reflexivity|apply thinned_all_refl]. }
  destruct labels_ as [[|n rest]|]; cbn [fst]; try exact G1.
  eapply grows_trans; [exact G1|apply attach_labels_grows].
Qed.

Lemma save_summary_grows (db_ : FocusLogDB) (ty : string) (s e : Z)
    (content : string) (video_path : option string) :
  grows db_ (fst (save_summary db_ ty s e content video_path)).
Proof.
  destruct (grows_refl db_) as (C & _ & K & L). unfold save_summary; cbn [fst].
  unfold grows; cbn [captures summaries labels captures_labels set_summaries].
  repeat split; try assumption. now eexists.
Qed.

Lemma cleanup_grows (db_ : FocusLogDB) (s e : Z) :
  grows db_ (fst (cleanup_screenshots_except_thumbnails db_ s e)).
Proof.
  pose proof (cleanup_thins db_ s e) as T. revert T.
  rewrite cleanup_outcome; cbv zeta.
  destruct (others None (rows_of db_ s e)); [intros _; apply grows_refl|].
  destruct (screenshot_not_null db_); [intros _; apply grows_refl|].
  cbn [fst]. intros T. destruct (grows_refl db_) as (_ & S & K & L).
  unfold grows; cbn [captures summaries labels captures_labels set_captures] in *.
  repeat split; try assumption.
  eexists _, []. rewrite app_nil_r. split; [reflexivity|exact T].
Qed.

Lemma capture_and_classify_grows (d : FocusLogDaemon) (env : capture_env) :
  grows (db d) (db (_capture_and_classify d env)).
Proof.
  unfold _capture_and_classify, _classify_and_save.
  destruct (ce_capture env) as [data|];
    [destruct (success (ce_classification env));
     [destruct (cls_description (ce_classification env))|]|];
    cbn [db set_db]; try apply grows_refl; apply save_capture_grows.
Qed.

Lemma generate_5min_grows (d : FocusLogDaemon) (now : Z) (api : api_result) :
  grows (db d) (db (_generate_5min_summary d now api)).
Proof.
  unfold _generate_5min_summary; cbv zeta.
  destruct (get_captures_since _ _ _); [apply grows_refl|].
  destruct (startswith _ _); [apply grows_refl|].
  match goal with
  | |- context [save_summary ?a ?b ?c ?e ?f ?g] =>
      pose proof (save_summary_grows a b c e f g) as H;
      destruct (save_summary a b c e f g) as [db' sid]
  end.
  exact H.
Qed.

Lemma generate_hourly_grows (d : FocusLogDaemon) (now : Z) (api : api_result)
    (video_path_full : string) (video_success : bool) :
  grows (db d)
    (db (_generate_hourly_summary d now api video_path_full video_success)).
Proof.
  unfold _generate_hourly_summary; cbv zeta.
  destruct (get_summaries_in_range _ _ _ _); [apply grows_refl|].
  destruct (startswith _ _); [apply grows_refl|].
  match goal with
  | |- context [save_summary ?a ?b ?c ?e ?f ?g] =>
      pose proof (save_summary_grows a b c e f g) as H;
      destruct (save_summary a b c e f g) as [db1 sid]
  end.
  cbn [fst] in H.
  pose proof (cleanup_grows db1 (last_hourly_summary d) now) as H2.
  destruct (cleanup_screenshots_except_thumbnails db1 (last_hourly_summary d) now)
    as [db2 [rep|msg]]; cbn [fst db set_db set_last_hourly] in *;
    eapply grows_trans; eassumption.
Qed.

Lemma run_iteration_grows (st : loop_state) (env : tick_env) :
  grows (db (daemon st)) (db (daemon (run_iteration st env))).
Proof.
  unfold run_iteration; cbv zeta; cbn [daemon].
  pose proof (capture_and_classify_grows (daemon st) (te_capture env)) as H1.
  assert (H2 : grows (db (daemon st))
                 (db (_check_and_generate_summaries
                        (_capture_and_classify (daemon st) (te_capture env))
                        (te_summaries env)))).
  { unfold _check_and_generate_summaries; cbv zeta.
    destruct (3600 <=? _); destruct (300 <=? _);
      repeat (eapply grows_trans;
              [|first [apply generate_hourly_grows | apply generate_5min_grows]]);
      exact H1. }
  destruct (stop_requested env); exact H2.
Qed.

Lemma run_loop_grows (envs : list tick_env) :
  forall st : loop_state,
    grows (db (daemon st)) (db (daemon (run_loop st envs))).
Proof.
  induction envs as [|env envs IH]; intros st; cbn [run_loop]; [apply grows_refl|].
  destruct (running (daemon st)); [|apply grows_refl].
  eapply grows_trans; [apply run_iteration_grows|apply IH].
Qed.

(** X17.  Nothing the daemon has stored is removed or rewritten, except
    payloads blanked by thinning: after any run of the loop the capture
    table begins with the rows it had, in the same order, each with its
    payload kept or blanked and every other column as it was; the rollups,
    the labels with their ids and names, and the capture-label links it had
    are still there, in place, followed by what the run added. *)
Theorem stored_rows_are_never_removed :
  forall (st : loop_state) (envs : list tick_env),
    let before := db (daemon st) in
    let after := db (daemon (run_loop st envs)) in
    (exists old added,
        captures after = old ++ added /\ Forall2 thinned (captures before) old) /\
    (exists added, summaries after = summaries before ++ added) /\
    (exists added,
        map label_key (labels after) = map label_key (labels before) ++ added) /\
    (exists added, captures_labels after = captures_labels before ++ added).
Proof. intros st envs. exact (run_loop_grows envs st). Qed.

End RunFacts.

(** ** The hourly generation: video, thinning, shutdown *)

Module HourlyFacts.
Import Database Summarizer Daemon Rollups Thinning Integrity Retention
  DatabaseQueries DaemonNotions Scenarios DatabaseFacts FetchFacts CaptureFacts
  RollupFacts ChainFacts LoopFacts ThinningFacts NullableFacts QueryFacts
  CleanupFacts RunFacts.

Lemma filter_nil_existsb {A : Type} (f : A -> bool) (l : list A) :
  match filter f l with [] => existsb f l = false | _ => existsb f l = true end.
Proof.
  induction l as [|a l IH]; cbn; [reflexivity|].
  destruct (f a); cbn; [reflexivity|exact IH].
Qed.

(** The hourly generation once the summarizer has answered: the rollup is
    saved, then the range is thinned. *)
Lemma generate_hourly_persists (d : FocusLogDaemon) (now : Z) (api : api_result)
    (video_path_full : string) (video_success : bool) :
  let five := get_summaries_in_range (db d) "5min" (last_hourly_summary d) now in
  five <> [] ->
  startswith (generate_hourly_summary five api) "Error generating summary:" = false ->
  let db1 := fst (save_summary (db d) "hourly" (last_hourly_summary d) now
                    (generate_hourly_summary five api)
                    (attached_video d video_path_full video_success)) in
  _generate_hourly_summary d now api video_path_full video_success =
  match cleanup_screenshots_except_thumbnails db1 (last_hourly_summary d) now with
  | (db2, Done _) => set_last_hourly (set_db d db2) now
  | (db2, IntegrityError _) => set_db d db2
  end.
Proof.
  cbv zeta. intros Hne Hok. unfold _generate_hourly_summary; cbv zeta.
  destruct (get_summaries_in_range (db d) "5min" (last_hourly_summary d) now)
    as [|s ss] eqn:E; [congruence|].
  rewrite Hok. unfold attached_video.
  pose proof (filter_nil_existsb has_frame
                (get_captures_since (db d) (last_hourly_summary d) true)) as F.
  destruct (filter has_frame (get_captures_since (db d) (last_hourly_summary d) true));
    rewrite F; cbn [andb]; reflexivity.
Qed.

Lemma shared_window_in_wider_range (l : list capture_row) (s e e' : Z) :
  e <= e' ->
  NoDup (map window_of (filter (in_range s e') l)) ->
  NoDup (map window_of (filter (in_range s e) l)).
Proof.
  intros Hle. induction l as [|r l IH]; cbn [filter]; [trivial|].
  destruct (in_range s e r) eqn:E.
  - assert (E' : in_range s e' r = true).
    { unfold in_range in *. apply andb_prop in E. destruct E as [A B].
      apply Z.ltb_lt in B. rewrite A. cbn. apply Z.ltb_lt. lia. }
    rewrite E'. cbn [map]. intros N. inversion N as [|? ? Hnotin N']; subst.
    constructor; [|now apply IH].
    intros Hin. apply Hnotin. apply in_map_iff in Hin.
    destruct Hin as (r' & Ew & Hr'). apply filter_In in Hr'.
    destruct Hr' as [Hr' Hrange]. rewrite <- Ew. apply in_map.
    apply filter_In. split; [exact Hr'|].
    unfold in_range in *. apply andb_prop in Hrange. destruct Hrange as [A B].
    apply Z.ltb_lt in B. rewrite A. cbn. apply Z.ltb_lt. lia.
  - destruct (in_range s e' r); cbn [map]; intros N; [|now apply IH].
    inversion N; subst. now apply IH.
Qed.

(** The hourly generation when thinning raises. *)
Lemma generate_hourly_raised (d : FocusLogDaemon) (now : Z) (api : api_result)
    (video_path_full : string) (video_success : bool) :
  let five := get_summaries_in_range (db d) "5min" (last_hourly_summary d) now in
  screenshot_not_null (db d) = true ->
  ~ NoDup (map window_of
             (filter (in_range (last_hourly_summary d) now) (captures (db d)))) ->
  five <> [] ->
  startswith (generate_hourly_summary five api) "Error generating summary:" = false ->
  _generate_hourly_summary d now api video_path_full video_success =
  set_db d (fst (save_summary (db d) "hourly" (last_hourly_summary d) now
                   (generate_hourly_summary five api)
                   (attached_video d video_path_full video_success))).
Proof.
  cbv zeta. intros Hnn Hdup Hne Hok.
  rewrite (generate_hourly_persists d now api video_path_full video_success Hne Hok).
  rewrite cleanup_outcome; cbv zeta.
  set (db1 := fst (save_summary _ _ _ _ _ _)).
  assert (Hr : rows_of db1 (last_hourly_summary d) now
               = rows_of (db d) (last_hourly_summary d) now) by reflexivity.
  rewrite Hr.
  destruct (others None (rows_of (db d) (last_hourly_summary d) now)) eqn:Eo.
  - exfalso. apply Hdup. now apply others_nil_iff.
  - change (screenshot_not_null db1) with (screenshot_not_null (db d)).
    now rewrite Hnn.
Qed.

(** X19.  On a store whose payload column is [NOT NULL], an hourly window
    in which two samples share a 5-minute window is rolled up again and
    again: the generation saves its rollup, thinning raises, and the
    watermark stays where it was.  A later generation therefore saves a
    second hourly rollup with the same start time. *)
Theorem hourly_rollup_is_repeated_when_thinning_raises :
  forall (d : FocusLogDaemon) (now now2 : Z) (api api2 : api_result)
         (vp vp2 : string) (vs vs2 : bool),
    screenshot_not_null (db d) = true ->
    ~ NoDup (map window_of
               (filter (in_range (last_hourly_summary d) now) (captures (db d)))) ->
    get_summaries_in_range (db d) "5min" (last_hourly_summary d) now <> [] ->
    startswith
      (generate_hourly_summary
         (get_summaries_in_range (db d) "5min" (last_hourly_summary d) now) api)
      "Error generating summary:" = false ->
    let d1 := _generate_hourly_summary d now api vp vs in
    last_hourly_summary d1 = last_hourly_summary d /\
    captures (db d1) = captures (db d) /\
    (exists r1,
        summaries (db d1) = summaries (db d) ++ [r1] /\
        sum_type r1 = "hourly" /\
        sum_start_time r1 = last_hourly_summary d /\ sum_end_time r1 = now) /\
    (now <= now2 ->
     startswith
       (generate_hourly_summary
          (get_summaries_in_range (db d1) "5min" (last_hourly_summary d) now2) api2)
       "Error generating summary:" = false ->
     let d2 := _generate_hourly_summary d1 now2 api2 vp2 vs2 in
     last_hourly_summary d2 = last_hourly_summary d /\
     exists r1 r2,
       summaries (db d2) = summaries (db d) ++ [r1; r2] /\
       sum_type r1 = "hourly" /\ sum_type r2 = "hourly" /\
       sum_start_time r1 = last_hourly_summary d /\
       sum_start_time r2 = last_hourly_summary d /\
       sum_end_time r1 = now /\ sum_end_time r2 = now2).
Proof.
  intros d now now2 api api2 vp vp2 vs vs2 Hnn Hdup Hne Hok. cbv zeta.
  rewrite (generate_hourly_raised d now api vp vs Hnn Hdup Hne Hok).
  set (d1 := set_db d _).
  assert (W1 : last_hourly_summary d1 = last_hourly_summary d) by reflexivity.
  assert (C1 : captures (db d1) = captures (db d)) by reflexivity.
  split; [exact W1|]. split; [exact C1|]. split.
  - eexists. split; [reflexivity|]. cbn. now repeat split.
  - intros Hle Hok2.
    assert (Hne2 : get_summaries_in_range (db d1) "5min" (last_hourly_summary d1) now2
                   <> []).
    { destruct (get_summaries_in_range (db d) "5min" (last_hourly_summary d) now)
        as [|s ss] eqn:E; [congruence|].
      assert (Hs : In s (get_summaries_in_range (db d) "5min"
                           (last_hourly_summary d) now)) by (rewrite E; now left).
      apply get_summaries_in_range_In in Hs.
      destruct Hs as (r & Hr & -> & Ht & Hs & He).
      intros Habs.
      assert (Hin : In (summary_dict_of r)
                      (get_summaries_in_range (db d1) "5min"
                         (last_hourly_summary d1) now2)).
      { apply get_summaries_in_range_In. exists r.
        repeat split; try assumption; [|lia].
        subst d1. cbn. apply in_or_app. now left. }
      rewrite Habs in Hin. destruct Hin. }
    assert (Hdup2 : ~ NoDup (map window_of
                               (filter (in_range (last_hourly_summary d1) now2)
                                  (captures (db d1))))).
    { rewrite W1, C1. intros N. apply Hdup.
      now apply (shared_window_in_wider_range _ _ now now2). }
    rewrite (generate_hourly_raised d1 now2 api2 vp2 vs2 Hnn Hdup2 Hne2 Hok2).
    split; [reflexivity|].
    eexists _, _. split.
    + cbn. rewrite <- app_assoc. reflexivity.
    + cbn. now repeat split.
Qed.

Lemma hourly_rollup_is_repeated_when_thinning_raises_witness :
  last_hourly_summary
    (_generate_hourly_summary hour_one 3600 (good_answer "A quiet hour.")
       "videos/focuslog.mp4" true)
  = last_hourly_summary hour_one.
Proof.
  refine (proj1 (hourly_rollup_is_repeated_when_thinning_raises hour_one 3600 3615
                   (good_answer "A quiet hour.") (good_answer "A quiet hour.")
                   "videos/focuslog.mp4" "videos/focuslog.mp4" true true
                   _ _ _ _)).
  - reflexivity.
  - intros N. vm_compute in N. inversion N as [|? ? Hnotin _]. apply Hnotin.
    now left.
  - vm_compute. discriminate.
  - vm_compute. reflexivity.
Defined.

Lemma check_and_generate_running (d : FocusLogDaemon) (env : summaries_env) :
  running (_check_and_generate_summaries d env) = running d.
Proof.
  unfold _check_and_generate_summaries; cbv zeta.
  destruct (3600 <=? _);
    [match goal with
     | |- context [_generate_hourly_summary ?a ?b ?c ?e ?f] =>
         destruct (generate_hourly_watermarks a b c e f) as (_ & _ & ->)
     end|];
    destruct (300 <=? _); try reflexivity;
    now destruct (generate_5min_watermarks d (se_now_5min env) (se_api_5min env))
      as (_ & _ & ->).
Qed.

Lemma run_iteration_running (st : loop_state) (env : tick_env) :
  running (daemon (run_iteration st env))
  = if stop_requested env then false else running (daemon st).
Proof.
  unfold run_iteration; cbv zeta; cbn [daemon].
  destruct (stop_requested env); cbn [running]; [reflexivity|].
  rewrite check_and_generate_running.
  now destruct (_capture_and_classify_rows (daemon st) (te_capture env))
    as (rows & _ & _ & _ & _ & _ & _ & ->).
Qed.

Lemma run_iteration_counts (st : loop_state) (env : tick_env) :
  iteration (run_iteration st env) = iteration st + 1.
Proof. reflexivity. Qed.

(** X20.  A stop request taken once an iteration's work is done ends the
    loop at the next test of [running]: no later iteration is started,
    whatever inputs are waiting, and the iteration counter is the number of
    iterations made. *)
Theorem stop_request_ends_the_loop :
  forall (pre : list tick_env) (st : loop_state) (env : tick_env)
         (rest : list tick_env),
    running (daemon st) = true ->
    Forall (fun e => stop_requested e = false) pre ->
    stop_requested env = true ->
    run_loop st (pre ++ env :: rest) = run_loop st (pre ++ [env]) /\
    running (daemon (run_loop st (pre ++ env :: rest))) = false /\
    iteration (run_loop st (pre ++ env :: rest))
      = iteration st + Z.of_nat (List.length pre) + 1.
Proof.
  induction pre as [|e pre IH]; intros st env rest Hrun Hpre Hstop.
  - cbn [app run_loop List.length]. rewrite Hrun.
    assert (R : running (daemon (run_iteration st env)) = false)
      by (rewrite run_iteration_running; now rewrite Hstop).
    destruct rest as [|e' rest]; cbn [run_loop]; rewrite ?R;
      repeat split; try assumption; rewrite run_iteration_counts; lia.
  - inversion Hpre as [|? ? He Hpre']; subst.
    cbn [app run_loop List.length]. rewrite Hrun.
    assert (R : running (daemon (run_iteration st e)) = true)
      by (rewrite run_iteration_running; now rewrite He).
    destruct (IH (run_iteration st e) env rest R Hpre' Hstop) as (A & B & C).
    repeat split; try assumption. rewrite C, run_iteration_counts. lia.
Qed.

Lemma stop_request_ends_the_loop_witness :
  iteration
    (run_loop loop_start
       [tick 0 1;
        mk_tick_env 0 0 1 (te_capture (tick 15 1)) (te_summaries (tick 15 1)) true;
        tick 30 1; tick 45 1])
  = 2.
Proof.
  apply (stop_request_ends_the_loop [tick 0 1] loop_start
           (mk_tick_env 0 0 1 (te_capture (tick 15 1)) (te_summaries (tick 15 1)) true)
           [tick 30 1; tick 45 1]).
  - reflexivity.
  - repeat constructor.
  - reflexivity.
Defined.

End HourlyFacts.

(** ** The backfill script *)

Module BackfillFacts.
Import Database Summarizer Rollups Integrity DatabaseQueries Retention
  DaemonNotions Scenarios Backfill BackfillScenarios DatabaseFacts
  SummarizerFacts IntegrityFacts QueryFacts StatisticsFacts RunFacts.

Ltac parts := split; [|split; [|split; [|split; [|split]]]].

Lemma other_tables_kept_refl (db_ : FocusLogDB) : other_tables_kept db_ db_.
Proof. now repeat split. Qed.

Lemma other_tables_kept_trans (a b c : FocusLogDB) :
  other_tables_kept a b -> other_tables_kept b c -> other_tables_kept a c.
Proof.
  unfold other_tables_kept.
  intros (A1 & A2 & A3 & A4 & A5 & A6) (B1 & B2 & B3 & B4 & B5 & B6).
  repeat split; congruence.
Qed.

Lemma save_summary_other_tables (db_ : FocusLogDB) (ty : string) (s e : Z)
    (content : string) (video_path : option string) :
  other_tables_kept db_ (fst (save_summary db_ ty s e content video_path)).
Proof. now repeat split. Qed.

(** The window fetch is empty exactly when no row falls in the window. *)
Lemma window_captures_nil (db_ : FocusLogDB) (s e : Z) :
  window_captures db_ s e = [] <->
  forall r, In r (captures db_) -> in_range s e r = false.
Proof.
  unfold window_captures. split.
  - intros H r Hr. apply map_eq_nil, order_by_nil in H.
    destruct (in_range s e r) eqn:E; [|reflexivity].
    assert (Hin : In r (filter (in_range s e) (captures db_)))
      by (apply filter_In; now split).
    rewrite H in Hin. destruct Hin.
  - intros H.
    assert (F : filter (in_range s e) (captures db_) = []).
    { destruct (filter (in_range s e) (captures db_)) as [|r l] eqn:E;
        [reflexivity|].
      assert (Hin : In r (filter (in_range s e) (captures db_)))
        by (rewrite E; now left).
      apply filter_In in Hin. destruct Hin as [Hr Hrange].
      rewrite (H r Hr) in Hrange. discriminate. }
    rewrite F. reflexivity.
Qed.

Lemma window_captures_cons (db_ : FocusLogDB) (s e : Z) (d : capture_dict)
    (ds : list capture_dict) :
  window_captures db_ s e = d :: ds ->
  exists r, In r (captures db_) /\ s <= cap_timestamp r < e.
Proof.
  intros H.
  destruct (filter (in_range s e) (captures db_)) as [|r l] eqn:E.
  - unfold window_captures in H. rewrite E in H. discriminate.
  - assert (Hin : In r (filter (in_range s e) (captures db_)))
      by (rewrite E; now left).
    apply filter_In in Hin. destruct Hin as [Hr Hrange].
    unfold in_range in Hrange. apply andb_prop in Hrange.
    destruct Hrange as [A B]. apply Z.leb_le in A. apply Z.ltb_lt in B.
    exists r. split; [exact Hr|lia].
Qed.

(** *** The 5-minute loop *)

Lemma five_min_loop_returns (api : Z -> api_result) (last : Z) :
  forall (f : nat) (db_ : FocusLogDB) (cur c : Z),
    last - cur <= 300 * Z.of_nat f ->
    exists r, five_min_loop (S f) db_ cur last api c = Some r.
Proof.
  induction f as [|f IH]; intros db_ cur c H; cbn [five_min_loop].
  - destruct (cur <? last) eqn:E; [apply Z.ltb_lt in E; lia|now eexists].
  - destruct (cur <? last) eqn:E; [|now eexists].
    destruct (window_captures db_ cur (cur + 300)); apply IH; lia.
Qed.

Lemma five_min_loop_more_fuel (api : Z -> api_result) (last : Z) :
  forall (f f' : nat) (db_ : FocusLogDB) (cur c : Z) (r : FocusLogDB * Z),
    five_min_loop f db_ cur last api c = Some r ->
    (f <= f')%nat ->
    five_min_loop f' db_ cur last api c = Some r.
Proof.
  induction f as [|f IH]; intros f' db_ cur c r H Hle; [discriminate|].
  destruct f' as [|f']; [lia|]. cbn [five_min_loop] in *.
  destruct (cur <? last); [|exact H].
  destruct (window_captures db_ cur (cur + 300));
    (apply (IH f'); [exact H|lia]).
Qed.

Lemma five_min_loop_rows (api : Z -> api_result) (first last : Z) :
  forall (f : nat) (db_ : FocusLogDB) (cur c : Z) (db' : FocusLogDB) (c' : Z),
    (exists k, 0 <= k /\ cur = first + 300 * k) ->
    five_min_loop f db_ cur last api c = Some (db', c') ->
    exists added,
      summaries db' = summaries db_ ++ added /\
      other_tables_kept db_ db' /\
      c' = c + Z.of_nat (List.length added) /\
      Forall (fun s => backfilled_5min db_ first last api s /\
                       cur <= sum_start_time s) added /\
      StronglySorted precedes added /\
      (forall r k, In r (captures db_) -> 0 <= k ->
                   cur + 300 * k <= cap_timestamp r < cur + 300 * (k + 1) ->
                   cur + 300 * k < last ->
                   exists s, In s added /\ sum_start_time s = cur + 300 * k /\
                             covers s r).
Proof.
  induction f as [|f IH]; intros db_ cur c db' c' (k0 & Hk0 & Hcur) H;
    [discriminate|].
  cbn [five_min_loop] in H.
  destruct (cur <? last) eqn:E.
  - apply Z.ltb_lt in E.
    assert (Hnext : exists k, 0 <= k /\ cur + 300 = first + 300 * k)
      by (exists (k0 + 1); split; lia).
    destruct (window_captures db_ cur (cur + 300)) as [|d ds] eqn:W.
    + destruct (IH db_ (cur + 300) c db' c' Hnext H)
        as (added & S & O & C & F & St & Cov).
      exists added. parts; try assumption.
      * eapply Forall_impl; [|exact F]. cbn. intros s [A B]. split; [exact A|lia].
      * intros r k Hr Hk Hw Hlt.
        assert (k = 0 \/ 1 <= k) as [->|Hk1] by lia.
        -- exfalso. pose proof (proj1 (window_captures_nil db_ cur (cur + 300)) W r Hr)
             as N.
           unfold in_range in N. apply andb_false_iff in N.
           destruct N as [N|N]; [apply Z.leb_gt in N|apply Z.ltb_ge in N]; lia.
        -- destruct (Cov r (k - 1) Hr ltac:(lia) ltac:(lia) ltac:(lia))
             as (s & Hs & Hst & Hc).
           exists s. split; [exact Hs|]. split; [lia|exact Hc].
    + set (row := mk_summary (summaries_seq db_ + 1) "5min" cur (cur + 300)
                    (generate_5min_summary (d :: ds) (api cur)) None) in *.
      unfold save_summary in H. cbv zeta in H.
      destruct (IH _ (cur + 300) (c + 1) db' c' Hnext H)
        as (added & S & O & C & F & St & Cov).
      cbn [summaries set_summaries captures] in S, F, Cov.
      fold row in S.
      assert (Hrow : backfilled_5min db_ first last api row).
      { unfold backfilled_5min, covers; cbn.
        destruct (window_captures_cons db_ cur (cur + 300) d ds W) as (r & Hr & Hw).
        repeat split; try reflexivity; try lia.
        - exists k0. split; [exact Hk0|exact Hcur].
        - exists r. split; [exact Hr|exact Hw]. }
      exists (row :: added). parts.
      * rewrite S, <- app_assoc. reflexivity.
      * eapply other_tables_kept_trans; [|exact O]. now repeat split.
      * cbn [List.length]. lia.
      * constructor.
        -- split; [exact Hrow|cbn; lia].
        -- eapply Forall_impl; [|exact F]. cbn. intros s [A B]. split; [exact A|lia].
      * constructor; [exact St|].
        eapply Forall_impl; [|exact F]. cbn. intros s [_ B].
        unfold precedes. cbn. lia.
      * intros r k Hr Hk Hw Hlt.
        assert (k = 0 \/ 1 <= k) as [->|Hk1] by lia.
        -- exists row. split; [now left|]. unfold covers; cbn. split; lia.
        -- destruct (Cov r (k - 1) Hr ltac:(lia) ltac:(lia) ltac:(lia))
             as (s & Hs & Hst & Hc).
           exists s. split; [now right|]. split; [lia|exact Hc].
  - injection H as <- <-. exists []. rewrite app_nil_r.
    parts; try constructor; try apply other_tables_kept_refl.
    + cbn. lia.
    + intros r k _ Hk _ Hlt. apply Z.ltb_ge in E. lia.
Qed.

(** *** The hourly loop *)

Lemma hourly_loop_returns (api : Z -> api_result) (last : Z) :
  forall (f : nat) (db_ : FocusLogDB) (cur c : Z),
    last - cur <= 300 * Z.of_nat f ->
    exists r, hourly_loop (S f) db_ cur last api c = Some r.
Proof.
  induction f as [|f IH]; intros db_ cur c H; cbn [hourly_loop].
  - destruct (cur <? last) eqn:E; [apply Z.ltb_lt in E; lia|now eexists].
  - destruct (cur <? last) eqn:E; [|now eexists].
    destruct (get_summaries_in_range db_ "5min" cur (cur + 3600)); apply IH; lia.
Qed.

Lemma hourly_loop_more_fuel (api : Z -> api_result) (last : Z) :
  forall (f f' : nat) (db_ : FocusLogDB) (cur c : Z) (r : FocusLogDB * Z),
    hourly_loop f db_ cur last api c = Some r ->
    (f <= f')%nat ->
    hourly_loop f' db_ cur last api c = Some r.
Proof.
  induction f as [|f IH]; intros f' db_ cur c r H Hle; [discriminate|].
  destruct f' as [|f']; [lia|]. cbn [hourly_loop] in *.
  destruct (cur <? last); [|exact H].
  destruct (get_summaries_in_range db_ "5min" cur (cur + 3600));
    (apply (IH f'); [exact H|lia]).
Qed.

Lemma hourly_loop_rows (api : Z -> api_result) (first last : Z) :
  forall (f : nat) (db_ : FocusLogDB) (cur c : Z) (db' : FocusLogDB) (c' : Z),
    (exists k, 0 <= k /\ cur = first + 3600 * k) ->
    hourly_loop f db_ cur last api c = Some (db', c') ->
    exists added,
      summaries db' = summaries db_ ++ added /\
      other_tables_kept db_ db' /\
      c' = c + Z.of_nat (List.length added) /\
      Forall (fun h => backfilled_hourly db_ first last api h /\
                       cur <= sum_start_time h) added /\
      StronglySorted precedes added /\
      (forall s k, In s (summaries db_) -> sum_type s = "5min" -> 0 <= k ->
                   cur + 3600 * k <= sum_start_time s ->
                   sum_end_time s <= cur + 3600 * (k + 1) ->
                   cur + 3600 * k < last ->
                   exists h, In h added /\ sum_start_time h = cur + 3600 * k /\
                             within h s).
Proof.
  induction f as [|f IH]; intros db_ cur c db' c' (k0 & Hk0 & Hcur) H;
    [discriminate|].
  cbn [hourly_loop] in H.
  destruct (cur <? last) eqn:E.
  - apply Z.ltb_lt in E.
    assert (Hnext : exists k, 0 <= k /\ cur + 3600 = first + 3600 * k)
      by (exists (k0 + 1); split; lia).
    destruct (get_summaries_in_range db_ "5min" cur (cur + 3600)) as [|d ds] eqn:W.
    + destruct (IH db_ (cur + 3600) c db' c' Hnext H)
        as (added & S & O & C & F & St & Cov).
      exists added. parts; try assumption.
      * eapply Forall_impl; [|exact F]. cbn. intros s [A B]. split; [exact A|lia].
      * intros s k Hs Ht Hk Hlo Hhi Hlt.
        assert (k = 0 \/ 1 <= k) as [->|Hk1] by lia.
        -- exfalso.
           assert (Hin : In (summary_dict_of s)
                           (get_summaries_in_range db_ "5min" cur (cur + 3600))).
           { apply get_summaries_in_range_In. exists s.
             split; [exact Hs|]. split; [reflexivity|]. split; [exact Ht|]. lia. }
           rewrite W in Hin. destruct Hin.
        -- destruct (Cov s (k - 1) Hs Ht ltac:(lia) ltac:(lia) ltac:(lia) ltac:(lia))
             as (h & Hh & Hst & Hw).
           exists h. split; [exact Hh|]. split; [lia|exact Hw].
    + assert (Hd : In d (get_summaries_in_range db_ "5min" cur (cur + 3600)))
        by (rewrite W; now left).
      apply get_summaries_in_range_In in Hd.
      destruct Hd as (s0 & Hs0 & _ & Ht0 & Hlo0 & Hhi0).
      set (row := mk_summary (summaries_seq db_ + 1) "hourly" cur (cur + 3600)
                    (generate_hourly_summary (d :: ds) (api cur)) None) in *.
      unfold save_summary in H. cbv zeta in H.
      destruct (IH _ (cur + 3600) (c + 1) db' c' Hnext H)
        as (added & S & O & C & F & St & Cov).
      cbn [summaries set_summaries] in S, Cov.
      fold row in S, Cov.
      assert (Hrow : backfilled_hourly db_ first last api row).
      { unfold backfilled_hourly, within; cbn.
        repeat split; try reflexivity; try lia.
        - exists k0. split; [exact Hk0|exact Hcur].
        - exists s0. repeat split; assumption. }
      assert (Hold : forall h,
                 backfilled_hourly
                   (set_summaries db_ (summaries db_ ++ [row]) (summaries_seq db_ + 1))
                   first last api h ->
                 backfilled_hourly db_ first last api h).
      { intros h (A1 & A2 & A3 & A4 & A5 & A6 & s & Hs & Ht & Hw).
        unfold backfilled_hourly. repeat split; try assumption.
        exists s. split; [|now split].
        cbn [summaries set_summaries] in Hs. apply in_app_or in Hs.
        destruct Hs as [Hs|[<-|[]]]; [exact Hs|]. cbn in Ht. discriminate. }
      exists (row :: added). parts.
      * rewrite S, <- app_assoc. reflexivity.
      * eapply other_tables_kept_trans; [|exact O]. now repeat split.
      * cbn [List.length]. lia.
      * constructor.
        -- split; [exact Hrow|cbn; lia].
        -- eapply Forall_impl; [|exact F]. cbn. intros h [A B].
           split; [now apply Hold|lia].
      * constructor; [exact St|].
        eapply Forall_impl; [|exact F]. cbn. intros h [_ B].
        unfold precedes. cbn. lia.
      * intros s k Hs Ht Hk Hlo Hhi Hlt.
        assert (k = 0 \/ 1 <= k) as [->|Hk1] by lia.
        -- exists row. split; [now left|]. unfold within; cbn. repeat split; lia.
        -- destruct (Cov s (k - 1) ltac:(apply in_or_app; now left) Ht
                       ltac:(lia) ltac:(lia) ltac:(lia) ltac:(lia))
             as (h & Hh & Hst & Hw).
           exists h. split; [now right|]. split; [lia|exact Hw].
  - injection H as <- <-. exists []. rewrite app_nil_r.
    parts; try constructor; try apply other_tables_kept_refl.
    + cbn. lia.
    + intros s k _ _ Hk _ _ Hlt. apply Z.ltb_ge in E. lia.
Qed.

(** *** The run *)

(** [MIN] and [MAX] of the timestamps bound every row and are attained. *)
Lemma capture_range (db_ : FocusLogDB) (first last : Z) :
  sql_min (map cap_timestamp (captures db_)) = Some first ->
  sql_max (map cap_timestamp (captures db_)) = Some last ->
  (forall r, In r (captures db_) -> first <= cap_timestamp r <= last) /\
  (exists r, In r (captures db_) /\ cap_timestamp r = first) /\
  (exists r, In r (captures db_) /\ cap_timestamp r = last).
Proof.
  destruct (captures db_) as [|r0 rs]; [discriminate|].
  cbn [map sql_min sql_max]. intros [= <-] [= <-].
  destruct (fold_min_spec (map cap_timestamp rs) (cap_timestamp r0)) as (A1 & A2 & A3).
  destruct (fold_max_spec (map cap_timestamp rs) (cap_timestamp r0)) as (B1 & B2 & B3).
  rewrite Forall_forall in A2, B2.
  split; [|split].
  - intros r [<-|Hr]; [lia|].
    pose proof (A2 _ (in_map cap_timestamp _ _ Hr)).
    pose proof (B2 _ (in_map cap_timestamp _ _ Hr)). lia.
  - change (cap_timestamp r0 :: map cap_timestamp rs)
      with (map cap_timestamp (r0 :: rs)) in A3.
    apply in_map_iff in A3. destruct A3 as (r & E & Hr). now exists r.
  - change (cap_timestamp r0 :: map cap_timestamp rs)
      with (map cap_timestamp (r0 :: rs)) in B3.
    apply in_map_iff in B3. destruct B3 as (r & E & Hr). now exists r.
Qed.

(** What a completed run has done. *)
Lemma backfill_complete (fuel : nat) (db_ db' : FocusLogDB) (env : backfill_env)
    (c5 ch : Z) :
  backfill_summaries fuel db_ env = Some (db', Complete c5 ch) ->
  exists first last db1 five hourly,
    sql_min (map cap_timestamp (captures db_)) = Some first /\
    sql_max (map cap_timestamp (captures db_)) = Some last /\
    String.eqb (lower (response_ env)) "y" = true /\
    five_min_loop fuel db_ first last (api_5min env) 0 = Some (db1, c5) /\
    hourly_loop fuel db1 first last (api_hourly env) 0 = Some (db', ch) /\
    summaries db1 = summaries db_ ++ five /\
    summaries db' = summaries db_ ++ five ++ hourly /\
    other_tables_kept db_ db1 /\
    other_tables_kept db_ db' /\
    c5 = Z.of_nat (List.length five) /\
    ch = Z.of_nat (List.length hourly) /\
    Forall (backfilled_5min db_ first last (api_5min env)) five /\
    Forall (backfilled_hourly db1 first last (api_hourly env)) hourly /\
    StronglySorted precedes five /\
    StronglySorted precedes hourly.
Proof.
  unfold backfill_summaries.
  destruct (sql_min (map cap_timestamp (captures db_))) as [first|] eqn:Emin;
    [|discriminate].
  destruct (sql_max (map cap_timestamp (captures db_))) as [last|] eqn:Emax;
    [|discriminate].
  destruct (String.eqb (lower (response_ env)) "y") eqn:Ey; cbn [negb];
    [|discriminate].
  destruct (five_min_loop fuel db_ first last (api_5min env) 0)
    as [[db1 c5']|] eqn:E5; [|discriminate].
  destruct (hourly_loop fuel db1 first last (api_hourly env) 0)
    as [[db2 ch']|] eqn:Eh; [|discriminate].
  intros [= <- <- <-].
  destruct (five_min_loop_rows (api_5min env) first last fuel db_ first 0 db1 c5')
    as (five & S5 & O5 & C5 & F5 & St5 & _); [exists 0; split; lia|exact E5|].
  destruct (hourly_loop_rows (api_hourly env) first last fuel db1 first 0 db2 ch')
    as (hourly & Sh & Oh & Ch & Fh & Sth & _); [exists 0; split; lia|exact Eh|].
  exists first, last, db1, five, hourly.
  repeat match goal with |- _ /\ _ => split end; try assumption; try reflexivity.
  - rewrite Sh, S5, <- app_assoc. reflexivity.
  - eapply other_tables_kept_trans; eassumption.
  - eapply Forall_impl; [|exact F5]. cbn. now intros s [A _].
  - eapply Forall_impl; [|exact Fh]. cbn. now intros s [A _].
Qed.

Lemma appended_app (db_ db' : FocusLogDB) (added : list summary_row) :
  summaries db' = summaries db_ ++ added -> appended db_ db' = added.
Proof.
  intros H. unfold appended. rewrite H.
  rewrite skipn_app, skipn_all, Nat.sub_diag. reflexivity.
Qed.

(** X21.  The backfill returns.  With fuel for one more test of the loop
    condition than there are 5-minute steps between the first and the last
    capture, the run leaves both loops, and no larger fuel changes what it
    returns. *)
Theorem backfill_returns :
  forall (fuel : nat) (db_ : FocusLogDB) (env : backfill_env),
    (forall first last,
        sql_min (map cap_timestamp (captures db_)) = Some first ->
        sql_max (map cap_timestamp (captures db_)) = Some last ->
        last - first + 300 <= 300 * Z.of_nat fuel) ->
    exists out,
      backfill_summaries fuel db_ env = Some out /\
      forall fuel', (fuel <= fuel')%nat ->
                    backfill_summaries fuel' db_ env = Some out.
Proof.
  intros fuel db_ env H. unfold backfill_summaries.
  destruct (sql_min (map cap_timestamp (captures db_))) as [first|] eqn:Emin;
    [|now eexists].
  destruct (sql_max (map cap_timestamp (captures db_))) as [last|] eqn:Emax;
    [|now eexists].
  destruct (negb (String.eqb (lower (response_ env)) "y")); [now eexists|].
  specialize (H first last eq_refl eq_refl).
  destruct (capture_range db_ first last Emin Emax) as (_ & (r & Hr & Hfirst) & _).
  destruct (capture_range db_ first last Emin Emax) as (Hb & _).
  pose proof (Hb r Hr) as Hrange.
  destruct fuel as [|f]; [lia|].
  destruct (five_min_loop_returns (api_5min env) last f db_ first 0 ltac:(lia))
    as ([db1 c5] & E5).
  destruct (hourly_loop_returns (api_hourly env) last f db1 first 0 ltac:(lia))
    as ([db2 ch] & Eh).
  rewrite E5, Eh. eexists. split; [reflexivity|].
  intros fuel' Hle.
  rewrite (five_min_loop_more_fuel _ _ _ fuel' _ _ _ _ E5 Hle).
  rewrite (hourly_loop_more_fuel _ _ _ fuel' _ _ _ _ Eh Hle).
  reflexivity.
Qed.

Lemma backfill_returns_witness :
  exists out,
    backfill_summaries 3 three_captures answered = Some out /\
    backfill_summaries 12 three_captures answered = Some out.
Proof.
  destruct (backfill_returns 3 three_captures answered) as (out & E & More).
  - intros first last Hmin Hmax. vm_compute in Hmin, Hmax.
    injection Hmin as <-. injection Hmax as <-. lia.
  - exists out. split; [exact E|]. apply More. repeat constructor.
Defined.

(** X22.  A completed run only appends to [summaries]: first the 5-minute
    rollups, then the hourly ones, each group in window order with windows
    that do not overlap, every window on the grid anchored at the first
    capture and started before the last one.  A 5-minute window is written
    only when it holds a capture, an hourly one only when a 5-minute rollup
    lies in it, and the two counts the run prints are the numbers of rows
    appended.  Every other table is left as it was. *)
Theorem backfill_appends_rollups_on_the_grid :
  forall (fuel : nat) (db_ db' : FocusLogDB) (env : backfill_env)
         (five_min_count hourly_count first last : Z),
    backfill_summaries fuel db_ env = Some (db', Complete five_min_count hourly_count) ->
    sql_min (map cap_timestamp (captures db_)) = Some first ->
    sql_max (map cap_timestamp (captures db_)) = Some last ->
    other_tables_kept db_ db' /\
    exists db1 five hourly,
      summaries db1 = summaries db_ ++ five /\
      summaries db' = summaries db_ ++ five ++ hourly /\
      five_min_count = Z.of_nat (List.length five) /\
      hourly_count = Z.of_nat (List.length hourly) /\
      Forall (backfilled_5min db_ first last (api_5min env)) five /\
      Forall (backfilled_hourly db1 first last (api_hourly env)) hourly /\
      StronglySorted precedes five /\
      StronglySorted precedes hourly.
Proof.
  intros fuel db_ db' env c5 ch first last H Hmin Hmax.
  destruct (backfill_complete fuel db_ db' env c5 ch H)
    as (first' & last' & db1 & five & hourly & Emin & Emax & _ & _ & _ &
        S1 & S & _ & O & C5 & Ch & F5 & Fh & St5 & Sth).
  assert (first' = first) by congruence. assert (last' = last) by congruence.
  subst first' last'. split; [exact O|].
  exists db1, five, hourly.
  repeat match goal with |- _ /\ _ => split end; assumption.
Qed.

Lemma backfill_appends_rollups_on_the_grid_witness :
  other_tables_kept three_captures (store_after 3 three_captures answered).
Proof.
  refine (proj1 (backfill_appends_rollups_on_the_grid 3 three_captures
                   (store_after 3 three_captures answered) answered 2 1 0 400
                   _ _ _)).
  - vm_compute. reflexivity.
  - vm_compute. reflexivity.
  - vm_compute. reflexivity.
Defined.

(** A completed run has made the 5-minute rollup of every window of the
    grid that starts before the last capture and holds a capture. *)
Lemma backfill_covers (fuel : nat) (db_ db' : FocusLogDB) (env : backfill_env)
    (c5 ch first last : Z) :
  backfill_summaries fuel db_ env = Some (db', Complete c5 ch) ->
  sql_min (map cap_timestamp (captures db_)) = Some first ->
  sql_max (map cap_timestamp (captures db_)) = Some last ->
  forall r k, In r (captures db_) -> 0 <= k ->
              first + 300 * k <= cap_timestamp r < first + 300 * (k + 1) ->
              first + 300 * k < last ->
              exists s, In s (appended db_ db') /\
                        backfilled_5min db_ first last (api_5min env) s /\
                        sum_start_time s = first + 300 * k /\ covers s r.
Proof.
  intros H Hmin Hmax r k Hr Hk Hw Hlt.
  destruct (backfill_complete fuel db_ db' env c5 ch H)
    as (first' & last' & db1 & five & hourly & Emin & Emax & _ & E5 & _ &
        S1 & S & _).
  assert (first' = first) by congruence. assert (last' = last) by congruence.
  subst first' last'.
  destruct (five_min_loop_rows (api_5min env) first last fuel db_ first 0 db1 c5)
    as (five' & S5 & _ & _ & F5 & _ & Cov); [exists 0; split; lia|exact E5|].
  assert (five' = five) by (rewrite S5 in S1; now apply app_inv_head in S1).
  subst five'.
  destruct (Cov r k Hr Hk Hw Hlt) as (s & Hs & Hst & Hc).
  exists s. rewrite (appended_app db_ db' _ S).
  rewrite Forall_forall in F5. destruct (F5 s Hs) as [B _].
  split; [apply in_or_app; now left|]. split; [exact B|]. split; [lia|exact Hc].
Qed.

(** X23.  Which captures a completed run rolls up.  A capture falls in the
    window of an appended 5-minute rollup exactly when it was taken before
    the last capture, or when the span from the first capture to the last
    is not a whole number of 5-minute steps.  When it is a whole number,
    the loop ends before the window of the last capture. *)
Theorem backfill_leaves_out_the_last_capture_on_a_whole_span :
  forall (fuel : nat) (db_ db' : FocusLogDB) (env : backfill_env)
         (five_min_count hourly_count first last : Z) (r : capture_row),
    backfill_summaries fuel db_ env = Some (db', Complete five_min_count hourly_count) ->
    sql_min (map cap_timestamp (captures db_)) = Some first ->
    sql_max (map cap_timestamp (captures db_)) = Some last ->
    In r (captures db_) ->
    ((exists s, In s (appended db_ db') /\ sum_type s = "5min" /\ covers s r) <->
     (cap_timestamp r < last \/ (last - first) mod 300 <> 0)).
Proof.
  intros fuel db_ db' env c5 ch first last r H Hmin Hmax Hr.
  destruct (capture_range db_ first last Hmin Hmax) as (Hb & _).
  pose proof (Hb r Hr) as Hrange.
  split.
  - intros (s & Hs & Ht & Hc).
    destruct (backfill_complete fuel db_ db' env c5 ch H)
      as (first' & last' & db1 & five & hourly & Emin & Emax & _ & _ & _ &
          _ & S & _ & _ & _ & _ & F5 & Fh & _).
    assert (first' = first) by congruence. assert (last' = last) by congruence.
    subst first' last'.
    rewrite (appended_app db_ db' _ S) in Hs. apply in_app_or in Hs.
    destruct Hs as [Hs|Hs].
    + rewrite Forall_forall in F5.
      destruct (F5 s Hs) as (_ & _ & (k & Hk & Hst) & Hlt & Hend & _).
      unfold covers in Hc.
      destruct (Z.eq_dec ((last - first) mod 300) 0) as [Hm|Hm]; [|now right].
      left. pose proof (Z.div_mod (last - first) 300 ltac:(lia)) as D.
      rewrite Hm in D. lia.
    + rewrite Forall_forall in Fh. destruct (Fh s Hs) as (Ht' & _). congruence.
  - intros Hcase.
    pose proof (Z.div_mod (cap_timestamp r - first) 300 ltac:(lia)) as D.
    pose proof (Z.mod_pos_bound (cap_timestamp r - first) 300 ltac:(lia)) as M.
    assert (Hk : 0 <= (cap_timestamp r - first) / 300)
      by (apply Z.div_pos; lia).
    assert (Hlt : first + 300 * ((cap_timestamp r - first) / 300) < last).
    { destruct Hcase as [Hc|Hc]; [lia|].
      assert (cap_timestamp r = last \/ cap_timestamp r < last) as [E|E] by lia;
        [|lia].
      rewrite E in *. lia. }
    destruct (backfill_covers fuel db_ db' env c5 ch first last H Hmin Hmax
                r ((cap_timestamp r - first) / 300) Hr Hk ltac:(lia) Hlt)
      as (s & Hs & (Ht & _) & _ & Hc).
    now exists s.
Qed.

Lemma backfill_leaves_out_the_last_capture_on_a_whole_span_witness :
  (exists s, In s (appended twenty_one_captures
                     (store_after 3 twenty_one_captures answered)) /\
             sum_type s = "5min" /\
             covers s (mk_capture 21 300 (Some png) (Some "editing a report")
                         (Some "{}") None)) <->
  (300 < 300 \/ (300 - 0) mod 300 <> 0).
Proof.
  apply (backfill_leaves_out_the_last_capture_on_a_whole_span 3
           twenty_one_captures (store_after 3 twenty_one_captures answered)
           answered 1 1 0 300).
  - vm_compute. reflexivity.
  - vm_compute. reflexivity.
  - vm_compute. reflexivity.
  - vm_compute. do 20 right. now left.
Defined.

(** X24.  The backfill persists a failed generation.  When the summarizer
    call for the window of a capture does not complete, a completed run has
    appended a 5-minute rollup for that window whose content is the
    summarizer's failure text: the script saves whatever the summarizer
    returns. *)
Theorem backfill_persists_failure_texts :
  forall (fuel : nat) (db_ db' : FocusLogDB) (env : backfill_env)
         (five_min_count hourly_count first last : Z) (r : capture_row),
    backfill_summaries fuel db_ env = Some (db', Complete five_min_count hourly_count) ->
    sql_min (map cap_timestamp (captures db_)) = Some first ->
    sql_max (map cap_timestamp (captures db_)) = Some last ->
    In r (captures db_) ->
    cap_timestamp r < last ->
    completed (api_5min env (first + 300 * ((cap_timestamp r - first) / 300))) = None ->
    exists s,
      In s (summaries db') /\ sum_type s = "5min" /\ covers s r /\
      startswith (sum_content s) "Error generating summary:" = true.
Proof.
  intros fuel db_ db' env c5 ch first last r H Hmin Hmax Hr Hlast Hfail.
  destruct (capture_range db_ first last Hmin Hmax) as (Hb & _).
  pose proof (Hb r Hr) as Hrange.
  pose proof (Z.div_mod (cap_timestamp r - first) 300 ltac:(lia)) as D.
  pose proof (Z.mod_pos_bound (cap_timestamp r - first) 300 ltac:(lia)) as M.
  assert (Hk : 0 <= (cap_timestamp r - first) / 300) by (apply Z.div_pos; lia).
  destruct (backfill_covers fuel db_ db' env c5 ch first last H Hmin Hmax
              r ((cap_timestamp r - first) / 300) Hr Hk ltac:(lia) ltac:(lia))
    as (s & Hs & (Ht & _ & _ & _ & _ & Hcontent & _) & Hst & Hc).
  exists s. split; [|split; [exact Ht|split; [exact Hc|]]].
  - unfold appended in Hs.
    rewrite <- (firstn_skipn (List.length (summaries db_)) (summaries db')).
    apply in_or_app. now right.
  - rewrite Hcontent, Hst. now apply failure_paths_marked.
Qed.

Lemma backfill_persists_failure_texts_witness :
  exists s,
    In s (summaries (store_after 3 three_captures unreachable)) /\
    sum_type s = "5min" /\
    covers s (mk_capture 2 100 (Some png) (Some "editing a report") (Some "{}") None) /\
    startswith (sum_content s) "Error generating summary:" = true.
Proof.
  apply (backfill_persists_failure_texts 3 three_captures
           (store_after 3 three_captures unreachable) unreachable 2 1 0 400).
  - vm_compute. reflexivity.
  - vm_compute. reflexivity.
  - vm_compute. reflexivity.
  - vm_compute. right. now left.
  - vm_compute. reflexivity.
  - vm_compute. reflexivity.
Defined.

(** X25.  Every 5-minute rollup a completed run appends lies in the range
    of an hourly rollup the same run appends: the hourly grid is the
    5-minute grid taken twelve windows at a time, from the same anchor. *)
Theorem backfill_hourly_rollups_cover_the_new_5min_rollups :
  forall (fuel : nat) (db_ db' : FocusLogDB) (env : backfill_env)
         (five_min_count hourly_count : Z) (s : summary_row),
    backfill_summaries fuel db_ env = Some (db', Complete five_min_count hourly_count) ->
    In s (appended db_ db') ->
    sum_type s = "5min" ->
    exists h, In h (appended db_ db') /\ sum_type h = "hourly" /\ within h s.
Proof.
  intros fuel db_ db' env c5 ch s H Hs Ht.
  destruct (backfill_complete fuel db_ db' env c5 ch H)
    as (first & last & db1 & five & hourly & _ & _ & _ & _ & Eh &
        S1 & S & _ & _ & _ & _ & F5 & Fh & _).
  rewrite (appended_app db_ db' _ S) in *.
  apply in_app_or in Hs. destruct Hs as [Hs|Hs].
  - rewrite Forall_forall in F5.
    destruct (F5 s Hs) as (_ & _ & (j & Hj & Hst) & Hlt & Hend & _).
    destruct (hourly_loop_rows (api_hourly env) first last fuel db1 first 0 db' ch)
      as (hourly' & Sh & _ & _ & Fh' & _ & Cov); [exists 0; split; lia|exact Eh|].
    assert (hourly' = hourly).
    { rewrite S1, <- app_assoc in Sh. rewrite S in Sh.
      apply app_inv_head in Sh. now apply app_inv_head in Sh. }
    subst hourly'.
    pose proof (Z.div_mod j 12 ltac:(lia)) as D.
    pose proof (Z.mod_pos_bound j 12 ltac:(lia)) as M.
    assert (Hk : 0 <= j / 12) by (apply Z.div_pos; lia).
    destruct (Cov s (j / 12)) as (h & Hh & _ & Hw); try assumption; try lia.
    + rewrite S1. apply in_or_app. now right.
    + exists h. split; [apply in_or_app; now right|]. split; [|exact Hw].
      rewrite Forall_forall in Fh. now destruct (Fh h Hh) as (A & _).
  - rewrite Forall_forall in Fh. destruct (Fh s Hs) as (A & _). congruence.
Qed.

Lemma backfill_hourly_rollups_cover_the_new_5min_rollups_witness :
  exists h, In h (appended three_captures (store_after 3 three_captures answered)) /\
            sum_type h = "hourly" /\
            within h (mk_summary 2 "5min" 300 600 "Edited a report." None).
Proof.
  apply (backfill_hourly_rollups_cover_the_new_5min_rollups 3 three_captures
           (store_after 3 three_captures answered) answered 2 1).
  - vm_compute. reflexivity.
  - vm_compute. right. now left.
  - reflexivity.
Defined.

(** How many 5-minute windows the first loop writes depends on the
    [captures] table only. *)
Lemma five_min_loop_count (last : Z) :
  forall (f f' : nat) (db_ dbb : FocusLogDB) (api api' : Z -> api_result)
         (cur c c0 : Z) (r r' : FocusLogDB * Z),
    captures db_ = captures dbb ->
    five_min_loop f db_ cur last api c = Some r ->
    five_min_loop f' dbb cur last api' c0 = Some r' ->
    snd r - c = snd r' - c0.
Proof.
  induction f as [|f IH]; intros f' db_ dbb api api' cur c c0 r r' Hc H H';
    [discriminate|].
  destruct f' as [|f']; [discriminate|]. cbn [five_min_loop] in H, H'.
  destruct (cur <? last).
  - assert (Hnil : window_captures db_ cur (cur + 300) = [] <->
                   window_captures dbb cur (cur + 300) = []).
    { rewrite !window_captures_nil, Hc. reflexivity. }
    destruct (window_captures db_ cur (cur + 300)) as [|d ds];
      destruct (window_captures dbb cur (cur + 300)) as [|d' ds'].
    + exact (IH _ _ _ _ _ _ _ _ _ _ Hc H H').
    + destruct Hnil as [Hnil _]. specialize (Hnil eq_refl). discriminate.
    + destruct Hnil as [_ Hnil]. specialize (Hnil eq_refl). discriminate.
    + unfold save_summary in H, H'. cbv zeta in H, H'.
      assert (E : snd r - (c + 1) = snd r' - (c0 + 1)).
      { refine (IH _ _ _ _ _ _ _ _ _ _ _ H H'). exact Hc. }
      lia.
  - injection H as <-. injection H' as <-. cbn. lia.
Qed.

Lemma filter_all {A : Type} (f : A -> bool) (l : list A) :
  Forall (fun x => f x = true) l -> filter f l = l.
Proof.
  induction 1 as [|x l Hx _ IH]; cbn; [reflexivity|]. now rewrite Hx, IH.
Qed.

Lemma filter_none {A : Type} (f : A -> bool) (l : list A) :
  Forall (fun x => f x = false) l -> filter f l = [].
Proof.
  induction 1 as [|x l Hx _ IH]; cbn; [reflexivity|]. now rewrite Hx, IH.
Qed.

(** The 5-minute rollups of the store after a completed run. *)
Lemma backfill_rollups (fuel : nat) (db_ db' : FocusLogDB) (env : backfill_env)
    (c5 ch : Z) :
  backfill_summaries fuel db_ env = Some (db', Complete c5 ch) ->
  Z.of_nat (List.length (rollups "5min" db')) =
  Z.of_nat (List.length (rollups "5min" db_)) + c5.
Proof.
  intros H.
  destruct (backfill_complete fuel db_ db' env c5 ch H)
    as (first & last & db1 & five & hourly & _ & _ & _ & _ & _ &
        _ & S & _ & _ & C5 & _ & F5 & Fh & _).
  unfold rollups. rewrite S, !filter_app.
  rewrite (filter_all (of_type "5min") five), (filter_none (of_type "5min") hourly).
  - rewrite app_nil_r, length_app. lia.
  - eapply Forall_impl; [|exact Fh]. cbn. intros h (A & _).
    unfold of_type. now rewrite A.
  - eapply Forall_impl; [|exact F5]. cbn. intros s (A & _).
    unfold of_type. now rewrite A.
Qed.

(** X26.  The backfill does not look at the rollups already stored: run a
    second time, it writes as many 5-minute rollups as the first time, so
    the store then holds each backfilled window twice. *)
Theorem backfill_run_twice_repeats_the_5min_rollups :
  forall (fuel fuel' : nat) (db_ db1 db2 : FocusLogDB) (env env' : backfill_env)
         (five_min_count hourly_count five_min_count' hourly_count' : Z),
    backfill_summaries fuel db_ env = Some (db1, Complete five_min_count hourly_count) ->
    backfill_summaries fuel' db1 env' =
      Some (db2, Complete five_min_count' hourly_count') ->
    five_min_count' = five_min_count /\
    Z.of_nat (List.length (rollups "5min" db2)) =
    Z.of_nat (List.length (rollups "5min" db_)) + 2 * five_min_count.
Proof.
  intros fuel fuel' db_ db1 db2 env env' c5 ch c5' ch' H H'.
  pose proof (backfill_rollups _ _ _ _ _ _ H) as R.
  pose proof (backfill_rollups _ _ _ _ _ _ H') as R'.
  destruct (backfill_complete fuel db_ db1 env c5 ch H)
    as (first & last & dbm & five & hourly & Emin & Emax & _ & E5 & _ &
        _ & _ & _ & O & _).
  destruct (backfill_complete fuel' db1 db2 env' c5' ch' H')
    as (first' & last' & dbm' & five' & hourly' & Emin' & Emax' & _ & E5' & _).
  destruct O as (_ & _ & _ & Hc & _).
  rewrite Hc in Emin', Emax'.
  assert (first' = first) by congruence. assert (last' = last) by congruence.
  subst first' last'.
  pose proof (five_min_loop_count last fuel fuel' db_ db1 (api_5min env)
                (api_5min env') first 0 0 _ _ (eq_sym Hc) E5 E5') as E.
  cbn [snd] in E. split; lia.
Qed.

Lemma backfill_run_twice_repeats_the_5min_rollups_witness :
  2 = 2 /\
  Z.of_nat (List.length
              (rollups "5min"
                 (store_after 3 (store_after 3 three_captures answered) unreachable)))
  = Z.of_nat (List.length (rollups "5min" three_captures)) + 2 * 2.
Proof.
  apply (backfill_run_twice_repeats_the_5min_rollups 3 3 three_captures
           (store_after 3 three_captures answered)
           (store_after 3 (store_after 3 three_captures answered) unreachable)
           answered unreachable 2 1 2 1).
  - vm_compute. reflexivity.
  - vm_compute. reflexivity.
Defined.

Lemma five_min_loop_consistent (api : Z -> api_result) (last : Z) :
  forall (f : nat) (db_ : FocusLogDB) (cur c : Z) (r : FocusLogDB * Z),
    consistent db_ ->
    five_min_loop f db_ cur last api c = Some r ->
    consistent (fst r).
Proof.
  induction f as [|f IH]; intros db_ cur c r Hc H; [discriminate|].
  cbn [five_min_loop] in H. destruct (cur <? last).
  - destruct (window_captures db_ cur (cur + 300)) as [|d ds].
    + exact (IH _ _ _ _ Hc H).
    + refine (IH _ _ _ _ _ H).
      exact (save_summary_consistent db_ "5min" cur (cur + 300) _ None Hc).
  - now injection H as <-.
Qed.

Lemma hourly_loop_consistent (api : Z -> api_result) (last : Z) :
  forall (f : nat) (db_ : FocusLogDB) (cur c : Z) (r : FocusLogDB * Z),
    consistent db_ ->
    hourly_loop f db_ cur last api c = Some r ->
    consistent (fst r).
Proof.
  induction f as [|f IH]; intros db_ cur c r Hc H; [discriminate|].
  cbn [hourly_loop] in H. destruct (cur <? last).
  - destruct (get_summaries_in_range db_ "5min" cur (cur + 3600)) as [|d ds].
    + exact (IH _ _ _ _ Hc H).
    + refine (IH _ _ _ _ _ H).
      exact (save_summary_consistent db_ "hourly" cur (cur + 3600) _ None Hc).
  - now injection H as <-.
Qed.

(** X27.  The backfill keeps the keys of the store: whatever way a run
    ends, ids stay unique and within their sequences, label names unique,
    links unique. *)
Theorem backfill_keeps_the_store_consistent :
  forall (fuel : nat) (db_ db' : FocusLogDB) (env : backfill_env)
         (out : backfill_outcome),
    consistent db_ ->
    backfill_summaries fuel db_ env = Some (db', out) ->
    consistent db'.
Proof.
  intros fuel db_ db' env out Hc. unfold backfill_summaries.
  destruct (sql_min _); [|now intros [= <- _]].
  destruct (sql_max _); [|now intros [= <- _]].
  destruct (negb _); [now intros [= <- _]|].
  destruct (five_min_loop _ _ _ _ _ _) as [[db1 c5]|] eqn:E5; [|discriminate].
  destruct (hourly_loop _ _ _ _ _ _) as [[db2 ch]|] eqn:Eh; [|discriminate].
  intros [= <- _].
  pose proof (five_min_loop_consistent _ _ _ _ _ _ _ Hc E5) as C1.
  exact (hourly_loop_consistent _ _ _ _ _ _ _ C1 Eh).
Qed.

Lemma backfill_keeps_the_store_consistent_witness :
  consistent (store_after 3 three_captures answered).
Proof.
  apply (backfill_keeps_the_store_consistent 3 three_captures
           (store_after 3 three_captures answered) answered (Complete 2 1)).
  - unfold three_captures. repeat apply add_capture_consistent.
    apply new_store_consistent.
  - vm_compute. reflexivity.
Defined.

Lemma lower_char_y (c : ascii) :
  lower_char c = "y"%char <-> c = "y"%char \/ c = "Y"%char.
Proof.
  destruct c as [[] [] [] [] [] [] [] []]; vm_compute; split;
    try discriminate; try (intros [?|?]; discriminate); auto.
Qed.

Lemma lower_y (s : string) : lower s = "y" <-> s = "y" \/ s = "Y".
Proof.
  destruct s as [|c [|c' s']]; cbn [lower].
  - split; [discriminate|intros [?|?]; discriminate].
  - split.
    + intros [= E]. apply lower_char_y in E. destruct E as [-> | ->]; auto.
    + intros [E|E]; inversion E; reflexivity.
  - split; [discriminate|intros [?|?]; discriminate].
Qed.

(** X28.  The prompt guards the writes.  A run on a store that holds a
    capture ends at the prompt, with the store as it was, exactly when the
    answer is neither y nor Y; on any other answer it goes on to the
    loops. *)
Theorem backfill_is_cancelled_unless_answered_y :
  forall (fuel : nat) (db_ : FocusLogDB) (env : backfill_env),
    captures db_ <> [] ->
    (backfill_summaries fuel db_ env = Some (db_, Cancelled) <->
     response_ env <> "y" /\ response_ env <> "Y") /\
    (forall db' out, backfill_summaries fuel db_ env = Some (db', out) ->
                     out <> NoCaptures /\
                     (out = Cancelled -> db' = db_)).
Proof.
  intros fuel db_ env Hne. unfold backfill_summaries.
  destruct (captures db_) as [|r0 rs] eqn:Ec; [congruence|].
  cbn [map sql_min sql_max].
  destruct (String.eqb (lower (response_ env)) "y") eqn:Ey; cbn [negb].
  - apply String.eqb_eq, lower_y in Ey. split.
    + split.
      * destruct (five_min_loop _ _ _ _ _ _) as [[db1 c5]|]; [|discriminate].
        destruct (hourly_loop _ _ _ _ _ _) as [[db2 ch]|]; discriminate.
      * intros [A B]. destruct Ey; contradiction.
    + intros db' out.
      destruct (five_min_loop _ _ _ _ _ _) as [[db1 c5]|]; [|discriminate].
      destruct (hourly_loop _ _ _ _ _ _) as [[db2 ch]|]; [|discriminate].
      intros [= <- <-]. split; discriminate.
  - apply String.eqb_neq in Ey. split.
    + split; [|reflexivity]. intros _.
      split; intros E; apply Ey, lower_y; auto.
    + intros db' out [= <- <-]. split; [discriminate|reflexivity].
Qed.

Lemma backfill_is_cancelled_unless_answered_y_witness :
  backfill_summaries 3 three_captures
    (mk_backfill_env "yes" (api_5min answered) (api_hourly answered))
  = Some (three_captures, Cancelled).
Proof.
  apply (backfill_is_cancelled_unless_answered_y 3 three_captures
           (mk_backfill_env "yes" (api_5min answered) (api_hourly answered))).
  - vm_compute. discriminate.
  - split; discriminate.
Defined.

End BackfillFacts.

(** ** The video generator *)

Module VideoFacts.
Import Video.

Lemma enumerate_In {A : Type} (l : list A) :
  forall (start i : Z) (x : A),
    In (i, x) (enumerate start l) <->
    start <= i /\ nth_error l (Z.to_nat (i - start)) = Some x.
Proof.
  induction l as [|y l IH]; intros start i x; cbn [enumerate].
  - split; [intros []|]. intros [_ H]. now destruct (Z.to_nat (i - start)).
  - split.
    + intros [[= <- <-]|H].
      * rewrite Z.sub_diag. cbn. split; [lia|reflexivity].
      * apply IH in H. destruct H as [Hle H]. split; [lia|].
        replace (Z.to_nat (i - start)) with (S (Z.to_nat (i - (start + 1))))
          by lia.
        exact H.
    + intros [Hle H].
      assert (i = start \/ start + 1 <= i) as [->|Hlt] by lia.
      * rewrite Z.sub_diag in H. cbn in H. injection H as <-. now left.
      * right. apply IH. split; [exact Hlt|].
        replace (Z.to_nat (i - start)) with (S (Z.to_nat (i - (start + 1))))
          in H by lia.
        exact H.
Qed.

Lemma enumerate_fst {A : Type} (l : list A) :
  forall start : Z,
    map fst (enumerate start l)
    = map (fun n => start + Z.of_nat n) (seq 0 (List.length l)).
Proof.
  induction l as [|y l IH]; intros start; cbn [enumerate map List.length seq];
    [reflexivity|].
  rewrite IH, <- seq_shift, map_map. cbn [Z.of_nat]. rewrite Z.add_0_r.
  f_equal. apply map_ext. intros n. lia.
Qed.

Lemma symlinks_of (screenshot_paths : list string) (env : video_env) :
  symlinks (generate_video screenshot_paths env)
  = filter (fun l => path_exists env (snd l)) (enumerate 1 screenshot_paths).
Proof.
  unfold generate_video. destruct screenshot_paths as [|p ps]; [reflexivity|].
  cbv zeta. destruct (_ =? 0); [reflexivity|]. now destruct (ffmpeg env).
Qed.

Lemma no_link_iff (screenshot_paths : list string) (env : video_env) :
  filter (fun l => path_exists env (snd l)) (enumerate 1 screenshot_paths) = [] <->
  forall p, In p screenshot_paths -> path_exists env p = false.
Proof.
  split.
  - intros H p Hp. destruct (path_exists env p) eqn:E; [|reflexivity].
    apply In_nth_error in Hp. destruct Hp as (n & Hn).
    assert (Hin : In (1 + Z.of_nat n, p)
                    (filter (fun l => path_exists env (snd l))
                       (enumerate 1 screenshot_paths))).
    { apply filter_In. split; [|exact E]. apply enumerate_In.
      split; [lia|]. replace (Z.to_nat (1 + Z.of_nat n - 1)) with n by lia.
      exact Hn. }
    rewrite H in Hin. destruct Hin.
  - intros H.
    destruct (filter _ (enumerate 1 screenshot_paths)) as [|[i p] l] eqn:E;
      [reflexivity|].
    assert (Hin : In (i, p) (filter (fun l => path_exists env (snd l))
                               (enumerate 1 screenshot_paths)))
      by (rewrite E; now left).
    apply filter_In in Hin. destruct Hin as [Hin Hex]. cbn in Hex.
    apply enumerate_In in Hin. destruct Hin as [_ Hn].
    apply nth_error_In in Hn. rewrite (H p Hn) in Hex. discriminate.
Qed.

(** X30.  Frames are numbered by position in the list, from 1: the link
    numbered [i] exists exactly when the [i]-th listed source does, and it
    points to that source.  A missing source therefore leaves its number
    unused, and the numbers run from 1 to the length of the list without a
    gap when every source exists. *)
Theorem generate_video_numbers_frames_by_position :
  forall (screenshot_paths : list string) (env : video_env),
    (forall i p,
        In (i, p) (symlinks (generate_video screenshot_paths env)) <->
        1 <= i /\
        nth_error screenshot_paths (Z.to_nat (i - 1)) = Some p /\
        path_exists env p = true) /\
    ((forall p, In p screenshot_paths -> path_exists env p = true) ->
     map fst (symlinks (generate_video screenshot_paths env))
     = map (fun n => 1 + Z.of_nat n) (seq 0 (List.length screenshot_paths))).
Proof.
  intros ps env. rewrite symlinks_of. split.
  - intros i p. rewrite filter_In, enumerate_In. cbn [snd]. tauto.
  - intros Hall. rewrite <- enumerate_fst. f_equal.
    apply BackfillFacts.filter_all. apply Forall_forall.
    intros [i p] Hin. cbn [snd]. apply enumerate_In in Hin. destruct Hin as [_ Hn].
    apply nth_error_In in Hn. now apply Hall.
Qed.

Lemma generate_video_numbers_frames_by_position_witness :
  map fst
    (symlinks (generate_video ["capture_00000.png"; "capture_00002.png"]
                 (mk_video_env (fun _ => true) Exited true)))
  = [1; 2].
Proof.
  apply (proj2 (generate_video_numbers_frames_by_position
                  ["capture_00000.png"; "capture_00002.png"]
                  (mk_video_env (fun _ => true) Exited true))).
  intros p _. reflexivity.
Defined.

End VideoFacts.

(** ** The threads of the daemon *)

Module ThreadFacts.
Import Database Summarizer Daemon Threads Rollups Chains Scenarios DatabaseFacts
  FetchFacts CaptureFacts RollupFacts ChainFacts.

(** *** The sequential functions are the threads run without a pause *)

Lemma generate_5min_is_begin_then_answered (d : FocusLogDaemon) (now : Z)
    (api : api_result) :
  _generate_5min_summary d now api =
  match _generate_5min_summary_begin d now with
  | (d1, Some p) => _generate_5min_summary_answered d1 p api
  | (d1, None) => d1
  end.
Proof.
  unfold _generate_5min_summary, _generate_5min_summary_begin,
    _generate_5min_summary_answered; cbv zeta.
  destruct (get_captures_since (db d) (last_5min_summary d) false); reflexivity.
Qed.

Lemma generate_hourly_is_begin_then_answered (d : FocusLogDaemon) (now : Z)
    (api : api_result) (video_path_full : string) (video_success : bool) :
  _generate_hourly_summary d now api video_path_full video_success =
  match _generate_hourly_summary_begin d now with
  | (d1, Some p) =>
      _generate_hourly_summary_answered d1 p api
        (mk_video_staging video_path_full None None (Value video_success))
  | (d1, None) => d1
  end.
Proof.
  unfold _generate_hourly_summary, _generate_hourly_summary_begin,
    _generate_hourly_summary_answered, stage_video; cbv zeta.
  destruct (get_summaries_in_range (db d) "5min" (last_hourly_summary d) now)
    as [|s ss]; [reflexivity|].
  cbn [ph_start_time ph_now ph_five_min_summaries vs_mkdtemp vs_write_bytes
       vs_generate_video vs_video_path_full].
  destruct (startswith _ _); [reflexivity|].
  destruct (get_captures_since (db d) (last_hourly_summary d) true) as [|c cs];
    [reflexivity|].
  destruct (filter has_frame (c :: cs)); reflexivity.
Qed.

(** *** What one step of a generation does *)

Lemma begin_5min_cases (d : FocusLogDaemon) (now : Z) :
  (get_captures_since (db d) (last_5min_summary d) false = [] /\
   _generate_5min_summary_begin d now = (set_last_5min d now, None)) \/
  (get_captures_since (db d) (last_5min_summary d) false <> [] /\
   _generate_5min_summary_begin d now =
     (d, Some (mk_pending_5min now (last_5min_summary d)
                 (get_captures_since (db d) (last_5min_summary d) false)))).
Proof.
  unfold _generate_5min_summary_begin; cbv zeta.
  destruct (get_captures_since (db d) (last_5min_summary d) false);
    [left|right]; split; try reflexivity; discriminate.
Qed.

Lemma begin_hourly_cases (d : FocusLogDaemon) (now : Z) :
  (get_summaries_in_range (db d) "5min" (last_hourly_summary d) now = [] /\
   _generate_hourly_summary_begin d now = (set_last_hourly d now, None)) \/
  (get_summaries_in_range (db d) "5min" (last_hourly_summary d) now <> [] /\
   _generate_hourly_summary_begin d now =
     (d, Some (mk_pending_hourly now (last_hourly_summary d)
                 (get_summaries_in_range (db d) "5min" (last_hourly_summary d) now)))).
Proof.
  unfold _generate_hourly_summary_begin; cbv zeta.
  destruct (get_summaries_in_range (db d) "5min" (last_hourly_summary d) now);
    [left|right]; split; try reflexivity; discriminate.
Qed.

(** The two ways a 5-minute generation ends once the summarizer has
    answered: nothing, or one rollup of the window it read. *)
Lemma answered_5min_cases (d : FocusLogDaemon) (p : pending_5min)
    (api : api_result) :
  let summary := generate_5min_summary (p5_captures p) api in
  (startswith summary "Error generating summary:" = true /\
   _generate_5min_summary_answered d p api = d) \/
  (startswith summary "Error generating summary:" = false /\
   _generate_5min_summary_answered d p api =
     set_last_5min
       (set_db d (set_summaries (db d)
                    (summaries (db d) ++
                       [mk_summary (summaries_seq (db d) + 1) "5min"
                          (p5_start_time p) (p5_now p) summary None])
                    (summaries_seq (db d) + 1)))
       (p5_now p)).
Proof.
  cbv zeta. unfold _generate_5min_summary_answered; cbv zeta.
  destruct (startswith _ _); [left|right]; split; reflexivity.
Qed.

(** The ways an hourly generation ends once the summarizer has answered:
    nothing (failure text, or an exception while the video is staged), or
    one rollup of the window it read, after which thinning either returns
    and the watermark moves, or raises and it stays. *)
Lemma answered_hourly_cases (d : FocusLogDaemon) (p : pending_hourly)
    (api : api_result) (v : video_staging) :
  let summary := generate_hourly_summary (ph_five_min_summaries p) api in
  let staged := stage_video (get_captures_since (db d) (ph_start_time p) true) v in
  let d' := _generate_hourly_summary_answered d p api v in
  (startswith summary "Error generating summary:" = true /\ d' = d) \/
  (startswith summary "Error generating summary:" = false /\
   (exists e, staged = Exception e) /\ d' = d) \/
  (startswith summary "Error generating summary:" = false /\
   exists video_path,
     staged = Value video_path /\
     summaries (db d') =
       summaries (db d) ++
         [mk_summary (summaries_seq (db d) + 1) "hourly" (ph_start_time p)
            (ph_now p) summary video_path] /\
     summaries_seq (db d') = summaries_seq (db d) + 1 /\
     last_5min_summary d' = last_5min_summary d /\
     interval d' = interval d /\ running d' = running d /\
     (last_hourly_summary d' = ph_now p \/
      last_hourly_summary d' = last_hourly_summary d)).
Proof.
  cbv zeta. unfold _generate_hourly_summary_answered; cbv zeta.
  destruct (startswith _ _); [left; split; reflexivity|right].
  destruct (stage_video _ v) as [video_path|e];
    [right|left; split; [reflexivity|split; [now exists e|reflexivity]]].
  split; [reflexivity|]. exists video_path. split; [reflexivity|].
  unfold save_summary.
  match goal with
  | |- context [cleanup_screenshots_except_thumbnails ?x ?a ?b] =>
      pose proof (cleanup_frame x a b) as (F & G & _);
      destruct (cleanup_screenshots_except_thumbnails x a b) as [db2 [rep|msg]]
  end; cbn [fst] in F, G; cbn; rewrite F, G; cbn; repeat split; auto.
Qed.

Lemma answered_hourly_keeps_5min (d : FocusLogDaemon) (p : pending_hourly)
    (api : api_result) (v : video_staging) :
  let d' := _generate_hourly_summary_answered d p api v in
  rollups "5min" (db d') = rollups "5min" (db d) /\
  last_5min_summary d' = last_5min_summary d.
Proof.
  cbv zeta.
  destruct (answered_hourly_cases d p api v)
    as [[_ E]|[(_ & _ & E)|(_ & vp & _ & S & _ & W & _)]];
    cbv zeta in *; try (rewrite E; now split).
  split; [|exact W]. unfold rollups. rewrite S, filter_app. cbn.
  now rewrite app_nil_r.
Qed.

(** *** The list of threads *)

Lemma nth_error_set_thread (l : list thread) :
  forall (tid : nat) (t th : thread),
    nth_error l tid = Some th -> nth_error (set_thread tid t l) tid = Some t.
Proof.
  induction l as [|x l IH]; intros [|tid] t th H; cbn in *; try discriminate;
    [reflexivity|]. now apply IH with th.
Qed.

Lemma Forall_set_thread (P : thread -> Prop) (t : thread) (l : list thread) :
  forall tid : nat, Forall P l -> P t -> Forall P (set_thread tid t l).
Proof.
  induction l as [|x l IH]; intros [|tid] H Pt; cbn; try constructor;
    inversion H; subst; auto.
Qed.

Lemma filter_set_thread_same (g : granularity) (t : thread) (l : list thread) :
  forall (tid : nat) (th : thread),
    nth_error l tid = Some th -> asking g th = false -> asking g t = false ->
    filter (asking g) (set_thread tid t l) = filter (asking g) l.
Proof.
  induction l as [|x l IH]; intros [|tid] th H E Et; cbn in *; try discriminate.
  - injection H as ->. now rewrite E, Et.
  - rewrite (IH tid th H E Et). reflexivity.
Qed.

Lemma filter_nil_no_match {A : Type} (f : A -> bool) (l : list A) :
  filter f l = [] <-> existsb f l = false.
Proof.
  induction l as [|x l IH]; cbn; [now split|].
  destruct (f x); cbn; [split; discriminate|exact IH].
Qed.

Lemma set_thread_on_quiet (g : granularity) (t : thread) (l : list thread) :
  forall tid : nat,
    existsb (asking g) l = false ->
    (List.length (filter (asking g) (set_thread tid t l)) <= 1)%nat.
Proof.
  induction l as [|x l IH]; intros [|tid] H; cbn in *; try lia;
    apply orb_false_elim in H; destruct H as [Hx Hl].
  - apply filter_nil_no_match in Hl. rewrite Hl. destruct (asking g t); cbn; lia.
  - rewrite Hx. now apply IH.
Qed.

Lemma finish_the_only_one (g : granularity) (l : list thread) :
  forall (tid : nat) (th : thread),
    (List.length (filter (asking g) l) <= 1)%nat ->
    nth_error l tid = Some th -> asking g th = true ->
    existsb (asking g) (set_thread tid Finished l) = false.
Proof.
  induction l as [|x l IH]; intros [|tid] th Hc H E; cbn in *; try discriminate.
  - injection H as ->. rewrite E in Hc. cbn in Hc.
    replace (asking g Finished) with false by now destruct g.
    cbn. apply filter_nil_no_match.
    destruct (filter (asking g) l); [reflexivity|cbn in Hc; lia].
  - destruct (asking g x) eqn:Ex.
    + cbn in Hc. exfalso.
      assert (Hin : In th (filter (asking g) l)).
      { apply filter_In. split; [now apply nth_error_In with tid|exact E]. }
      destruct (filter (asking g) l); [destruct Hin|cbn in Hc; lia].
    + cbn. now apply IH with th.
Qed.

Lemma pending_is_asking (g : granularity) (th : thread) (x : Z * Z) :
  pending_of g th = Some x -> asking g th = true.
Proof. destruct g, th; cbn; congruence. Qed.

Lemma quiet_has_no_pending (g : granularity) (P : Z -> Z -> Prop) (l : list thread) :
  existsb (asking g) l = false ->
  Forall (fun th => forall now start, pending_of g th = Some (now, start) ->
                                       P now start) l.
Proof.
  intros H. apply Forall_forall. intros th Hin now start Hp.
  apply pending_is_asking in Hp.
  assert (existsb (asking g) l = true) by (apply existsb_exists; now exists th).
  congruence.
Qed.

Lemma pending_weaken (g : granularity) (d d' : FocusLogDaemon) (t t' : Z)
    (l : list thread) :
  watermark g d' = watermark g d -> t <= t' ->
  Forall (fun th => forall now start, pending_of g th = Some (now, start) ->
                      start = watermark g d /\ start <= now <= t) l ->
  Forall (fun th => forall now start, pending_of g th = Some (now, start) ->
                      start = watermark g d' /\ start <= now <= t') l.
Proof.
  intros E Hle H. eapply Forall_impl; [|exact H]. cbn.
  intros th Hth now start Hp. destruct (Hth now start Hp). rewrite E. lia.
Qed.

Lemma set_thread_In (l : list thread) :
  forall (tid : nat) (t x : thread),
    In x (set_thread tid t l) -> x = t \/ In x l.
Proof.
  induction l as [|y l IH]; intros [|tid] t x H; cbn in *; try tauto.
  - destruct H as [<-|H]; auto.
  - destruct H as [<-|H]; auto. destruct (IH tid t x H); auto.
Qed.

(** *** Runs with one generation at a time *)

(** A step that leaves the watermark of [g] and the generations of [g]
    that wait for the summarizer. *)
Lemma orderly_neutral (g : granularity) (t t' : Z) (d d' : FocusLogDaemon)
    (l l' : list thread) :
  orderly g t (mk_world d l) ->
  watermark g d' = watermark g d -> t <= t' ->
  filter (asking g) l' = filter (asking g) l ->
  (forall th, In th l' -> pending_of g th = None \/ In th l) ->
  orderly g t' (mk_world d' l').
Proof.
  unfold orderly; cbn [w_daemon w_threads].
  intros (W & C & F) E Hle Hf Hin. rewrite E, Hf.
  split; [lia|]. split; [exact C|].
  apply Forall_forall. intros th Hth now start Hp.
  destruct (Hin th Hth) as [Hn|Hl]; [congruence|].
  rewrite Forall_forall in F. destruct (F th Hl now start Hp). lia.
Qed.

Lemma orderly_spawn (g : granularity) (t t' : Z) (d : FocusLogDaemon)
    (l : list thread) (th : thread) :
  orderly g t (mk_world d l) -> t <= t' -> asking g th = false ->
  orderly g t' (mk_world d (l ++ [th])).
Proof.
  intros H Hle Hth. apply (orderly_neutral g t t' d d l (l ++ [th]) H eq_refl Hle).
  - rewrite filter_app. cbn. rewrite Hth. apply app_nil_r.
  - intros x Hx. apply in_app_or in Hx. destruct Hx as [Hx|[<-|[]]]; [now right|].
    left. destruct (pending_of g th) as [x|] eqn:E; [|reflexivity].
    apply pending_is_asking in E. congruence.
Qed.

Lemma orderly_settle (g : granularity) (t t' : Z) (d d' : FocusLogDaemon)
    (l : list thread) (tid : nat) (th th' : thread) :
  orderly g t (mk_world d l) ->
  watermark g d' = watermark g d -> t <= t' ->
  nth_error l tid = Some th -> asking g th = false -> asking g th' = false ->
  orderly g t' (mk_world d' (set_thread tid th' l)).
Proof.
  intros H E Hle Hn Hth Hth'.
  apply (orderly_neutral g t t' d d' l (set_thread tid th' l) H E Hle).
  - now apply filter_set_thread_same with th.
  - intros x Hx. apply set_thread_In in Hx. destruct Hx as [->|Hx]; [|now right].
    left. destruct (pending_of g th') as [x|] eqn:Ep; [|reflexivity].
    apply pending_is_asking in Ep. congruence.
Qed.

(** A step after which no generation of [g] waits for the summarizer. *)
Lemma orderly_quiet (g : granularity) (t : Z) (d : FocusLogDaemon)
    (l : list thread) :
  watermark g d <= t -> existsb (asking g) l = false ->
  orderly g t (mk_world d l).
Proof.
  intros W Q. unfold orderly; cbn [w_daemon w_threads].
  split; [exact W|]. split.
  - apply filter_nil_no_match in Q. rewrite Q. cbn. lia.
  - now apply quiet_has_no_pending.
Qed.

Lemma classify_and_save_watermark (g : granularity) (d : FocusLogDaemon)
    (data : bytes) (ts : Z) (result : classification) (clocks : nat -> label_clock) :
  watermark g (_classify_and_save d data ts result clocks) = watermark g d.
Proof.
  destruct (_classify_and_save_rows d data ts result clocks)
    as (rows & _ & _ & _ & W5 & Wh & _).
  now destruct g.
Qed.

(** The watermarks over one event of a run with one generation of [g] at
    a time and a clock that does not run back. *)
Lemma step_orderly (g : granularity) (t : Z) (w : world) (e : event) :
  orderly g t w ->
  (begins g w e = true -> existsb (asking g) (w_threads w) = false) ->
  (forall now, reading e = Some now -> t <= now) ->
  orderly g (match reading e with Some now => now | None => t end) (step w e) /\
  watermark g (w_daemon w) <= watermark g (w_daemon (step w e)).
Proof.
  destruct w as [d l]. intros H Hb Hr.
  pose proof H as (W & C & F). cbn [w_daemon w_threads] in W, C, F, Hb.
  destruct e as [now grab clocks|now|tid now|tid result clocks|tid api|tid api v];
    cbn [reading step w_daemon w_threads] in *;
    try specialize (Hr _ eq_refl).
  - (* Capture *)
    destruct grab as [data|]; cbn [w_daemon].
    + split; [|lia]. apply orderly_spawn with (t := t); [exact H|exact Hr|now destruct g].
    + split; [|destruct g; cbn; lia].
      apply (orderly_neutral g t now d _ l l H);
        [now destruct g|exact Hr|reflexivity|now right].
  - (* Check *)
    split; [|cbn; lia]. cbv zeta.
    assert (H1 : orderly g now
                   (mk_world d (if 300 <=? now - last_5min_summary d
                                then l ++ [Starting_5min] else l))).
    { destruct (300 <=? _).
      - apply orderly_spawn with (t := t); [exact H|exact Hr|now destruct g].
      - apply (orderly_neutral g t now d d l l H);
          [reflexivity|exact Hr|reflexivity|now right]. }
    destruct (3600 <=? _); [|exact H1].
    apply orderly_spawn with (t := now); [exact H1|lia|now destruct g].
  - (* Begin *)
    unfold begins in Hb; cbn [w_threads] in Hb.
    destruct (nth_error l tid) as [[data ts| |p| |p|]|] eqn:En;
      cbn [w_daemon];
      try (split; [|lia];
           apply (orderly_neutral g t now d d l l H);
           [reflexivity|exact Hr|reflexivity|now right]).
    + (* a 5-minute generation reads the watermark *)
      destruct (begin_5min_cases d now) as [[Hnil ->]|[Hne ->]]; cbn [w_daemon].
      * destruct g; cbn [watermark set_last_5min last_5min_summary
                         last_hourly_summary] in *.
        -- specialize (Hb eq_refl). split; [|lia].
           apply orderly_quiet; [cbn; lia|].
           apply filter_nil_no_match.
           rewrite (filter_set_thread_same Five_min Finished l tid Starting_5min);
             try reflexivity; try assumption.
           now apply filter_nil_no_match.
        -- split; [|lia].
           apply orderly_settle with (t := t) (d := d) (th := Starting_5min);
             try assumption; reflexivity.
      * destruct g; cbn [watermark] in *.
        -- specialize (Hb eq_refl). split; [|lia].
           unfold orderly; cbn [w_daemon w_threads watermark].
           split; [lia|]. split; [now apply set_thread_on_quiet|].
           apply Forall_set_thread.
           ++ apply (quiet_has_no_pending Five_min
                       (fun n s => s = last_5min_summary d /\ s <= n <= now) l Hb).
           ++ cbn. intros n s [= <- <-]. lia.
        -- split; [|lia].
           apply orderly_settle with (t := t) (d := d) (th := Starting_5min);
             try assumption; reflexivity.
    + (* an hourly generation reads the watermark *)
      destruct (begin_hourly_cases d now) as [[Hnil ->]|[Hne ->]]; cbn [w_daemon].
      * destruct g; cbn [watermark set_last_hourly last_5min_summary
                         last_hourly_summary] in *.
        -- split; [|lia].
           apply orderly_settle with (t := t) (d := d) (th := Starting_hourly);
             try assumption; reflexivity.
        -- specialize (Hb eq_refl). split; [|lia].
           apply orderly_quiet; [cbn; lia|].
           apply filter_nil_no_match.
           rewrite (filter_set_thread_same Hourly Finished l tid Starting_hourly);
             try reflexivity; try assumption.
           now apply filter_nil_no_match.
      * destruct g; cbn [watermark] in *.
        -- split; [|lia].
           apply orderly_settle with (t := t) (d := d) (th := Starting_hourly);
             try assumption; reflexivity.
        -- specialize (Hb eq_refl). split; [|lia].
           unfold orderly; cbn [w_daemon w_threads watermark].
           split; [lia|]. split; [now apply set_thread_on_quiet|].
           apply Forall_set_thread.
           ++ apply (quiet_has_no_pending Hourly
                       (fun n s => s = last_hourly_summary d /\ s <= n <= now) l Hb).
           ++ cbn. intros n s [= <- <-]. lia.
  - (* Classified *)
    destruct (nth_error l tid) as [[data ts| |p| |p|]|] eqn:En;
      cbn [w_daemon]; try (split; [exact H|lia]).
    rewrite classify_and_save_watermark. split; [|lia].
    apply orderly_settle with (t := t) (d := d) (th := Classifying data ts);
      try assumption; try lia; try (now destruct g).
    apply classify_and_save_watermark.
  - (* Answered_5min *)
    destruct (nth_error l tid) as [[data ts| |p| |p|]|] eqn:En;
      cbn [w_daemon]; try (split; [exact H|lia]).
    destruct g; cbn [watermark] in *.
    + rewrite Forall_forall in F.
      destruct (F _ (nth_error_In _ _ En) (p5_now p) (p5_start_time p) eq_refl)
        as (Es & Hs).
      assert (Q : existsb (asking Five_min) (set_thread tid Finished l) = false)
        by (now apply finish_the_only_one with (Asking_5min p)).
      destruct (answered_5min_cases d p api) as [[_ ->]|[_ ->]];
        cbn [set_last_5min set_db last_5min_summary];
        (split; [apply orderly_quiet; [cbn; lia|exact Q]|lia]).
    + assert (E : last_hourly_summary (_generate_5min_summary_answered d p api)
                  = last_hourly_summary d)
        by (destruct (answered_5min_cases d p api) as [[_ ->]|[_ ->]]; reflexivity).
      rewrite E. split; [|lia].
      apply orderly_settle with (t := t) (d := d) (th := Asking_5min p);
        try assumption; try lia; reflexivity.
  - (* Answered_hourly *)
    destruct (nth_error l tid) as [[data ts| |p| |p|]|] eqn:En;
      cbn [w_daemon]; try (split; [exact H|lia]).
    destruct g; cbn [watermark] in *.
    + destruct (answered_hourly_keeps_5min d p api v) as [_ E]. cbv zeta in E.
      rewrite E. split; [|lia].
      apply orderly_settle with (t := t) (d := d) (th := Asking_hourly p);
        try assumption; try lia; reflexivity.
    + rewrite Forall_forall in F.
      destruct (F _ (nth_error_In _ _ En) (ph_now p) (ph_start_time p) eq_refl)
        as (Es & Hs).
      assert (Q : existsb (asking Hourly) (set_thread tid Finished l) = false)
        by (now apply finish_the_only_one with (Asking_hourly p)).
      destruct (answered_hourly_cases d p api v)
        as [[_ E]|[(_ & _ & E)|(_ & vp & _ & _ & _ & _ & _ & _ & [E|E])]];
        cbv zeta in E; rewrite E;
        (split; [apply orderly_quiet; [cbn; lia|exact Q]|lia]).
Qed.

Lemma run_events_cons (w : world) (e : event) (es : list event) :
  run_events w (e :: es) = run_events (step w e) es.
Proof. reflexivity. Qed.

Lemma last_reading_cons (t : Z) (e : event) (es : list event) :
  last_reading t (e :: es)
  = last_reading (match reading e with Some now => now | None => t end) es.
Proof. reflexivity. Qed.

Lemma run_orderly (g : granularity) (es : list event) :
  forall (t : Z) (w : world),
    orderly g t w ->
    one_at_a_time g w es = true ->
    clock_never_back t es = true ->
    orderly g (last_reading t es) (run_events w es) /\
    watermark g (w_daemon w) <= watermark g (w_daemon (run_events w es)).
Proof.
  induction es as [|e es IH]; intros t w H Ho Hc; [cbn; split; [exact H|lia]|].
  rewrite run_events_cons, last_reading_cons.
  cbn [one_at_a_time clock_never_back] in Ho, Hc.
  apply andb_prop in Ho. destruct Ho as [Ho1 Ho2].
  assert (Hb : begins g w e = true -> existsb (asking g) (w_threads w) = false).
  { intros Hb. rewrite Hb in Ho1. cbn in Ho1.
    now destruct (existsb (asking g) (w_threads w)). }
  destruct (reading e) as [now|] eqn:Er.
  - apply andb_prop in Hc. destruct Hc as [Hc1 Hc2]. apply Z.leb_le in Hc1.
    destruct (step_orderly g t w e H Hb) as [H1 W1];
      [rewrite Er; now intros ? [= <-]|].
    rewrite Er in H1. destruct (IH now (step w e) H1 Ho2 Hc2) as [H2 W2].
    split; [exact H2|lia].
  - destruct (step_orderly g t w e H Hb) as [H1 W1];
      [rewrite Er; discriminate|].
    rewrite Er in H1. destruct (IH t (step w e) H1 Ho2 Hc) as [H2 W2].
    split; [exact H2|lia].
Qed.

Lemma boot_orderly (g : granularity) (t : Z) (d : FocusLogDaemon) :
  watermark g d <= t -> orderly g t (boot d).
Proof. intros W. now apply orderly_quiet. Qed.

(** *** The 5-minute rollups over one event *)








End ThreadFacts.

(** ** Consecutive rollups when generations interleave *)

Module InterleavingFacts.
Import Database Summarizer Daemon Threads Rollups Chains Scenarios ThreadScenarios
  DatabaseFacts FetchFacts CaptureFacts RollupFacts ChainFacts ThreadFacts.

Lemma run_events_app (w : world) (es1 es2 : list event) :
  run_events w (es1 ++ es2) = run_events (run_events w es1) es2.
Proof. unfold run_events. apply fold_left_app. Qed.

Lemma last_reading_app (t : Z) (es1 es2 : list event) :
  last_reading t (es1 ++ es2) = last_reading (last_reading t es1) es2.
Proof. unfold last_reading. apply fold_left_app. Qed.

Lemma one_at_a_time_app (g : granularity) (es1 es2 : list event) :
  forall w : world,
    one_at_a_time g w (es1 ++ es2) =
    one_at_a_time g w es1 && one_at_a_time g (run_events w es1) es2.
Proof.
  induction es1 as [|e es1 IH]; intros w; [reflexivity|].
  cbn [app one_at_a_time]. rewrite IH, run_events_cons. now rewrite andb_assoc.
Qed.

Lemma clock_never_back_app (es1 es2 : list event) :
  forall t : Z,
    clock_never_back t (es1 ++ es2) =
    clock_never_back t es1 && clock_never_back (last_reading t es1) es2.
Proof.
  induction es1 as [|e es1 IH]; intros t; [reflexivity|].
  cbn [app clock_never_back]. rewrite last_reading_cons.
  destruct (reading e) as [now|]; rewrite IH; [now rewrite andb_assoc|reflexivity].
Qed.


(** Two generations under way at once start from the same watermark, and
    their rollups overlap. *)
Example overlapping_generations :
  one_at_a_time Five_min (boot early_daemon) answered_in_order = false /\
  clock_never_back 0 answered_in_order = true /\
  map window
    (rollups "5min" (db (w_daemon (run_events (boot early_daemon) answered_in_order))))
  = [(0, 300); (0, 315)].
Proof. repeat split; vm_compute; reflexivity. Qed.

(** Answered in the other order, they move the watermark back. *)
Example watermark_moved_back :
  last_5min_summary
    (w_daemon (run_events (boot early_daemon)
                 (both_under_way ++
                    [Answered_5min 1 (good_answer "Edited a report.")]))) = 315 /\
  last_5min_summary
    (w_daemon (run_events (boot early_daemon) answered_out_of_order)) = 300.
Proof. split; vm_compute; reflexivity. Qed.



(** X15.  In every run in which no two generations of a granularity are
    under way at once and the clock does not run back, the watermark of
    that granularity never moves back, at any point of the run, and is
    never ahead of the clock. *)
Theorem watermarks_never_move_back :
  forall (g : granularity) (d : FocusLogDaemon) (es1 es2 : list event) (t : Z),
    watermark g d <= t ->
    one_at_a_time g (boot d) (es1 ++ es2) = true ->
    clock_never_back t (es1 ++ es2) = true ->
    watermark g d <= watermark g (w_daemon (run_events (boot d) es1)) /\
    watermark g (w_daemon (run_events (boot d) es1))
      <= watermark g (w_daemon (run_events (boot d) (es1 ++ es2))) /\
    watermark g (w_daemon (run_events (boot d) (es1 ++ es2)))
      <= last_reading t (es1 ++ es2).
Proof.
  intros g d es1 es2 t Ht Ho Hk.
  rewrite one_at_a_time_app in Ho. apply andb_prop in Ho. destruct Ho as [Ho1 Ho2].
  rewrite clock_never_back_app in Hk. apply andb_prop in Hk. destruct Hk as [Hk1 Hk2].
  destruct (run_orderly g es1 t (boot d) (boot_orderly g t d Ht) Ho1 Hk1) as [H1 W1].
  destruct (run_orderly g es2 _ _ H1 Ho2 Hk2) as [H2 W2].
  rewrite run_events_app, last_reading_app.
  split; [exact W1|]. split; [exact W2|]. now destruct H2.
Qed.

Lemma watermarks_never_move_back_witness :
  watermark Five_min early_daemon
    <= watermark Five_min
         (w_daemon (run_events (boot early_daemon) (firstn 5 one_after_the_other))) /\
  watermark Five_min
    (w_daemon (run_events (boot early_daemon) (firstn 5 one_after_the_other)))
    <= watermark Five_min
         (w_daemon
            (run_events (boot early_daemon)
               (firstn 5 one_after_the_other ++ skipn 5 one_after_the_other))) /\
  watermark Five_min
    (w_daemon
       (run_events (boot early_daemon)
          (firstn 5 one_after_the_other ++ skipn 5 one_after_the_other)))
    <= last_reading 0 (firstn 5 one_after_the_other ++ skipn 5 one_after_the_other).
Proof.
  apply (watermarks_never_move_back Five_min early_daemon
           (firstn 5 one_after_the_other) (skipn 5 one_after_the_other) 0).
  - cbn. lia.
  - vm_compute. reflexivity.
  - vm_compute. reflexivity.
Defined.

(** X16.  What lies at or before a watermark is not summarized later.
    After a run with one 5-minute generation at a time and a clock that
    does not run back, every capture a 5-minute generation would fetch has
    a timestamp after the 5-minute watermark the run started from; after a
    run with one hourly generation at a time, every rollup an hourly
    generation would fetch starts no earlier than the hourly watermark the
    run started from. *)
Theorem late_records_are_never_summarized :
  forall (d : FocusLogDaemon) (es : list event) (t : Z),
    clock_never_back t es = true ->
    let d' := w_daemon (run_events (boot d) es) in
    (last_5min_summary d <= t ->
     one_at_a_time Five_min (boot d) es = true ->
     forall c,
       In c (get_captures_since (db d') (last_5min_summary d') false) ->
       last_5min_summary d < cd_timestamp c) /\
    (last_hourly_summary d <= t ->
     one_at_a_time Hourly (boot d) es = true ->
     forall now s,
       In s (get_summaries_in_range (db d') "5min" (last_hourly_summary d') now) ->
       last_hourly_summary d <= sd_start_time s).
Proof.
  intros d es t Hk. cbv zeta. split; intros Ht Ho.
  - destruct (run_orderly Five_min es t (boot d) (boot_orderly Five_min t d Ht) Ho Hk)
      as [_ W]. cbn [watermark boot w_daemon] in W.
    intros c Hc. apply get_captures_since_In in Hc.
    destruct Hc as (r & _ & Hlt & ->). cbn. lia.
  - destruct (run_orderly Hourly es t (boot d) (boot_orderly Hourly t d Ht) Ho Hk)
      as [_ W]. cbn [watermark boot w_daemon] in W.
    intros now s Hs. apply QueryFacts.get_summaries_in_range_In in Hs.
    destruct Hs as (r & _ & -> & _ & Hlo & _). cbn. lia.
Qed.

Lemma late_records_are_never_summarized_witness :
  Forall (fun c => 0 < cd_timestamp c)
    (get_captures_since
       (db (w_daemon (run_events (boot early_daemon) (firstn 7 one_after_the_other))))
       (last_5min_summary
          (w_daemon (run_events (boot early_daemon) (firstn 7 one_after_the_other))))
       false) /\
  map cd_timestamp
    (get_captures_since
       (db (w_daemon (run_events (boot early_daemon) (firstn 7 one_after_the_other))))
       (last_5min_summary
          (w_daemon (run_events (boot early_daemon) (firstn 7 one_after_the_other))))
       false)
  = [400].
Proof.
  split; [|vm_compute; reflexivity].
  apply Forall_forall.
  apply (late_records_are_never_summarized early_daemon
           (firstn 7 one_after_the_other) 0).
  - vm_compute. reflexivity.
  - cbn. lia.
  - vm_compute. reflexivity.
Defined.

End InterleavingFacts.

(** ** What a completed answer becomes *)

Module AnswerFacts.
Import Database Summarizer Daemon Threads Rollups Scenarios ThreadScenarios
  DatabaseFacts SummarizerFacts ThreadFacts.

(** One more byte of the text, and the test made on the bytes so far. *)
Ltac peel s tac :=
  destruct s as [|? s];
  cbn [lstrip all_space drop_space append String.length];
  [tac|];
  match goal with
  | |- context [if isspace ?x then _ else _] =>
      let E := fresh "E" in destruct (isspace x) eqn:E; [tac|]
  end.

Lemma lstrip_eq (s : string) :
  lstrip s = match drop_space s with Some r => lstrip r | None => s end.
Proof.
  peel s reflexivity. peel s reflexivity. peel s reflexivity. reflexivity.
Qed.

Lemma all_space_eq (s : string) :
  all_space s =
  match s with
  | EmptyString => true
  | String _ _ =>
      match drop_space s with Some r => all_space r | None => false end
  end.
Proof.
  peel s reflexivity. peel s reflexivity. peel s reflexivity. reflexivity.
Qed.

Lemma drop_space_shorter (s r : string) :
  drop_space s = Some r -> (String.length r < String.length s)%nat.
Proof.
  peel s ltac:(intros H; try discriminate; injection H as <-; cbn; lia).
  peel s ltac:(intros H; try discriminate; injection H as <-; cbn; lia).
  peel s ltac:(intros H; try discriminate; injection H as <-; cbn; lia).
  discriminate.
Qed.

Lemma drop_space_append (u r y : string) :
  drop_space u = Some r -> drop_space (u ++ y) = Some (r ++ y)%string.
Proof.
  peel u ltac:(intros H; try discriminate; injection H as <-; reflexivity).
  peel u ltac:(intros H; try discriminate; injection H as <-; reflexivity).
  peel u ltac:(intros H; try discriminate; injection H as <-; reflexivity).
  discriminate.
Qed.

Lemma drop_space_inv (s r : string) :
  drop_space s = Some r -> exists w, isspace w = true /\ s = (w ++ r)%string.
Proof.
  peel s ltac:(intros H; try discriminate; injection H as <-;
               eexists; (split; [eassumption|reflexivity])).
  peel s ltac:(intros H; try discriminate; injection H as <-;
               eexists; (split; [eassumption|reflexivity])).
  peel s ltac:(intros H; try discriminate; injection H as <-;
               eexists; (split; [eassumption|reflexivity])).
  discriminate.
Qed.

(** A text that begins with a white-space character loses exactly that
    character. *)
Lemma space_drop (w y : string) :
  isspace w = true -> drop_space (w ++ y) = Some y.
Proof.
  unfold isspace. intros H. apply existsb_exists in H.
  destruct H as (x & Hin & E). apply String.eqb_eq in E. subst x.
  vm_compute in Hin.
  repeat (destruct Hin as [<-|Hin]; [reflexivity|]). destruct Hin.
Qed.

Lemma append_assoc (a b c : string) :
  ((a ++ b) ++ c = a ++ (b ++ c))%string.
Proof. induction a as [|x a IH]; cbn; [reflexivity|now rewrite IH]. Qed.

Lemma space_not_empty (w : string) : isspace w = true -> w <> EmptyString.
Proof. intros H ->. vm_compute in H. discriminate. Qed.

Lemma all_space_space (w y : string) :
  isspace w = true -> all_space (w ++ y) = all_space y.
Proof.
  intros H. rewrite all_space_eq, (space_drop w y H).
  destruct w as [|a w']; [now apply space_not_empty in H|reflexivity].
Qed.

Lemma by_length (P : string -> Prop) :
  (forall s, (forall r, (String.length r < String.length s)%nat -> P r) -> P s) ->
  forall s, P s.
Proof.
  intros H.
  assert (G : forall n s, (String.length s < n)%nat -> P s).
  { induction n as [|n IH]; intros s Hn; [lia|].
    apply H. intros r Hr. apply IH. lia. }
  intros s. apply (G (S (String.length s))). lia.
Qed.

Lemma lstrip_nil_iff (s : string) : lstrip s = EmptyString <-> all_space s = true.
Proof.
  induction s as [s IH] using by_length.
  rewrite lstrip_eq, all_space_eq. destruct s as [|a s1]; [now split|].
  destruct (drop_space (String a s1)) as [r|] eqn:E.
  - apply IH. now apply drop_space_shorter.
  - split; discriminate.
Qed.

Lemma lstrip_clean (s : string) : drop_space (lstrip s) = None.
Proof.
  induction s as [s IH] using by_length.
  rewrite lstrip_eq. destruct (drop_space s) as [r|] eqn:E; [|exact E].
  apply IH. now apply drop_space_shorter.
Qed.

Lemma rstrip_nil_iff (s : string) : rstrip s = EmptyString <-> all_space s = true.
Proof.
  destruct s as [|c s]; [now split|]. cbn [rstrip].
  destruct (all_space (String c s)); split; congruence.
Qed.

Lemma all_space_clean (t : string) :
  all_space t = true -> drop_space t = None -> t = EmptyString.
Proof.
  rewrite all_space_eq. destruct t; [reflexivity|]. intros H E.
  rewrite E in H. discriminate.
Qed.

Lemma strip_nil_iff (s : string) : strip s = EmptyString <-> all_space s = true.
Proof.
  unfold strip. rewrite rstrip_nil_iff. split.
  - intros H. apply lstrip_nil_iff. apply all_space_clean; [exact H|].
    apply lstrip_clean.
  - intros H. apply lstrip_nil_iff in H. now rewrite H.
Qed.

(** [rstrip] cuts a tail made of white space. *)
Lemma rstrip_prefix (s : string) :
  exists y, s = (rstrip s ++ y)%string /\ all_space y = true.
Proof.
  induction s as [|c s IH]; [now exists EmptyString|]. cbn [rstrip].
  destruct (all_space (String c s)) eqn:E; [now exists (String c s)|].
  destruct IH as (y & Hy & Ay). exists y. split; [|exact Ay].
  cbn [append]. now rewrite <- Hy.
Qed.

Lemma rstrip_clean (s : string) :
  forall x w, isspace w = true -> rstrip s <> (x ++ w)%string.
Proof.
  assert (Hnil : forall x w, isspace w = true -> EmptyString <> (x ++ w)%string).
  { intros [|c x] w Hw E; cbn in E; [|discriminate].
    now apply (space_not_empty w). }
  induction s as [|c s IH]; intros x w Hw; [now apply Hnil|]. cbn [rstrip].
  destruct (all_space (String c s)) eqn:A; [now apply Hnil|].
  destruct x as [|c' x']; cbn [append]; intros E.
  - destruct (rstrip_prefix s) as (y & Hy & Ay).
    assert (A' : all_space (String c s) = true).
    { rewrite Hy. change (String c (rstrip s ++ y))
        with ((String c (rstrip s)) ++ y)%string.
      rewrite E, all_space_space; assumption. }
    congruence.
  - injection E as _ E. exact (IH x' w Hw E).
Qed.

Lemma strip_clean (s : string) :
  forall x w, isspace w = true ->
              strip s <> (w ++ x)%string /\ strip s <> (x ++ w)%string.
Proof.
  intros x w Hw. split; [|now apply rstrip_clean].
  unfold strip. intros E.
  destruct (rstrip_prefix (lstrip s)) as (y & Hy & _).
  pose proof (lstrip_clean s) as C. rewrite Hy, E in C.
  rewrite append_assoc in C.
  rewrite (space_drop w _ Hw) in C. discriminate.
Qed.



(** X14.  A response that passed every check of the generator yields the
    model's text without the white space around it: the summary neither
    begins nor ends with a white-space character, and it is empty exactly
    when the text is all white space.  Such a blank answer is not read as a
    failure: the 5-minute generation persists a rollup with empty content
    and moves the watermark. *)
Theorem blank_answer_is_persisted :
  forall (d : FocusLogDaemon) (p : pending_5min) (api : api_result)
         (content : string),
    p5_captures p <> [] ->
    completed api = Some content ->
    let summary := generate_5min_summary (p5_captures p) api in
    (summary = EmptyString <-> all_space content = true) /\
    (forall x w, isspace w = true ->
                 summary <> (w ++ x)%string /\ summary <> (x ++ w)%string) /\
    (all_space content = true ->
     summaries (db (_generate_5min_summary_answered d p api)) =
       summaries (db d) ++
         [mk_summary (summaries_seq (db d) + 1) "5min" (p5_start_time p)
            (p5_now p) "" None] /\
     last_5min_summary (_generate_5min_summary_answered d p api) = p5_now p).
Proof.
  intros d p api content Hne Hc. cbv zeta.
  assert (E : generate_5min_summary (p5_captures p) api = strip content).
  { destruct (p5_captures p); [congruence|]. now apply completed_returns_text. }
  rewrite E. split; [apply strip_nil_iff|]. split; [apply strip_clean|].
  intros Hb. apply strip_nil_iff in Hb.
  destruct (answered_5min_cases d p api) as [[F _]|[_ G]]; cbv zeta in *.
  - rewrite E, Hb in F. discriminate.
  - rewrite G, E, Hb. cbn. now split.
Qed.

Lemma blank_answer_is_persisted_witness :
  map sum_content
    (summaries
       (db (_generate_5min_summary_answered (__init__ 15 twenty_captures 300 3600)
              first_window (good_answer blank_answer))))
  = [EmptyString].
Proof.
  destruct (blank_answer_is_persisted (__init__ 15 twenty_captures 300 3600)
              first_window (good_answer blank_answer) blank_answer)
    as (_ & _ & H).
  - vm_compute. discriminate.
  - reflexivity.
  - destruct (H ltac:(vm_compute; reflexivity)) as [S _]. rewrite S. reflexivity.
Defined.

End AnswerFacts.

(** ** Failed generations and their retry *)

Module RetryFacts.
Import Database Summarizer Daemon Threads Rollups Retention DaemonNotions
  Scenarios ThreadScenarios DatabaseFacts FetchFacts SummarizerFacts RollupFacts
  QueryFacts ThreadFacts.






(** X18.  What a failing video costs.  Once the summarizer has answered,
    the hourly generation persists its rollup whenever the video block
    returns, with or without a video: [generate_video] returning [False]
    only leaves the rollup without a path, and the path is attached only
    when it returned [True] on at least one stored payload that is neither
    NULL nor empty.  When a step of the block raises (the temporary
    directory, the writing of a frame, or [generate_video] itself), the
    rollup is not persisted and the daemon is left as it was. *)
Theorem hourly_rollup_survives_video_failure :
  forall (d : FocusLogDaemon) (p : pending_hourly) (api : api_result)
         (v : video_staging),
    startswith (generate_hourly_summary (ph_five_min_summaries p) api)
      "Error generating summary:" = false ->
    let captures_ := get_captures_since (db d) (ph_start_time p) true in
    let d' := _generate_hourly_summary_answered d p api v in
    (forall video_path,
        stage_video captures_ v = Value video_path ->
        summaries (db d') =
          summaries (db d) ++
            [mk_summary (summaries_seq (db d) + 1) "hourly" (ph_start_time p)
               (ph_now p)
               (generate_hourly_summary (ph_five_min_summaries p) api)
               video_path] /\
        (video_path = None \/ video_path = Some (vs_video_path_full v)) /\
        (video_path = Some (vs_video_path_full v) ->
         vs_generate_video v = Value true /\
         exists c, In c captures_ /\ has_frame c = true)) /\
    (forall e, stage_video captures_ v = Exception e -> d' = d) /\
    ((exists e, stage_video captures_ v = Exception e) <->
     captures_ <> [] /\
     (vs_mkdtemp v <> None \/
      existsb has_frame captures_ = true /\
      (vs_write_bytes v <> None \/ exists e, vs_generate_video v = Exception e))) /\
    (vs_mkdtemp v = None -> vs_write_bytes v = None ->
     vs_generate_video v = Value false ->
     stage_video captures_ v = Value None).
Proof.
  intros d p api v Hok. cbv zeta.
  pose proof (answered_hourly_cases d p api v) as Hcases. cbv zeta in Hcases.
  set (captures_ := get_captures_since (db d) (ph_start_time p) true) in *.
  assert (Hframes : match filter has_frame captures_ with
                    | [] => existsb has_frame captures_ = false
                    | _ => existsb has_frame captures_ = true
                    end).
  { generalize captures_. intros l. induction l as [|c l IH]; cbn; [reflexivity|].
    destruct (has_frame c); cbn; [reflexivity|exact IH]. }
  split; [|split; [|split]].
  - intros video_path Hv.
    destruct Hcases as [[F _]|[(_ & (e & St) & _)|(_ & vp & St & S & _)]];
      try congruence.
    split; [rewrite S; congruence|].
    unfold stage_video in Hv.
    destruct captures_ as [|c cs] eqn:Ec; [injection Hv as <-; split; [now left|discriminate]|].
    destruct (vs_mkdtemp v); [discriminate|].
    destruct (filter has_frame (c :: cs)) as [|f fs] eqn:Ef;
      [injection Hv as <-; split; [now left|discriminate]|].
    destruct (vs_write_bytes v); [discriminate|].
    destruct (vs_generate_video v) as [[|]|e]; try discriminate;
      injection Hv as <-; (split; [auto|]); try discriminate.
    intros _. split; [reflexivity|]. apply existsb_exists.
    exact Hframes.
  - intros e He.
    destruct Hcases as [[F _]|[(_ & _ & E)|(_ & vp & St & _)]]; congruence.
  - unfold stage_video.
    destruct captures_ as [|c cs] eqn:Ec.
    { split; [intros [e He]; discriminate|intros [H _]; congruence]. }
    destruct (vs_mkdtemp v) as [e1|].
    { split; [intros _; split; [discriminate|left; discriminate]|now exists e1]. }
    destruct (filter has_frame (c :: cs)) as [|f fs].
    { split; [intros [e He]; discriminate|].
      intros [_ [H|[H _]]]; congruence. }
    destruct (vs_write_bytes v) as [e2|].
    { split; [|now exists e2]. intros _. split; [discriminate|].
      right. split; [exact Hframes|left; discriminate]. }
    destruct (vs_generate_video v) as [b|e3].
    { split; [intros [e He]; discriminate|].
      intros [_ [H|[_ [H|[e H]]]]]; congruence. }
    split; [|now exists e3]. intros _. split; [discriminate|].
    right. split; [exact Hframes|right; now exists e3].
  - intros M Wb G. unfold stage_video. rewrite M, Wb, G.
    destruct captures_; [reflexivity|]. now destruct (filter has_frame _).
Qed.

Lemma hourly_rollup_survives_video_failure_witness :
  map sum_video_path
    (summaries
       (db (_generate_hourly_summary_answered hour_one first_hour
              (good_answer "A quiet hour.")
              (mk_video_staging "videos/focuslog.mp4" None None (Value false)))))
  = [None; None] /\
  _generate_hourly_summary_answered hour_one first_hour (good_answer "A quiet hour.")
    (mk_video_staging "videos/focuslog.mp4" None None
       (Exception "[Errno 28] No space left on device"))
  = hour_one.
Proof.
  split.
  - destruct (hourly_rollup_survives_video_failure hour_one first_hour
                (good_answer "A quiet hour.")
                (mk_video_staging "videos/focuslog.mp4" None None (Value false)))
      as (H & _); [vm_compute; reflexivity|].
    destruct (H None ltac:(vm_compute; reflexivity)) as (S & _).
    rewrite S. vm_compute. reflexivity.
  - destruct (hourly_rollup_survives_video_failure hour_one first_hour
                (good_answer "A quiet hour.")
                (mk_video_staging "videos/focuslog.mp4" None None
                   (Exception "[Errno 28] No space left on device")))
      as (_ & H & _); [vm_compute; reflexivity|].
    apply (H "[Errno 28] No space left on device"). vm_compute. reflexivity.
Defined.

End RetryFacts.

(** ** [generate_video] and the calls outside its [try] *)

Module VideoGeneratorFacts.
Import Threads Video VideoGenerator.

Lemma link_frames_quiet (os : video_os) (l : list (Z * string)) :
  (forall src, os_symlink os src = None) ->
  link_frames os l = (filter (fun x => path_exists (os_files os) (snd x)) l, None).
Proof.
  intros Hq. induction l as [|[i src] l IH]; cbn [link_frames filter snd];
    [reflexivity|].
  destruct (path_exists (os_files os) src); [|exact IH].
  now rewrite Hq, IH.
Qed.

(** The first link that cannot be created, if any. *)
Lemma link_frames_error (os : video_os) (l : list (Z * string)) :
  match snd (link_frames os l) with
  | Some e =>
      exists i src, In (i, src) l /\ path_exists (os_files os) src = true /\
                    os_symlink os src = Some e
  | None =>
      fst (link_frames os l)
        = filter (fun x => path_exists (os_files os) (snd x)) l /\
      forall i src, In (i, src) l -> path_exists (os_files os) src = true ->
                    os_symlink os src = None
  end.
Proof.
  induction l as [|[i src] l IH]; cbn [link_frames filter snd fst].
  - split; [reflexivity|]. intros _ _ [].
  - destruct (path_exists (os_files os) src) eqn:Ex.
    + destruct (os_symlink os src) as [e|] eqn:Es.
      * cbn [snd]. exists i, src. split; [now left|now split].
      * destruct (link_frames os l) as [links [e|]]; cbn [snd fst] in *.
        -- destruct IH as (j & s & Hin & Hx & Hs).
           exists j, s. split; [now right|now split].
        -- destruct IH as [-> Hall]. split; [reflexivity|].
           intros j s [[= <- <-]|Hin] Hx; [exact Es|now apply (Hall j)].
    + destruct (snd (link_frames os l)) as [e|].
      * destruct IH as (j & s & Hin & Hx & Hs).
        exists j, s. split; [now right|now split].
      * destruct IH as [-> Hall]. split; [reflexivity|].
        intros j s [[= <- <-]|Hin] Hx; [congruence|now apply (Hall j)].
Qed.

Lemma filter_length_zero {A : Type} (f : A -> bool) (l : list A) :
  (Z.of_nat (List.length (filter f l)) =? 0) = negb (existsb f l).
Proof.
  induction l as [|x l IH]; cbn [filter existsb]; [reflexivity|].
  destruct (f x); cbn [orb negb]; [|exact IH].
  cbn [List.length]. apply Z.eqb_neq. lia.
Qed.

Lemma existsb_enumerate {A : Type} (f : A -> bool) (l : list A) :
  forall start : Z,
    existsb (fun x => f (snd x)) (enumerate start l) = existsb f l.
Proof.
  induction l as [|x l IH]; intros start; cbn [enumerate existsb snd];
    [reflexivity|].
  now rewrite IH.
Qed.

(** Where nothing outside the [try] raises, and the output directory has a
    name, the call does what [Video.generate_video] describes. *)
Lemma generate_video_obliging (screenshot_paths : list string)
    (output_path : string) (env : video_env) :
  dirname output_path <> EmptyString ->
  let r := Video.generate_video screenshot_paths env in
  VideoGenerator.generate_video screenshot_paths output_path (obliging env)
  = mk_video_call (symlinks r) (ffmpeg_ran r) (Value (returned r)).
Proof.
  intros Hd. cbv zeta.
  unfold VideoGenerator.generate_video, Video.generate_video, makedirs, leave.
  destruct screenshot_paths as [|p ps]; [reflexivity|].
  apply String.eqb_neq in Hd. rewrite Hd.
  cbn [obliging os_makedirs os_TemporaryDirectory os_listdir os_getsize
       os_cleanup os_files].
  rewrite link_frames_quiet by reflexivity.
  cbn [obliging os_files]. cbv zeta.
  destruct (Z.of_nat _ =? 0); [reflexivity|].
  destruct (ffmpeg env); [|reflexivity|reflexivity].
  now destruct (output_exists env).
Qed.

(** The call once every step before ffmpeg has gone through. *)
Lemma generate_video_started (screenshot_paths : list string)
    (output_path : string) (os : video_os) :
  screenshot_paths <> [] ->
  makedirs os (dirname output_path) = None ->
  os_TemporaryDirectory os = None ->
  snd (link_frames os (enumerate 1 screenshot_paths)) = None ->
  os_listdir os = None ->
  VideoGenerator.generate_video screenshot_paths output_path os
  = mk_video_call
      (filter (fun x => path_exists (os_files os) (snd x))
         (enumerate 1 screenshot_paths))
      (existsb (path_exists (os_files os)) screenshot_paths)
      (leave os
         (Value
            (existsb (path_exists (os_files os)) screenshot_paths &&
             match ffmpeg (os_files os) with
             | Exited =>
                 output_exists (os_files os) &&
                 match os_getsize os with None => true | Some _ => false end
             | _ => false
             end))).
Proof.
  intros Hne M T L D. unfold VideoGenerator.generate_video.
  destruct screenshot_paths as [|p ps]; [congruence|].
  rewrite M, T.
  pose proof (link_frames_error os (enumerate 1 (p :: ps))) as Hl.
  rewrite L in Hl. destruct Hl as [Hl _].
  destruct (link_frames os (enumerate 1 (p :: ps))) as [links err].
  cbn [fst snd] in *. subst links err. rewrite D.
  rewrite filter_length_zero.
  rewrite (existsb_enumerate (path_exists (os_files os)) (p :: ps) 1).
  destruct (existsb (path_exists (os_files os)) (p :: ps)); cbn [negb andb];
    [|reflexivity].
  destruct (ffmpeg (os_files os)); [|reflexivity|reflexivity].
  destruct (output_exists (os_files os)); cbn [andb]; [|reflexivity].
  now destruct (os_getsize os).
Qed.

(** The call when a step before ffmpeg raises. *)
Lemma generate_video_stopped (screenshot_paths : list string)
    (output_path : string) (os : video_os) :
  screenshot_paths <> [] ->
  match makedirs os (dirname output_path), os_TemporaryDirectory os,
        snd (link_frames os (enumerate 1 screenshot_paths)),
        os_listdir os with
  | None, None, None, None => true
  | _, _, _, _ => false
  end = false ->
  vc_ffmpeg_ran (VideoGenerator.generate_video screenshot_paths output_path os)
    = false /\
  exists e,
    vc_result (VideoGenerator.generate_video screenshot_paths output_path os)
      = Exception e.
Proof.
  intros Hne Hs. unfold VideoGenerator.generate_video, leave.
  destruct screenshot_paths as [|p ps]; [congruence|].
  destruct (makedirs os (dirname output_path)) as [e|];
    [split; [reflexivity|now exists e]|].
  destruct (os_TemporaryDirectory os) as [e|];
    [split; [reflexivity|now exists e]|].
  destruct (link_frames os (enumerate 1 (p :: ps))) as [links [e|]];
    cbn [snd] in Hs.
  { split; [reflexivity|]. cbn [vc_result].
    destruct (os_cleanup os) as [c|]; eexists; reflexivity. }
  destruct (os_listdir os) as [e|]; [|discriminate].
  split; [reflexivity|]. cbn [vc_result].
  destruct (os_cleanup os) as [c|]; eexists; reflexivity.
Qed.

(** X29.  [generate_video] on an empty list returns False and touches
    nothing.  On a non-empty list it first creates the directory of
    [output_path] and the temporary directory, then the links; an error of
    one of these calls, of [os.listdir] or of the removal of the temporary
    directory is raised to the caller, and in particular an [output_path]
    without a directory part always raises.  ffmpeg runs exactly when
    none of the calls before it raised and at least one listed source
    exists.  The call returns True exactly when ffmpeg ran and exited
    normally, the output file exists, its size could be read and the
    removal raised nothing; whatever ffmpeg raises only gives False. *)
Theorem generate_video_runs_and_succeeds :
  forall (screenshot_paths : list string) (output_path : string)
         (os : video_os),
    let r := VideoGenerator.generate_video screenshot_paths output_path os in
    let started :=
      match screenshot_paths with
      | [] => false
      | _ =>
          match makedirs os (dirname output_path), os_TemporaryDirectory os,
                snd (link_frames os (enumerate 1 screenshot_paths)),
                os_listdir os with
          | None, None, None, None => true
          | _, _, _, _ => false
          end
      end in
    (screenshot_paths = [] -> r = mk_video_call [] false (Value false)) /\
    (screenshot_paths <> [] -> dirname output_path = EmptyString ->
     exists e, vc_result r = Exception e /\ vc_symlinks r = [] /\
               vc_ffmpeg_ran r = false) /\
    (vc_ffmpeg_ran r = true <->
     started = true /\
     existsb (path_exists (os_files os)) screenshot_paths = true) /\
    (vc_result r = Value true <->
     vc_ffmpeg_ran r = true /\ ffmpeg (os_files os) = Exited /\
     output_exists (os_files os) = true /\ os_getsize os = None /\
     os_cleanup os = None) /\
    ((exists e, vc_result r = Exception e) <->
     screenshot_paths <> [] /\
     (started = false \/ os_cleanup os <> None)) /\
    (started = true -> os_cleanup os = None ->
     ffmpeg (os_files os) <> Exited ->
     existsb (path_exists (os_files os)) screenshot_paths = true ->
     vc_result r = Value false /\ vc_ffmpeg_ran r = true).
Proof.
  intros screenshot_paths output_path os. cbv zeta.
  destruct screenshot_paths as [|p ps].
  { cbn [VideoGenerator.generate_video vc_ffmpeg_ran vc_result].
    split; [reflexivity|]. split; [congruence|].
    split; [split; [discriminate|intros [? _]; discriminate]|].
    split; [split; [discriminate|intros [? _]; discriminate]|].
    split; [split; [intros [e ?]; discriminate|intros [? _]; congruence]|].
    intros ?; discriminate. }
  set (paths := p :: ps).
  assert (Hne : paths <> []) by discriminate.
  split; [intros E; discriminate|].
  split.
  { intros _ Hd. unfold VideoGenerator.generate_video, makedirs, paths.
    rewrite Hd. cbn [String.eqb]. eexists. cbn. repeat split. }
  pose proof (generate_video_started paths output_path os Hne) as Hstarted.
  pose proof (generate_video_stopped paths output_path os Hne) as Hstopped.
  destruct (makedirs os (dirname output_path)) as [e1|];
    [|destruct (os_TemporaryDirectory os) as [e2|];
      [|destruct (snd (link_frames os (enumerate 1 paths))) as [e3|];
        [|destruct (os_listdir os) as [e4|]]]].
  5: {
    rewrite (Hstarted eq_refl eq_refl eq_refl eq_refl).
    clear Hstarted Hstopped. unfold leave.
    cbn [vc_ffmpeg_ran vc_result].
    destruct (existsb (path_exists (os_files os)) paths);
      destruct (os_cleanup os) as [c|];
      destruct (ffmpeg (os_files os)) as [|s|s];
      destruct (output_exists (os_files os));
      destruct (os_getsize os) as [g|]; cbn [andb];
      (split; [split; [first [discriminate|now split]
                      |first [reflexivity|intros [_ ?]; discriminate]]|]);
      (split; [split; [first [discriminate|intros _; now repeat split]
                      |first [reflexivity
                             |intros (R & F & O & G & C); discriminate]]|]);
      (split; [split; [first [intros [e ?]; discriminate
                             |intros _; split; [exact Hne|right; discriminate]]
                      |first [intros _; eexists; reflexivity
                             |intros [_ [?|?]]; congruence]]|]);
      intros _ C F X; first [discriminate|congruence|now split]. }
  all: destruct (Hstopped eq_refl) as [Hran [e He]];
    rewrite Hran, He;
    (split; [split; [discriminate|intros [? _]; discriminate]|]);
    (split; [split; [discriminate|intros [? _]; discriminate]|]);
    (split; [|intros ?; discriminate]);
    (split; [intros _; split; [exact Hne|now left]|now exists e]).
Qed.

Lemma generate_video_runs_and_succeeds_witness :
  vc_result (VideoGenerator.generate_video one_frame "out.mp4" (obliging frame_there))
  = Exception "[Errno 2] No such file or directory: ''" /\
  vc_result
    (VideoGenerator.generate_video one_frame "videos/focuslog_20241105_100000.mp4"
       (obliging frame_there))
  = Value true.
Proof.
  split.
  - destruct (generate_video_runs_and_succeeds one_frame "out.mp4"
                (obliging frame_there)) as (_ & H & _).
    destruct H as (e & He & _); [discriminate|reflexivity|].
    rewrite He. vm_compute in He. symmetry. exact He.
  - apply (generate_video_runs_and_succeeds one_frame
             "videos/focuslog_20241105_100000.mp4" (obliging frame_there)).
    vm_compute. repeat split.
Defined.

End VideoGeneratorFacts.
